(** * HotelIQ revenue management: metrics calculator, quality validator,
      feature engineer and ETL pipeline

    A shallow embedding of
      - [app/models/hotel.py]            (the persisted entities),
      - [app/utils/metrics_calculator.py] ([MetricsCalculator]),
      - [app/services/data_validator.py]  ([BookingDataValidator]),
      - [app/services/feature_engineering.py] ([FeatureEngineer]),
      - [app/services/etl_pipeline.py]    ([ETLPipeline]).

    Conventions.
      - A [date] is its proleptic day number, a [datetime]/[Timestamp] a
        number of clock ticks ([ticks_per_day] ticks a day); both are [Z].
      - A [Float] column holds an exact rational ([Q]); the two infinities a
        pandas division can produce are explicit ([fval]).
      - A session is the list of committed rows of each table; objects added
        but not yet committed are kept apart, because the session factory of
        [app/database/connection.py] is created with [autoflush=False].
      - A raised exception is a value of [exn] on the left of a sum. *)

From Stdlib Require Import ZArith QArith Qround Lia Ascii String.
From stdpp Require Import base option list gmap strings.

Local Open Scope Z_scope.

(** ** Exceptions the modelled code can raise *)

Inductive exn : Type :=
| ValueError_hotel_not_found (hotel_id : Z)
| ValueError_source
| ValueError_range_step
| ZeroDivisionError
| KeyError (column : string)
| TypeError
| AttributeError
| DateParseError
| IntegrityError.

(** A computation that returns or raises. *)
Definition result (A : Type) : Type := (exn + A)%type.
Definition ret {A} (a : A) : result A := inr a.
Definition raise {A} (e : exn) : result A := inl e.
#[export] Instance result_ret : MRet result := λ A a, inr a.
#[export] Instance result_bind : MBind result :=
  λ A B k c, match c with inl e => inl e | inr a => k a end.

(** What the code prints, one constructor per [print]. *)
Inductive event : Type :=
| Separator
| PipelineStarting
| PipelineComplete (duration : Z)
| ExtractingFromFile
| ExtractingFromDatabase
| Extracted (records : nat)
| TransformationStarting
| ValidatingDataQuality
| ValidationFailed
| CleaningData
| EngineeringFeatures
| TransformationComplete
| FeatureEngineeringStarting
| FeaturesCreated (group : string)
| FeatureEngineeringComplete (total : nat)
| LoadingToDatabase
| ErrorLoadingRecord
| BatchCommitted (batch_no : nat) (loaded_so_far : Z)
| BatchCommitFailed
| LoadComplete (loaded skipped errored : Z).

(** A computation that prints, then returns or raises. *)
Record IO (A : Type) : Type := mkIO {
  printed : list event;
  outcome : result A
}.
Arguments mkIO {A} _ _.
Arguments printed {A} _.
Arguments outcome {A} _.

Definition say (e : event) : IO unit := mkIO [e] (inr tt).
Definition lift {A} (c : result A) : IO A := mkIO [] c.
#[export] Instance IO_ret : MRet IO := λ A a, mkIO [] (inr a).
#[export] Instance IO_bind : MBind IO :=
  λ A B k c,
    match outcome c with
    | inl e => mkIO (printed c) (inl e)
    | inr a => mkIO (printed c ++ printed (k a)) (outcome (k a))
    end.

(** ** Numbers *)

(** Python's [round(x, 2)] on an exact value: to the nearest hundredth, ties
    to the even neighbour. *)
Definition round_half_even (q : Q) : Z :=
  let f := Qfloor q in
  match (2 * (Qnum q - f * Zpos (Qden q))) ?= Zpos (Qden q) with
  | Lt => f
  | Gt => f + 1
  | Eq => if Z.even f then f else f + 1
  end.

Definition round2 (q : Q) : Q := Qmake (round_half_even (q * 100)) 100.

(** Python's true division [a / b]. *)
Definition py_div (a b : Q) : result Q :=
  if Qeq_bool b 0 then raise ZeroDivisionError else ret (a / b)%Q.

(** ** The persisted entities ([app/models/hotel.py]) *)

Module Hotel.
Record t : Type := mk {
  id : Z;
  name : string;
  location : string;
  total_rooms : Z;
  star_rating : option Q;
  created_at : option Z
}.
End Hotel.

Module Booking.
Record t : Type := mk {
  id : Z;
  hotel_id : Z;
  room_id : Z;
  check_in_date : Z;
  check_out_date : Z;
  guest_name : option string;
  guest_email : option string;
  num_guests : Z;
  booking_price : Q;
  base_price : Q;
  booking_date : option Z;
  booking_source : option string;
  status : option string
}.
End Booking.

Module DailyMetrics.
Record t : Type := mk {
  id : Z;
  hotel_id : Z;
  date : Z;
  occupancy_rate : option Q;
  rooms_occupied : option Z;
  rooms_available : option Z;
  total_revenue : option Q;
  average_daily_rate : option Q;
  revenue_per_available_room : option Q;
  booking_count : option Z;
  cancellation_count : option Z;
  calculated_at : option Z
}.
End DailyMetrics.

(** The committed contents of the tables a session reads and writes. *)
Record Session : Type := mkSession {
  hotels : list Hotel.t;
  bookings : list Booking.t;
  daily_metrics : list DailyMetrics.t
}.

(** [query.first()]: the first row that passes the filter. *)
Definition first {A} (p : A → bool) (rows : list A) : option A := List.find p rows.

(** [query.count()]. *)
Definition count {A} (p : A → bool) (rows : list A) : Z :=
  Z.of_nat (length (List.filter p rows)).

(** An attribute assignment on the object [first] returned, written back by
    [commit]: the row keeps its place in the table. *)
Fixpoint update_first {A} (p : A → bool) (f : A → A) (rows : list A) : list A :=
  match rows with
  | [] => []
  | x :: rest => if p x then f x :: rest else x :: update_first p f rest
  end.

(** The primary key a freshly inserted row receives. *)
Definition next_id (ids : list Z) : Z := 1 + fold_right Z.max 0 ids.

(** [Column == "text"] on a nullable text column: NULL matches nothing. *)
Definition status_is (s : string) (o : option string) : bool :=
  match o with Some x => String.eqb x s | None => false end.

(** ** [MetricsCalculator] ([app/utils/metrics_calculator.py]) *)

Module MetricsCalculator.

(** The filter of the first bookings query: the bookings of the hotel that
    are active on the target date. *)
Definition is_active (hotel_id target_date : Z) (b : Booking.t) : bool :=
  (Booking.hotel_id b =? hotel_id)
  && (Booking.check_in_date b <=? target_date)
  && (target_date <? Booking.check_out_date b)
  && (status_is "confirmed" (Booking.status b)
      || status_is "completed" (Booking.status b)).

Definition is_arrival (hotel_id target_date : Z) (b : Booking.t) : bool :=
  (Booking.hotel_id b =? hotel_id) && (Booking.check_in_date b =? target_date).

Definition is_cancelled_arrival (hotel_id target_date : Z) (b : Booking.t) : bool :=
  (Booking.hotel_id b =? hotel_id) && (Booking.check_in_date b =? target_date)
  && status_is "cancelled" (Booking.status b).

Definition is_cell (hotel_id target_date : Z) (m : DailyMetrics.t) : bool :=
  (DailyMetrics.hotel_id m =? hotel_id) && (DailyMetrics.date m =? target_date).

(** [(b.check_out_date - b.check_in_date).days] *)
Definition stay_nights (b : Booking.t) : Z :=
  Booking.check_out_date b - Booking.check_in_date b.

(** One summand of the generator: [b.booking_price / stay_nights]. *)
Definition prorated (b : Booking.t) : result Q :=
  py_div (Booking.booking_price b) (inject_Z (stay_nights b)).

(** [sum(b.booking_price / (...).days for b in bookings)], from the left,
    starting at 0. *)
Fixpoint sum_prorated (acc : Q) (bs : list Booking.t) : result Q :=
  match bs with
  | [] => ret acc
  | b :: rest => x ← prorated b ; sum_prorated (acc + x)%Q rest
  end.

(** The unrounded figures of one day, lines 24 to 64. *)
Record figures : Type := mkFigures {
  f_rooms_occupied : Z;
  f_rooms_available : Z;
  f_occupancy_rate : Q;
  f_total_revenue : Q;
  f_adr : Q;
  f_revpar : Q;
  f_booking_count : Z;
  f_cancellation_count : Z
}.

Definition compute_figures (db : Session) (hotel : Hotel.t)
    (hotel_id target_date : Z) : result figures :=
  let active := List.filter (is_active hotel_id target_date) (bookings db) in
  let rooms_occupied := Z.of_nat (length active) in
  let rooms_available := Hotel.total_rooms hotel in
  let occupancy_rate :=
    if 0 <? rooms_available
    then (inject_Z rooms_occupied / inject_Z rooms_available * 100)%Q
    else 0%Q in
  total_revenue ← sum_prorated 0 active ;
  let adr :=
    if 0 <? rooms_occupied then (total_revenue / inject_Z rooms_occupied)%Q
    else 0%Q in
  let revpar :=
    if 0 <? rooms_available then (total_revenue / inject_Z rooms_available)%Q
    else 0%Q in
  let booking_count := count (is_arrival hotel_id target_date) (bookings db) in
  let cancellation_count :=
    count (is_cancelled_arrival hotel_id target_date) (bookings db) in
  ret (mkFigures rooms_occupied rooms_available occupancy_rate total_revenue
         adr revpar booking_count cancellation_count).

(** The branch "Update existing": every metric attribute is assigned,
    [id], [hotel_id] and [date] are left alone. *)
Definition assign (fg : figures) (now : Z) (m : DailyMetrics.t) : DailyMetrics.t :=
  DailyMetrics.mk (DailyMetrics.id m) (DailyMetrics.hotel_id m) (DailyMetrics.date m)
    (Some (round2 (f_occupancy_rate fg)))
    (Some (f_rooms_occupied fg))
    (Some (f_rooms_available fg))
    (Some (round2 (f_total_revenue fg)))
    (Some (round2 (f_adr fg)))
    (Some (round2 (f_revpar fg)))
    (Some (f_booking_count fg))
    (Some (f_cancellation_count fg))
    (Some now).

(** The branch "Create new". *)
Definition create (fg : figures) (now new_id hotel_id target_date : Z) : DailyMetrics.t :=
  DailyMetrics.mk new_id hotel_id target_date
    (Some (round2 (f_occupancy_rate fg)))
    (Some (f_rooms_occupied fg))
    (Some (f_rooms_available fg))
    (Some (round2 (f_total_revenue fg)))
    (Some (round2 (f_adr fg)))
    (Some (round2 (f_revpar fg)))
    (Some (f_booking_count fg))
    (Some (f_cancellation_count fg))
    (Some now).

(** [calculate_daily_metrics(db, hotel_id, target_date)]; [now] is the
    clock reading that ends up in [calculated_at]. The session after the
    commit is returned with the refreshed metric. *)
Definition calculate_daily_metrics (db : Session) (hotel_id target_date now : Z)
    : result (Session * DailyMetrics.t) :=
  match first (λ h, Hotel.id h =? hotel_id) (hotels db) with
  | None => raise (ValueError_hotel_not_found hotel_id)
  | Some hotel =>
      fg ← compute_figures db hotel hotel_id target_date ;
      match first (is_cell hotel_id target_date) (daily_metrics db) with
      | Some metric =>
          let metric' := assign fg now metric in
          ret (mkSession (hotels db) (bookings db)
                 (update_first (is_cell hotel_id target_date) (assign fg now)
                    (daily_metrics db)),
               metric')
      | None =>
          let metric :=
            create fg now (next_id (map DailyMetrics.id (daily_metrics db)))
              hotel_id target_date in
          ret (mkSession (hotels db) (bookings db) (daily_metrics db ++ [metric]),
               metric)
      end
  end.

(** [calculate_date_range_metrics]: one call per day of [start, end],
    in order; the first exception ends the loop. [days] is the number of
    days still to visit. *)
Fixpoint range_loop (db : Session) (hotel_id current_date now : Z) (days : nat)
    : result (Session * list DailyMetrics.t) :=
  match days with
  | O => ret (db, [])
  | S k =>
      '(db1, m) ← calculate_daily_metrics db hotel_id current_date now ;
      '(db2, ms) ← range_loop db1 hotel_id (current_date + 1) now k ;
      ret (db2, m :: ms)
  end.

Definition calculate_date_range_metrics (db : Session)
    (hotel_id start_date end_date now : Z) : result (Session * list DailyMetrics.t) :=
  range_loop db hotel_id start_date now (Z.to_nat (end_date - start_date + 1)).

(** The share of a booking's price that one night of its stay carries. *)
Definition daily_share (b : Booking.t) : Q :=
  (Booking.booking_price b / inject_Z (stay_nights b))%Q.

Definition shares_total (acc : Q) (bs : list Booking.t) : Q :=
  fold_left (λ a b, (a + daily_share b)%Q) bs acc.

Definition active_bookings (db : Session) (hotel_id target_date : Z) : list Booking.t :=
  List.filter (is_active hotel_id target_date) (bookings db).

Definition cell_key (m : DailyMetrics.t) : Z * Z :=
  (DailyMetrics.hotel_id m, DailyMetrics.date m).

(** At most one row per (hotel_id, date). *)
Definition one_row_per_cell (rows : list DailyMetrics.t) : Prop :=
  NoDup (map cell_key rows).

(** Two snapshots that agree on everything but [calculated_at]. *)
Definition same_figures (a b : DailyMetrics.t) : Prop :=
  DailyMetrics.id a = DailyMetrics.id b
  ∧ DailyMetrics.hotel_id a = DailyMetrics.hotel_id b
  ∧ DailyMetrics.date a = DailyMetrics.date b
  ∧ DailyMetrics.occupancy_rate a = DailyMetrics.occupancy_rate b
  ∧ DailyMetrics.rooms_occupied a = DailyMetrics.rooms_occupied b
  ∧ DailyMetrics.rooms_available a = DailyMetrics.rooms_available b
  ∧ DailyMetrics.total_revenue a = DailyMetrics.total_revenue b
  ∧ DailyMetrics.average_daily_rate a = DailyMetrics.average_daily_rate b
  ∧ DailyMetrics.revenue_per_available_room a
    = DailyMetrics.revenue_per_available_room b
  ∧ DailyMetrics.booking_count a = DailyMetrics.booking_count b
  ∧ DailyMetrics.cancellation_count a = DailyMetrics.cancellation_count b.

Definition sample_hotel : Hotel.t := Hotel.mk 1 "Sea View" "Goa" 10 None None.

Definition sample_booking (bid check_in check_out : Z) (price : Q) (st : string)
    : Booking.t :=
  Booking.mk bid 1 5 check_in check_out (Some "A Guest") None 2 price price None
    (Some "direct") (Some st).

Definition sample_db : Session :=
  mkSession [sample_hotel]
    [sample_booking 1 100 104 (8000 # 1) "confirmed";
     sample_booking 2 102 103 (2500 # 1) "completed";
     sample_booking 3 102 105 (900 # 1) "cancelled"]
    [].

End MetricsCalculator.

(** ** pandas values and frames *)

(** A float: an exact rational, an infinity, or NaN. *)
Inductive fval : Type := Fin (q : Q) | PInf | NInf | NaN.

(** A cell of a frame. [CNull] is the missing value (NaN, None, NaT);
    [CDate] is a [datetime.date], [CTime] a [Timestamp]. *)
Inductive cell : Type :=
| CNull
| CInt (z : Z)
| CFloat (x : fval)
| CStr (s : string)
| CDate (d : Z)
| CTime (t : Z).

Definition ticks_per_day : Z := 86400000000000.

Definition Qlt_bool (a b : Q) : bool := negb (Qle_bool b a).

Definition f_le (a b : fval) : bool :=
  match a, b with
  | NaN, _ | _, NaN => false
  | NInf, _ | _, PInf => true
  | Fin x, Fin y => Qle_bool x y
  | _, _ => false
  end.

Definition f_lt (a b : fval) : bool :=
  match a, b with
  | NaN, _ | _, NaN => false
  | NInf, NInf | PInf, PInf => false
  | NInf, _ | _, PInf => true
  | Fin x, Fin y => Qlt_bool x y
  | _, _ => false
  end.

Definition f_eqb (a b : fval) : bool :=
  match a, b with
  | Fin x, Fin y => Qeq_bool x y
  | PInf, PInf | NInf, NInf | NaN, NaN => true
  | _, _ => false
  end.

Definition f_add (a b : fval) : fval :=
  match a, b with
  | NaN, _ | _, NaN => NaN
  | PInf, NInf | NInf, PInf => NaN
  | PInf, _ | _, PInf => PInf
  | NInf, _ | _, NInf => NInf
  | Fin x, Fin y => Fin (x + y)
  end.

Definition f_neg (a : fval) : fval :=
  match a with Fin x => Fin (- x) | PInf => NInf | NInf => PInf | NaN => NaN end.

Definition f_sub (a b : fval) : fval := f_add a (f_neg b).

Definition q_sign (x : Q) : comparison := (Qnum x ?= 0)%Z.

Definition f_sign (a : fval) : option comparison :=
  match a with
  | Fin x => Some (q_sign x) | PInf => Some Gt | NInf => Some Lt | NaN => None
  end.

Definition signed_inf (s : comparison) : fval :=
  match s with Gt => PInf | Lt => NInf | Eq => NaN end.

Definition sign_mul (s t : comparison) : comparison :=
  match s, t with
  | Eq, _ | _, Eq => Eq
  | Gt, Gt | Lt, Lt => Gt
  | _, _ => Lt
  end.

Definition f_mul (a b : fval) : fval :=
  match a, b with
  | Fin x, Fin y => Fin (x * y)
  | _, _ =>
      match f_sign a, f_sign b with
      | Some s, Some t => signed_inf (sign_mul s t)
      | _, _ => NaN
      end
  end.

(** Float division as numpy does it: a zero divisor gives an infinity of
    the sign of the dividend, or NaN for 0/0; nothing is raised. *)
Definition f_div (a b : fval) : fval :=
  match a, b with
  | NaN, _ | _, NaN => NaN
  | Fin x, Fin y =>
      if Qeq_bool y 0 then signed_inf (q_sign x) else Fin (x / y)
  | Fin _, _ => Fin 0
  | _, Fin y =>
      match f_sign a with
      | Some s => signed_inf (sign_mul s (match q_sign y with Lt => Lt | _ => Gt end))
      | None => NaN
      end
  | _, _ => NaN
  end.

Definition is_null (c : cell) : bool :=
  match c with CNull | CFloat NaN => true | _ => false end.

(** A float result stored back into a frame. *)
Definition of_float (x : fval) : cell :=
  match x with NaN => CNull | _ => CFloat x end.

(** The numeric reading of a cell of a numeric column. *)
Definition as_float (c : cell) : result fval :=
  match c with
  | CNull => ret NaN
  | CInt z => ret (Fin (inject_Z z))
  | CFloat x => ret x
  | _ => raise TypeError
  end.

Definition is_numeric (c : cell) : bool :=
  match c with CNull | CInt _ | CFloat _ => true | _ => false end.

(** Element-wise [a <= b]. A missing value compares false; text compares
    with text; operands of unrelated types raise. *)
Definition cmp_le (a b : cell) : result bool :=
  match a, b with
  | CTime x, CTime y => ret (x <=? y)
  | CTime _, CNull | CNull, CTime _ => ret false
  | CDate x, CDate y => ret (x <=? y)
  | CStr x, CStr y => ret (String.leb x y)
  | _, _ =>
      if is_numeric a && is_numeric b
      then x ← as_float a ; y ← as_float b ; ret (f_le x y)
      else raise TypeError
  end.

(** Equality of two values as [duplicated], [drop_duplicates], [groupby]
    and [nunique] see it: missing values are alike, numbers compare by
    value. *)
Definition cell_eqb (a b : cell) : bool :=
  match a, b with
  | CStr x, CStr y => String.eqb x y
  | CDate x, CDate y => x =? y
  | CTime x, CTime y => x =? y
  | CInt x, CInt y => x =? y
  | CInt x, CFloat y | CFloat y, CInt x => f_eqb (Fin (inject_Z x)) y
  | CFloat x, CFloat y => f_eqb x y
  | CNull, c | c, CNull => is_null c
  | _, _ => false
  end.

(** A frame: the column labels in order, and the rows top to bottom. A row
    maps a label to its cell. *)
Record DataFrame : Type := mkFrame {
  columns : list string;
  rows : list (gmap string cell)
}.

Definition has_column (df : DataFrame) (c : string) : bool :=
  bool_decide (c ∈ columns df).

Definition cell_at (c : string) (r : gmap string cell) : cell :=
  default CNull (r !! c).

(** [df[c]] *)
Definition column (df : DataFrame) (c : string) : result (list cell) :=
  if has_column df c then ret (map (cell_at c) (rows df)) else raise (KeyError c).

Definition add_label (cols : list string) (c : string) : list string :=
  if bool_decide (c ∈ cols) then cols else cols ++ [c].

(** [df[c] = series] *)
Definition set_column (df : DataFrame) (c : string) (vals : list cell) : DataFrame :=
  mkFrame (add_label (columns df) c)
    (zip_with (λ r v, <[c := v]> r) (rows df) vals).

(** [df[c] = scalar] *)
Definition fill_column (df : DataFrame) (c : string) (v : cell) : DataFrame :=
  mkFrame (add_label (columns df) c) (map (λ r, <[c := v]> r) (rows df)).

Definition count_true (mask : list bool) : nat := length (List.filter (λ b, b) mask).

(** Apply a raising function to every element, left to right. *)
Fixpoint traverse {A B} (f : A → result B) (l : list A) : result (list B) :=
  match l with
  | [] => ret []
  | x :: rest => y ← f x ; ys ← traverse f rest ; ret (y :: ys)
  end.

Fixpoint traverse2 {A B C} (f : A → B → result C) (l : list A) (l' : list B)
    : result (list C) :=
  match l, l' with
  | x :: rest, x' :: rest' => y ← f x x' ; ys ← traverse2 f rest rest' ; ret (y :: ys)
  | _, _ => ret []
  end.

(** The key of the duplicate checks. *)
Definition KEY_COLUMNS : list string := ["hotel_id"; "room_id"; "check_in_date"].

Definition same_on (subset : list string) (r r' : gmap string cell) : bool :=
  forallb (λ c, cell_eqb (cell_at c r) (cell_at c r')) subset.

(** [df.duplicated(subset, keep=False)]: every row whose key occurs more
    than once is marked. *)
Definition duplicated_keep_false (subset : list string) (rs : list (gmap string cell))
    : list bool :=
  map (λ r, (1 <? length (List.filter (same_on subset r) rs))%nat) rs.

(** [df.drop_duplicates(subset, keep='first')]: a row goes when an earlier
    row has its key. [seen] holds the rows already passed. *)
Fixpoint drop_later (subset : list string) (seen rs : list (gmap string cell))
    : list (gmap string cell) :=
  match rs with
  | [] => []
  | r :: rest =>
      if existsb (same_on subset r) seen then drop_later subset seen rest
      else r :: drop_later subset (seen ++ [r]) rest
  end.

Definition drop_duplicates_keep_first (subset : list string) (df : DataFrame) : DataFrame :=
  mkFrame (columns df) (drop_later subset [] (rows df)).

(** Exactly two rows of [rs], those at positions [i] and [j], share a key:
    they agree on [KEY_COLUMNS], and no other two rows do. *)
Definition shares_key_exactly (rs : list (gmap string cell)) (i j : nat) : Prop :=
  (i < j)%nat
  ∧ (∃ ri rj, rs !! i = Some ri ∧ rs !! j = Some rj
              ∧ same_on KEY_COLUMNS ri rj = true)
  ∧ ∀ a b ra rb, a ≠ b → rs !! a = Some ra → rs !! b = Some rb →
      same_on KEY_COLUMNS ra rb = true → (a = i ∧ b = j) ∨ (a = j ∧ b = i).

(** The same, as a test. *)
Definition shares_key_exactlyb (rs : list (gmap string cell)) (i j : nat) : bool :=
  (i <? j)%nat
  && match rs !! i, rs !! j with
     | Some ri, Some rj => same_on KEY_COLUMNS ri rj
     | _, _ => false
     end
  && forallb (λ a, forallb (λ b,
       (a =? b)%nat
       || match rs !! a, rs !! b with
          | Some ra, Some rb => negb (same_on KEY_COLUMNS ra rb)
          | _, _ => true
          end
       || (a =? i)%nat && (b =? j)%nat
       || (a =? j)%nat && (b =? i)%nat)
     (seq 0 (length rs))) (seq 0 (length rs)).

(** A stable sort: insertion from the right end, an element going before
    the first one it does not exceed. *)
Fixpoint insert_sorted {A} (le : A → A → bool) (x : A) (l : list A) : list A :=
  match l with
  | [] => [x]
  | y :: rest => if le x y then x :: l else y :: insert_sorted le x rest
  end.

Definition sort_by {A} (le : A → A → bool) (l : list A) : list A :=
  fold_right (insert_sorted le) [] l.

(** ** [DataQualityReport] and [BookingDataValidator]
       ([app/services/data_validator.py]) *)

(** The messages of the report, one constructor per f-string. *)
Inductive message : Type :=
| MissingRequiredColumns (missing : list string)
| AllRequiredColumnsPresent (total_rows : nat)
| DataFrameIsEmpty
| ColumnHasNulls (col : string) (n : nat)
| DateConversionError
| CheckOutNotAfterCheckIn (n : nat)
| InvalidPrices (n : nat)
| InvalidGuestCount (n : nat)
| PotentialDuplicates (n : nat)
| UnusuallyHighPrices (n : nat)
| ValidationPassed.

Record statistics : Type := mkStatistics {
  total_records : nat;
  earliest : option Z;
  latest : option Z;
  price_min : fval;
  price_max : fval;
  price_mean : fval;
  price_median : fval;
  unique_hotels : nat;
  unique_rooms : nat
}.

Record DataQualityReport : Type := mkReport {
  errors : list message;
  warnings : list message;
  info : list message;
  stats : option statistics
}.

Definition new_report : DataQualityReport := mkReport [] [] [] None.

Definition add_error (r : DataQualityReport) (m : message) : DataQualityReport :=
  mkReport (errors r ++ [m]) (warnings r) (info r) (stats r).

Definition add_warning (r : DataQualityReport) (m : message) : DataQualityReport :=
  mkReport (errors r) (warnings r ++ [m]) (info r) (stats r).

Definition add_info (r : DataQualityReport) (m : message) : DataQualityReport :=
  mkReport (errors r) (warnings r) (info r ++ [m]) (stats r).

Definition set_stats (r : DataQualityReport) (s : statistics) : DataQualityReport :=
  mkReport (errors r) (warnings r) (info r) (Some s).

Definition is_valid (r : DataQualityReport) : bool := (length (errors r) =? 0)%nat.

(** Series reductions, missing values skipped. *)
Definition valid_floats (xs : list fval) : list fval :=
  List.filter (λ x, negb (f_eqb x NaN)) xs.

Definition f_of_nat (n : nat) : fval := Fin (inject_Z (Z.of_nat n)).

Definition series_mean (xs : list fval) : fval :=
  match valid_floats xs with
  | [] => NaN
  | v => f_div (fold_left f_add v (Fin 0)) (f_of_nat (length v))
  end.

Definition series_min (xs : list fval) : fval :=
  match valid_floats xs with
  | [] => NaN
  | x :: v => fold_left (λ m y, if f_lt y m then y else m) v x
  end.

Definition series_max (xs : list fval) : fval :=
  match valid_floats xs with
  | [] => NaN
  | x :: v => fold_left (λ m y, if f_lt m y then y else m) v x
  end.

Definition series_median (xs : list fval) : fval :=
  let v := sort_by f_le (valid_floats xs) in
  let n := length v in
  match n with
  | O => NaN
  | _ =>
      if Nat.odd n then nth (n / 2) v NaN
      else f_div (f_add (nth (n / 2 - 1) v NaN) (nth (n / 2) v NaN)) (Fin 2)
  end.

(** [series.nunique()]: the distinct values, missing ones left out. *)
Fixpoint distinct (seen cs : list cell) : list cell :=
  match cs with
  | [] => seen
  | c :: rest =>
      if is_null c || existsb (cell_eqb c) seen then distinct seen rest
      else distinct (seen ++ [c]) rest
  end.

Definition nunique (cs : list cell) : nat := length (distinct [] cs).

Definition finite (x : fval) : option Q := match x with Fin q => Some q | _ => None end.

(** [x > mean + 3 * std] with the sample standard deviation, read on exact
    values: with fewer than two valid prices, or an infinite one, the
    deviation is NaN and nothing exceeds the bound; otherwise a price
    exceeds it when it lies above the mean and the square of its distance
    to the mean is more than nine times the sample variance. *)
Definition above_three_sigma (xs : list fval) : list bool :=
  let v := valid_floats xs in
  match mapM finite v with
  | None => map (λ _, false) xs
  | Some qs =>
      if (length qs <=? 1)%nat then map (λ _, false) xs
      else
        let n := inject_Z (Z.of_nat (length qs)) in
        let mean := (fold_left Qplus qs 0 / n)%Q in
        let var := (fold_left (λ a q, a + (q - mean) * (q - mean)) qs 0 / (n - 1))%Q in
        map (λ x, match x with
                  | Fin q => Qlt_bool mean q
                             && Qlt_bool (9 * var) ((q - mean) * (q - mean))
                  | _ => false
                  end) xs
  end.

Section Validator.

(** pandas' reading of a date text: the clock reading it denotes, or
    nothing when the text is not a date. *)
Variable parse_datetime : string → option Z.

Definition Q_truncate (q : Q) : Z := Z.quot (Qnum q) (Zpos (Qden q)).

(** [pd.to_datetime] on one value. *)
Definition to_datetime (c : cell) : result cell :=
  match c with
  | CNull | CFloat NaN => ret CNull
  | CTime t => ret (CTime t)
  | CDate d => ret (CTime (d * ticks_per_day))
  | CInt n => ret (CTime n)
  | CFloat (Fin q) => ret (CTime (Q_truncate q))
  | CFloat _ => raise DateParseError
  | CStr s =>
      match parse_datetime s with
      | Some t => ret (CTime t)
      | None => raise DateParseError
      end
  end.

(** [df[c] = pd.to_datetime(df[c])] *)
Definition convert_column (df : DataFrame) (c : string) : result DataFrame :=
  cs ← column df c ; ts ← traverse to_datetime cs ; ret (set_column df c ts).

Definition REQUIRED_COLUMNS : list string :=
  ["hotel_id"; "room_id"; "check_in_date"; "check_out_date";
   "guest_name"; "num_guests"; "booking_price"; "base_price"].

Definition OPTIONAL_COLUMNS : list string :=
  ["guest_email"; "booking_source"; "status"; "booking_date"].

(** [set(REQUIRED_COLUMNS) - set(df.columns)], listed in the order of
    [REQUIRED_COLUMNS]. *)
Definition missing_cols (df : DataFrame) : list string :=
  List.filter (λ c, negb (has_column df c)) REQUIRED_COLUMNS.

(** Check 3. *)
Definition check_nulls (df : DataFrame) (report : DataQualityReport) : DataQualityReport :=
  fold_left
    (λ rep col,
       let n := count_true (map (λ r, is_null (cell_at col r)) (rows df)) in
       if (0 <? n)%nat then add_error rep (ColumnHasNulls col n) else rep)
    REQUIRED_COLUMNS report.

(** Check 4: both conversions sit in one [try]; what was assigned before
    the exception stays assigned. *)
Definition check_dates (df : DataFrame) (report : DataQualityReport)
    : DataFrame * DataQualityReport :=
  match convert_column df "check_in_date" with
  | inl _ => (df, add_error report DateConversionError)
  | inr df1 =>
      match convert_column df1 "check_out_date" with
      | inl _ => (df1, add_error report DateConversionError)
      | inr df2 => (df2, report)
      end
  end.

(** The time a [min()]/[max()] of a date column hands to [isoformat]. *)
Definition date_bound (pick : Z → Z → Z) (cs : list cell) : result (option Z) :=
  if forallb is_null cs then ret None
  else
    ts ← traverse (λ c, match c with
                        | CTime t => ret (Some t)
                        | _ => if is_null c then ret None else raise AttributeError
                        end) cs ;
    ret (fold_left (λ acc o, match acc, o with
                             | Some a, Some t => Some (pick a t)
                             | None, x | x, None => x
                             end) ts None).

Definition compute_stats (df : DataFrame) : result statistics :=
  ci ← column df "check_in_date" ;
  first_day ← date_bound Z.min ci ;
  co ← column df "check_out_date" ;
  last_day ← date_bound Z.max co ;
  price_cells ← column df "booking_price" ;
  prices ← traverse as_float price_cells ;
  hotel_cells ← column df "hotel_id" ;
  room_cells ← column df "room_id" ;
  ret (mkStatistics (length (rows df)) first_day last_day
         (series_min prices) (series_max prices)
         (series_mean prices) (series_median prices)
         (nunique hotel_cells) (nunique room_cells)).

(** [validate_dataframe(df)]. The frame is returned too: check 4 assigns
    the converted dates to the caller's frame. *)
Definition validate_dataframe (df : DataFrame) : result (DataFrame * DataQualityReport) :=
  let report := new_report in
  let missing := missing_cols df in
  if (0 <? length missing)%nat then
    ret (df, add_error report (MissingRequiredColumns missing))
  else
  let report := add_info report (AllRequiredColumnsPresent (length (rows df))) in
  if (length (rows df) =? 0)%nat || (length (columns df) =? 0)%nat then
    ret (df, add_error report DataFrameIsEmpty)
  else
  let report := check_nulls df report in
  let '(df, report) := check_dates df report in
  (* Check 5 *)
  co ← column df "check_out_date" ;
  ci ← column df "check_in_date" ;
  invalid_dates ← traverse2 cmp_le co ci ;
  let report :=
    if (0 <? count_true invalid_dates)%nat
    then add_error report (CheckOutNotAfterCheckIn (count_true invalid_dates))
    else report in
  (* Check 6 *)
  booking_price ← column df "booking_price" ;
  bad_booking ← traverse (λ c, cmp_le c (CInt 0)) booking_price ;
  base_price ← column df "base_price" ;
  bad_base ← traverse (λ c, cmp_le c (CInt 0)) base_price ;
  let invalid_prices := zip_with orb bad_booking bad_base in
  let report :=
    if (0 <? count_true invalid_prices)%nat
    then add_error report (InvalidPrices (count_true invalid_prices))
    else report in
  (* Check 7 *)
  num_guests ← column df "num_guests" ;
  invalid_guests ← traverse (λ c, cmp_le c (CInt 0)) num_guests ;
  let report :=
    if (0 <? count_true invalid_guests)%nat
    then add_error report (InvalidGuestCount (count_true invalid_guests))
    else report in
  (* Check 8 *)
  let duplicates := duplicated_keep_false KEY_COLUMNS (rows df) in
  let report :=
    if existsb (λ b, b) duplicates
    then add_warning report (PotentialDuplicates (count_true duplicates))
    else report in
  (* Check 9 *)
  prices ← traverse as_float booking_price ;
  let outliers := above_three_sigma prices in
  let report :=
    if (0 <? count_true outliers)%nat
    then add_warning report (UnusuallyHighPrices (count_true outliers))
    else report in
  (* Statistics *)
  st ← compute_stats df ;
  let report := set_stats report st in
  let report :=
    if is_valid report then add_info report ValidationPassed else report in
  ret (df, report).

(** Python's [str.strip()] on ASCII text. *)
Definition is_space (a : ascii) : bool :=
  let n := nat_of_ascii a in
  ((9 <=? n) && (n <=? 13) || (28 <=? n) && (n <=? 32))%nat.

Fixpoint lstrip (l : list ascii) : list ascii :=
  match l with
  | a :: rest => if is_space a then lstrip rest else l
  | [] => []
  end.

Definition strip (s : string) : string :=
  string_of_list_ascii (rev (lstrip (rev (lstrip (list_ascii_of_string s))))).

Definition is_text (c : cell) : bool := match c with CStr _ => true | _ => false end.
Definition is_date_object (c : cell) : bool := match c with CDate _ => true | _ => false end.

(** [df[col] = df[col].str.strip()] on a column of dtype [object]: text is
    stripped, any other value of a column that holds text becomes
    missing; a column of date objects without text has no [.str]. Columns
    of another dtype are passed over. *)
Definition strip_column (df : DataFrame) (c : string) : result DataFrame :=
  cs ← column df c ;
  if existsb is_text cs then
    ret (set_column df c
           (map (λ x, match x with CStr s => CStr (strip s) | _ => CNull end) cs))
  else if existsb is_date_object cs then raise AttributeError
  else ret df.

Fixpoint strip_columns (df : DataFrame) (cols : list string) : result DataFrame :=
  match cols with
  | [] => ret df
  | c :: rest => df' ← strip_column df c ; strip_columns df' rest
  end.

(** [clean_dataframe] up to, and without, the removal of duplicates. *)
Definition standardize (df : DataFrame) (now : Z) : result DataFrame :=
  df ← convert_column df "check_in_date" ;
  df ← convert_column df "check_out_date" ;
  let df := if has_column df "booking_source" then df
            else fill_column df "booking_source" (CStr "direct") in
  let df := if has_column df "status" then df
            else fill_column df "status" (CStr "confirmed") in
  let df := if has_column df "booking_date" then df
            else fill_column df "booking_date" (CTime now) in
  strip_columns df (columns df).

(** [clean_dataframe(df)]; the argument is copied, so only the result
    matters. *)
Definition clean_dataframe (df : DataFrame) (now : Z) : result DataFrame :=
  df_clean ← standardize df now ;
  ret (drop_duplicates_keep_first KEY_COLUMNS df_clean).

End Validator.

(** ** The calendar behind the [.dt] accessors

    Day 0 is 1970-01-01, a Thursday. *)

Definition days_from_civil (y m d : Z) : Z :=
  let y' := if m <=? 2 then y - 1 else y in
  let era := y' / 400 in
  let yoe := y' - era * 400 in
  let doy := (153 * (if 2 <? m then m - 3 else m + 9) + 2) / 5 + d - 1 in
  let doe := yoe * 365 + yoe / 4 - yoe / 100 + doy in
  era * 146097 + doe - 719468.

Definition civil_from_days (days : Z) : Z * Z * Z :=
  let z := days + 719468 in
  let era := z / 146097 in
  let doe := z - era * 146097 in
  let yoe := (doe - doe / 1460 + doe / 36524 - doe / 146096) / 365 in
  let doy := doe - (365 * yoe + yoe / 4 - yoe / 100) in
  let mp := (5 * doy + 2) / 153 in
  let d := doy - (153 * mp + 2) / 5 + 1 in
  let m := if mp <? 10 then mp + 3 else mp - 9 in
  let y := yoe + era * 400 in
  (if m <=? 2 then y + 1 else y, m, d).

Definition day_number (t : Z) : Z := t / ticks_per_day.

Definition dt_year (t : Z) : Z := fst (fst (civil_from_days (day_number t))).
Definition dt_month (t : Z) : Z := snd (fst (civil_from_days (day_number t))).
Definition dt_day (t : Z) : Z := snd (civil_from_days (day_number t)).
Definition dt_quarter (t : Z) : Z := (dt_month t - 1) / 3 + 1.

(** Monday is 0. *)
Definition dt_dayofweek (t : Z) : Z := (day_number t + 3) mod 7.

Definition weeks_in_year (y : Z) : Z :=
  let p := λ x, (x + x / 4 - x / 100 + x / 400) mod 7 in
  if (p y =? 4) || (p (y - 1) =? 3) then 53 else 52.

(** [.dt.isocalendar().week] *)
Definition dt_isoweek (t : Z) : Z :=
  let y := dt_year t in
  let doy := day_number t - days_from_civil y 1 1 + 1 in
  let w := (doy - (dt_dayofweek t + 1) + 10) / 7 in
  if w <? 1 then weeks_in_year (y - 1)
  else if weeks_in_year y <? w then 1
  else w.

(** ** [FeatureEngineer] ([app/services/feature_engineering.py]) *)

Module FeatureEngineer.

(** [series.dt.<field>]: defined on timestamps, missing on missing. *)
Definition dt_field (f : Z → Z) (c : cell) : result cell :=
  match c with
  | CTime t => ret (CInt (f t))
  | _ => if is_null c then ret CNull else raise AttributeError
  end.

(** [series.isin(values).astype(int)] *)
Definition isin (values : list Z) (c : cell) : cell :=
  CInt (if existsb (λ v, cell_eqb c (CInt v)) values then 1 else 0).

(** [series.map({...})] with integer keys. *)
Definition map_dict (d : list (Z * string)) (c : cell) : cell :=
  match List.find (λ kv, cell_eqb c (CInt (fst kv))) d with
  | Some kv => CStr (snd kv)
  | None => CNull
  end.

Definition SEASONS : list (Z * string) :=
  [(12, "winter"); (1, "winter"); (2, "winter");
   (3, "spring"); (4, "spring"); (5, "spring");
   (6, "monsoon"); (7, "monsoon"); (8, "monsoon");
   (9, "autumn"); (10, "autumn"); (11, "autumn")].

Definition create_time_features (df : DataFrame) : result DataFrame :=
  ci ← column df "check_in_date" ;
  v ← traverse (dt_field dt_dayofweek) ci ;
  let df := set_column df "day_of_week" v in
  v ← traverse (dt_field dt_day) ci ;
  let df := set_column df "day_of_month" v in
  v ← traverse (dt_field dt_month) ci ;
  let df := set_column df "month" v in
  v ← traverse (dt_field dt_quarter) ci ;
  let df := set_column df "quarter" v in
  v ← traverse (dt_field dt_year) ci ;
  let df := set_column df "year" v in
  v ← traverse (dt_field dt_isoweek) ci ;
  let df := set_column df "week_of_year" v in
  dow ← column df "day_of_week" ;
  let df := set_column df "is_weekend" (map (isin [5; 6]) dow) in
  month ← column df "month" ;
  let df := set_column df "season" (map (map_dict SEASONS) month) in
  let df := set_column df "is_peak_season" (map (isin [10; 11; 12; 1; 2]) month) in
  let df := set_column df "is_holiday_season" (map (isin [12; 1; 4; 10]) month) in
  ret df.

(** [(a - b).dt.days] on two date columns. *)
Definition days_between (a b : cell) : result cell :=
  match a, b with
  | CTime x, CTime y => ret (CInt ((x - y) / ticks_per_day))
  | CTime _, CNull | CNull, CTime _ | CNull, CNull => ret CNull
  | _, _ => raise TypeError
  end.

(** [pd.cut(series, bins, labels)]: the label of the interval (lo, hi]
    that holds the value; no label outside the bins. *)
Fixpoint cut_value (bins : list fval) (labels : list string) (x : fval) : cell :=
  match bins, labels with
  | lo :: ((hi :: _) as rest), lab :: labs =>
      if f_lt lo x && f_le x hi then CStr lab else cut_value rest labs x
  | _, _ => CNull
  end.

Definition cut (bins : list fval) (labels : list string) (cs : list cell)
    : result (list cell) :=
  traverse (λ c, x ← as_float c ; ret (cut_value bins labels x)) cs.

Definition Fz (z : Z) : fval := Fin (inject_Z z).

(** [(series <= k).astype(int)] *)
Definition le_flag (k : Z) (c : cell) : result cell :=
  b ← cmp_le c (CInt k) ; ret (CInt (if b : bool then 1 else 0)).

Definition create_stay_features (df : DataFrame) : result DataFrame :=
  co ← column df "check_out_date" ;
  ci ← column df "check_in_date" ;
  los ← traverse2 days_between co ci ;
  let df := set_column df "length_of_stay" los in
  cat ← cut [Fz 0; Fz 1; Fz 3; Fz 7; Fz 30] ["short"; "medium"; "long"; "extended"] los ;
  let df := set_column df "stay_category" cat in
  if has_column df "booking_date" then
    ci ← column df "check_in_date" ;
    bd ← column df "booking_date" ;
    lead ← traverse2 days_between ci bd ;
    let df := set_column df "lead_time_days" lead in
    flags ← traverse (le_flag 3) lead ;
    ret (set_column df "is_last_minute" flags)
  else ret df.

(** Element-wise arithmetic of two numeric columns. *)
Definition arith (op : fval → fval → fval) (a b : cell) : result fval :=
  x ← as_float a ; y ← as_float b ; ret (op x y).

(** [series.clip(lower=0)] *)
Definition clip_lower_0 (x : fval) : fval := if f_lt x (Fin 0) then Fin 0 else x.

Definition create_pricing_features (df : DataFrame) : result DataFrame :=
  price ← column df "booking_price" ;
  los ← column df "length_of_stay" ;
  ppn ← traverse2 (arith f_div) price los ;
  let df := set_column df "price_per_night" (map of_float ppn) in
  base ← column df "base_price" ;
  price ← column df "booking_price" ;
  diff ← traverse2 (arith f_sub) base price ;
  ratio ← traverse2 (λ d b, y ← as_float b ; ret (f_div d y)) diff base ;
  let pct := map (λ x, clip_lower_0 (f_mul x (Fz 100))) ratio in
  let df := set_column df "discount_pct" (map of_float pct) in
  ppn ← column df "price_per_night" ;
  cat ← cut [Fz 0; Fz 3000; Fz 6000; Fz 10000; PInf]
            ["budget"; "mid_range"; "premium"; "luxury"] ppn ;
  ret (set_column df "price_category" cat).

(** The order [sort_values] puts on a column: missing values last. *)
Definition sort_le (a b : cell) : bool :=
  if is_null b then true
  else if is_null a then false
  else match cmp_le a b with inr v => v | inl _ => false end.

Definition sortable (cs : list cell) : bool :=
  forallb (λ a, forallb (λ b, is_null a || is_null b
                              || match cmp_le a b with inr _ => true | inl _ => false end)
                        cs) cs.

(** [df.sort_values(c)], equal keys keeping their order. *)
Definition sort_values (df : DataFrame) (c : string) : result DataFrame :=
  cs ← column df c ;
  if sortable cs
  then ret (mkFrame (columns df)
              (sort_by (λ r r', sort_le (cell_at c r) (cell_at c r')) (rows df)))
  else raise TypeError.

(** The values [x.rolling(window=w, min_periods=1)] aggregates at one
    row: the [booking_price] of the last [w] rows of the row's group,
    the row itself being the last of them. [seen] holds the rows above. *)
Definition window_values (group_by : list string) (w : nat)
    (seen : list (gmap string cell)) (r : gmap string cell) : result (list fval) :=
  let grp := List.filter (same_on group_by r) seen ++ [r] in
  traverse (λ x, as_float (cell_at "booking_price" x)) (drop (length grp - w) grp).

Definition has_null_key (group_by : list string) (r : gmap string cell) : bool :=
  existsb (λ c, is_null (cell_at c r)) group_by.

(** [df.groupby(group_by)['booking_price'].transform(lambda x:
    x.rolling(window=w, min_periods=1).<agg>())]: rows with a missing
    group key get no value. *)
Fixpoint rolling (group_by : list string) (w : nat) (agg : list fval → cell)
    (seen rs : list (gmap string cell)) : result (list cell) :=
  match rs with
  | [] => ret []
  | r :: rest =>
      v ← (if has_null_key group_by r then ret CNull
           else vals ← window_values group_by w seen r ; ret (agg vals)) ;
      vs ← rolling group_by w agg (seen ++ [r]) rest ;
      ret (v :: vs)
  end.

(** [.mean()] and [.count()] of a window that needs one valid value. *)
Definition window_mean (vals : list fval) : cell := of_float (series_mean vals).

Definition window_count (vals : list fval) : cell :=
  match valid_floats vals with
  | [] => CNull
  | v => CFloat (f_of_nat (length v))
  end.

(** [df.groupby(group_by)['booking_price'].shift(1)] *)
Fixpoint shift_1 (group_by : list string) (seen rs : list (gmap string cell))
    : list cell :=
  match rs with
  | [] => []
  | r :: rest =>
      (if has_null_key group_by r then CNull
       else match last (List.filter (same_on group_by r) seen) with
            | Some p => cell_at "booking_price" p
            | None => CNull
            end)
      :: shift_1 group_by (seen ++ [r]) rest
  end.

(** The aggregated features as the specification words them: "7-day and
    30-day trailing rolling average booking_price and trailing rolling
    count". The window of a row holds the rows of its hotel, itself
    included, whose check-in falls within the [days] days that end at the
    row's own check-in. *)
Definition in_trailing_days (days : Z) (r x : gmap string cell) : bool :=
  match cell_at "check_in_date" r, cell_at "check_in_date" x with
  | CTime t, CTime u => (t - days * ticks_per_day <? u) && (u <=? t)
  | _, _ => false
  end.

Definition trailing_days_values (days : Z) (seen : list (gmap string cell))
    (r : gmap string cell) : result (list fval) :=
  traverse (λ x, as_float (cell_at "booking_price" x))
    (List.filter (λ x, same_on ["hotel_id"] r x && in_trailing_days days r x)
       (seen ++ [r])).

Fixpoint trailing_days_rolling (days : Z) (agg : list fval → cell)
    (seen rs : list (gmap string cell)) : result (list cell) :=
  match rs with
  | [] => ret []
  | r :: rest =>
      v ← (if has_null_key ["hotel_id"] r then ret CNull
           else vals ← trailing_days_values days seen r ; ret (agg vals)) ;
      vs ← trailing_days_rolling days agg (seen ++ [r]) rest ;
      ret (v :: vs)
  end.

Definition create_aggregated_features (df : DataFrame) : result DataFrame :=
  df ← sort_values df "check_in_date" ;
  _ ← column df "hotel_id" ;
  _ ← column df "booking_price" ;
  v ← rolling ["hotel_id"] 7 window_mean [] (rows df) ;
  let df := set_column df "avg_price_7d" v in
  v ← rolling ["hotel_id"] 7 window_count [] (rows df) ;
  let df := set_column df "booking_count_7d" v in
  v ← rolling ["hotel_id"] 30 window_mean [] (rows df) ;
  let df := set_column df "avg_price_30d" v in
  v ← rolling ["hotel_id"] 30 window_count [] (rows df) ;
  let df := set_column df "booking_count_30d" v in
  _ ← column df "room_id" ;
  ret (set_column df "prev_booking_price"
         (shift_1 ["hotel_id"; "room_id"] [] (rows df))).

(** [series.map(hotel_rooms)] with [hotel_rooms = {h.id: h.total_rooms}];
    of two hotels with one id the later one stays in the dict. *)
Definition map_hotel_rooms (hs : list Hotel.t) (c : cell) : cell :=
  match last (List.filter (λ h, cell_eqb c (CInt (Hotel.id h))) hs) with
  | Some h => CInt (Hotel.total_rooms h)
  | None => CNull
  end.

Definition f_round2 (x : fval) : fval :=
  match x with Fin q => Fin (round2 q) | _ => x end.

(** The [occupancy_rate] the left merge brings to a row: that of the
    (hotel_id, check_in_date) group the row is in, nothing for a row
    with a missing key. *)
Definition merged_occupancy (hs : list Hotel.t) (all : list (gmap string cell))
    (r : gmap string cell) : result cell :=
  if has_null_key ["hotel_id"; "check_in_date"] r then ret CNull
  else
    let rooms_booked :=
      length (List.filter (same_on ["hotel_id"; "check_in_date"] r) all) in
    total ← as_float (map_hotel_rooms hs (cell_at "hotel_id" r)) ;
    ret (of_float (f_round2 (f_mul (f_div (f_of_nat rooms_booked) total) (Fz 100)))).

Definition create_occupancy_features (df : DataFrame) (db : Session) : result DataFrame :=
  hid ← column df "hotel_id" ;
  let df := set_column df "hotel_total_rooms" (map (map_hotel_rooms (hotels db)) hid) in
  _ ← column df "check_in_date" ;
  occ ← traverse (merged_occupancy (hotels db) (rows df)) (rows df) ;
  ret (set_column df "occupancy_rate" occ).

(** [create_all_features(df, db)]; [db] is [None] or a session. *)
Definition create_all_features (df : DataFrame) (db : option Session) : IO DataFrame :=
  _ ← say FeatureEngineeringStarting ;
  df ← lift (create_time_features df) ;
  _ ← say (FeaturesCreated "Time") ;
  df ← lift (create_stay_features df) ;
  _ ← say (FeaturesCreated "Stay") ;
  df ← lift (create_pricing_features df) ;
  _ ← say (FeaturesCreated "Pricing") ;
  df ← lift (create_aggregated_features df) ;
  _ ← say (FeaturesCreated "Aggregated") ;
  df ← match db with
       | Some s =>
           df ← lift (create_occupancy_features df s) ;
           _ ← say (FeaturesCreated "Occupancy") ;
           mret df
       | None => mret df
       end ;
  _ ← say (FeatureEngineeringComplete (length (columns df))) ;
  mret df.

(** [needle in col] *)
Fixpoint contains (needle s : string) : bool :=
  String.prefix needle s
  || match s with
     | EmptyString => false
     | String _ rest => contains needle rest
     end.

Record feature_summary : Type := mkSummary {
  total_features : nat;
  time_features : list string;
  stay_features : list string;
  pricing_features : list string;
  aggregated_features : list string;
  occupancy_features : list string
}.

Definition among (names : list string) (c : string) : bool :=
  existsb (String.eqb c) names.

Definition get_feature_summary (df : DataFrame) : feature_summary :=
  mkSummary (length (columns df))
    (List.filter (among ["day_of_week"; "month"; "quarter"; "is_weekend";
                         "season"; "is_peak_season"]) (columns df))
    (List.filter (among ["length_of_stay"; "stay_category"; "lead_time_days";
                         "is_last_minute"]) (columns df))
    (List.filter (among ["price_per_night"; "discount_pct"; "price_category"])
       (columns df))
    (List.filter (λ c, contains "avg_price" c || contains "booking_count" c)
       (columns df))
    (List.filter (contains "occupancy") (columns df)).

End FeatureEngineer.

(** ** [ETLPipeline] ([app/services/etl_pipeline.py]) *)

Module ETLPipeline.

Definition opt_text (o : option string) : cell :=
  match o with Some s => CStr s | None => CNull end.

Definition opt_time (o : option Z) : cell :=
  match o with Some t => CTime t | None => CNull end.

Definition EXTRACTED_COLUMNS : list string :=
  ["hotel_id"; "room_id"; "check_in_date"; "check_out_date"; "guest_name";
   "guest_email"; "num_guests"; "booking_price"; "base_price"; "booking_date";
   "booking_source"; "status"].

(** The dict built for one booking. *)
Definition booking_record (b : Booking.t) : gmap string cell :=
  list_to_map
    [("hotel_id", CInt (Booking.hotel_id b));
     ("room_id", CInt (Booking.room_id b));
     ("check_in_date", CDate (Booking.check_in_date b));
     ("check_out_date", CDate (Booking.check_out_date b));
     ("guest_name", opt_text (Booking.guest_name b));
     ("guest_email", opt_text (Booking.guest_email b));
     ("num_guests", CInt (Booking.num_guests b));
     ("booking_price", CFloat (Fin (Booking.booking_price b)));
     ("base_price", CFloat (Fin (Booking.base_price b)));
     ("booking_date", opt_time (Booking.booking_date b));
     ("booking_source", opt_text (Booking.booking_source b));
     ("status", opt_text (Booking.status b))].

(** [if hotel_id:] and [if start_date:] pass over [None] and over a zero
    id; the start date is given as the day it denotes. *)
Definition extracted_bookings (db : Session) (hotel_id start_date : option Z)
    : list Booking.t :=
  let q := bookings db in
  let q := match hotel_id with
           | Some h => if h =? 0 then q else List.filter (λ b, Booking.hotel_id b =? h) q
           | None => q
           end in
  match start_date with
  | Some d => List.filter (λ b, d <=? Booking.check_in_date b) q
  | None => q
  end.

(** [pd.DataFrame(data)]: a list of dicts gives their keys as columns, an
    empty list gives a frame without columns. *)
Definition frame_of_records (data : list (gmap string cell)) : DataFrame :=
  match data with
  | [] => mkFrame [] []
  | _ => mkFrame EXTRACTED_COLUMNS data
  end.

Definition extract_from_database (db : Session) (hotel_id start_date : option Z)
    : IO DataFrame :=
  _ ← say ExtractingFromDatabase ;
  let df := frame_of_records (map booking_record (extracted_bookings db hotel_id start_date)) in
  _ ← say (Extracted (length (rows df))) ;
  mret df.

(** [extract_from_csv]: [file] is what [pd.read_csv(file_path)] gives. *)
Definition extract_from_csv (file : result DataFrame) : IO DataFrame :=
  _ ← say ExtractingFromFile ;
  df ← lift file ;
  _ ← say (Extracted (length (rows df))) ;
  mret df.

Record load_counters : Type := mkCounters {
  loaded : Z;
  skipped : Z;
  load_errors : Z;
  total : Z
}.

Definition BOOKING_COLS : list string :=
  ["hotel_id"; "room_id"; "check_in_date"; "check_out_date"; "guest_name";
   "guest_email"; "num_guests"; "booking_price"; "base_price"; "booking_source";
   "status"; "booking_date"].

Definition project_row (cols : list string) (r : gmap string cell) : gmap string cell :=
  list_to_map (map (λ c, (c, cell_at c r)) cols).

(** [df[cols]] *)
Definition project (df : DataFrame) (cols : list string) : result DataFrame :=
  match List.find (λ c, negb (has_column df c)) cols with
  | Some c => raise (KeyError c)
  | None => ret (mkFrame cols (map (project_row cols) (rows df)))
  end.

(** A value bound to an [Integer] column in a query or an insert: the
    integer, NULL, or a value the column type does not take. *)
Definition integer_param (c : cell) : result (option Z) :=
  match c with
  | CInt z => ret (Some z)
  | CNull | CFloat NaN => ret None
  | _ => raise TypeError
  end.

(** A value bound to a [Date] column: the day of a date or timestamp. *)
Definition date_param (c : cell) : result (option Z) :=
  match c with
  | CDate d => ret (Some d)
  | CTime t => ret (Some (day_number t))
  | CNull | CFloat NaN => ret None
  | _ => raise TypeError
  end.

Definition datetime_param (c : cell) : result (option Z) :=
  match c with
  | CTime t => ret (Some t)
  | CNull | CFloat NaN => ret None
  | _ => raise TypeError
  end.

Definition float_param (c : cell) : result (option Q) :=
  match c with
  | CInt z => ret (Some (inject_Z z))
  | CFloat (Fin q) => ret (Some q)
  | CNull | CFloat NaN => ret None
  | _ => raise TypeError
  end.

Definition string_param (c : cell) : result (option string) :=
  match c with
  | CStr s => ret (Some s)
  | CNull | CFloat NaN => ret None
  | _ => raise TypeError
  end.

(** A column declared [nullable=False] refuses NULL. *)
Definition not_null {A} (o : option A) : result A :=
  match o with Some a => ret a | None => raise IntegrityError end.

(** The existing-booking query of the load loop: the first committed
    booking with the row's hotel, room and check-in day. A NULL
    parameter equals nothing. *)
Definition find_existing (db : Session) (row : gmap string cell)
    : result (option Booking.t) :=
  h ← integer_param (cell_at "hotel_id" row) ;
  r ← integer_param (cell_at "room_id" row) ;
  d ← date_param (cell_at "check_in_date" row) ;
  match h, r, d with
  | Some h, Some r, Some d =>
      ret (first (λ b, (Booking.hotel_id b =? h) && (Booking.room_id b =? r)
                        && (Booking.check_in_date b =? d)) (bookings db))
  | _, _, _ => ret None
  end.

(** The INSERT of one pending [Booking], built from [row.to_dict()]. *)
Definition insert_booking (new_id : Z) (row : gmap string cell) : result Booking.t :=
  hotel_id ← integer_param (cell_at "hotel_id" row) ≫= not_null ;
  room_id ← integer_param (cell_at "room_id" row) ≫= not_null ;
  check_in ← date_param (cell_at "check_in_date" row) ≫= not_null ;
  check_out ← date_param (cell_at "check_out_date" row) ≫= not_null ;
  guest_name ← string_param (cell_at "guest_name" row) ;
  guest_email ← string_param (cell_at "guest_email" row) ;
  num_guests ← integer_param (cell_at "num_guests" row) ≫= not_null ;
  booking_price ← float_param (cell_at "booking_price" row) ≫= not_null ;
  base_price ← float_param (cell_at "base_price" row) ≫= not_null ;
  booking_date ← datetime_param (cell_at "booking_date" row) ;
  booking_source ← string_param (cell_at "booking_source" row) ;
  status ← string_param (cell_at "status" row) ;
  ret (Booking.mk new_id hotel_id room_id check_in check_out guest_name guest_email
         num_guests booking_price base_price booking_date booking_source status).

(** The flush of [commit]: the pending objects are inserted in the order
    they were added. *)
Fixpoint flush (table : list Booking.t) (pending : list (gmap string cell))
    : result (list Booking.t) :=
  match pending with
  | [] => ret table
  | row :: rest =>
      b ← insert_booking (next_id (map Booking.id table)) row ;
      flush (table ++ [b]) rest
  end.

(** The state of the load loop. *)
Record load_state : Type := mkLoad {
  session : Session;
  pending : list (gmap string cell);
  loaded_count : Z;
  skipped_count : Z;
  error_count : Z;
  output : list event
}.

(** The body of the inner loop. The session was made with
    [autoflush=False]: the query reads the committed rows only. *)
Definition load_row (st : load_state) (row : gmap string cell) : load_state :=
  match find_existing (session st) row with
  | inl _ =>
      mkLoad (session st) (pending st) (loaded_count st) (skipped_count st)
        (error_count st + 1) (output st ++ [ErrorLoadingRecord])
  | inr (Some _) =>
      mkLoad (session st) (pending st) (loaded_count st) (skipped_count st + 1)
        (error_count st) (output st)
  | inr None =>
      mkLoad (session st) (pending st ++ [row]) (loaded_count st + 1) (skipped_count st)
        (error_count st) (output st)
  end.

(** "Commit batch": on failure the batch is rolled back. *)
Definition commit_batch (batch_no : nat) (st : load_state) : load_state :=
  match flush (bookings (session st)) (pending st) with
  | inr table =>
      mkLoad (mkSession (hotels (session st)) table (daily_metrics (session st)))
        [] (loaded_count st) (skipped_count st) (error_count st)
        (output st ++ [BatchCommitted batch_no (loaded_count st)])
  | inl _ =>
      mkLoad (session st) [] (loaded_count st) (skipped_count st) (error_count st)
        (output st ++ [BatchCommitFailed])
  end.

(** [range(0, n, step)] for a positive step. *)
Definition batch_starts (n step : nat) : list nat :=
  map (λ k, k * step)%nat (seq 0 ((n + step - 1) / step)).

Definition load_batch (batch_size : nat) (rs : list (gmap string cell))
    (st : load_state) (i : nat) : load_state :=
  commit_batch (i / batch_size + 1)
    (fold_left load_row (take batch_size (drop i rs)) st).

(** [load_to_database(df, batch_size)]. The frame is returned because a
    missing [booking_date] column is added to the caller's frame. *)
Definition load_to_database (db : Session) (df : DataFrame) (batch_size now : Z)
    : IO (Session * DataFrame * load_counters) :=
  _ ← say LoadingToDatabase ;
  let df := if has_column df "booking_date" then df
            else fill_column df "booking_date" (CTime now) in
  df_to_load ← lift (project df BOOKING_COLS) ;
  let n := length (rows df_to_load) in
  starts ← lift (if batch_size =? 0 then raise ValueError_range_step
                 else if batch_size <? 0 then ret []
                 else ret (batch_starts n (Z.to_nat batch_size))) ;
  let st := fold_left (load_batch (Z.to_nat batch_size) (rows df_to_load)) starts
              (mkLoad db [] 0 0 0 []) in
  mkIO (output st
        ++ [LoadComplete (loaded_count st) (skipped_count st) (error_count st)])
       (inr (session st, df,
             mkCounters (loaded_count st) (skipped_count st) (error_count st)
               (Z.of_nat n))).

Section Pipeline.

Variable parse_datetime : string → option Z.

(** [transform(df)]; [now] is the clock reading [clean_dataframe]
    takes. *)
Definition transform (db : Session) (df : DataFrame) (now : Z)
    : IO (DataFrame * DataQualityReport) :=
  _ ← say TransformationStarting ;
  _ ← say ValidatingDataQuality ;
  '(df, report) ← lift (validate_dataframe parse_datetime df) ;
  if negb (is_valid report) then
    _ ← say ValidationFailed ;
    mret (df, report)
  else
    _ ← say CleaningData ;
    df_clean ← lift (clean_dataframe parse_datetime df now) ;
    _ ← say EngineeringFeatures ;
    df_transformed ← FeatureEngineer.create_all_features df_clean (Some db) ;
    _ ← say TransformationComplete ;
    mret (df_transformed, report).

(** The [source] argument with the keyword arguments it reads. *)
Inductive source : Type :=
| Csv (file : result DataFrame)
| Database (hotel_id start_date : option Z)
| Other (tag : string).

Record pipeline_result : Type := mkResult {
  success : bool;
  duration_seconds : option Z;
  validation_report : DataQualityReport;
  load_result : option load_counters;
  feature_summary : option FeatureEngineer.feature_summary;
  message : string
}.

(** The four readings of the clock in a run. *)
Record clock : Type := mkClock {
  start_time : Z;
  clean_time : Z;
  load_time : Z;
  end_time : Z
}.

(** The "Extract" step of [run_full_pipeline]. *)
Definition extract (db : Session) (src : source) : IO DataFrame :=
  match src with
  | Csv file => extract_from_csv file
  | Database hotel_id start_date => extract_from_database db hotel_id start_date
  | Other _ => lift (raise ValueError_source)
  end.

Definition run_full_pipeline (db : Session) (src : source) (clk : clock)
    : IO (Session * pipeline_result) :=
  _ ← say Separator ;
  _ ← say PipelineStarting ;
  _ ← say Separator ;
  df ← extract db src ;
  '(df_transformed, validation_report) ← transform db df (clean_time clk) ;
  if negb (is_valid validation_report) then
    mret (db, mkResult false None validation_report None None
                "Pipeline failed at validation stage")
  else
    '(db', df_transformed, counters) ←
      load_to_database db df_transformed 100 (load_time clk) ;
    let duration := end_time clk - start_time clk in
    let summary := FeatureEngineer.get_feature_summary df_transformed in
    _ ← say Separator ;
    _ ← say (PipelineComplete duration) ;
    _ ← say Separator ;
    mret (db', mkResult true (Some duration) validation_report (Some counters)
                 (Some summary) "ETL pipeline completed successfully").

End Pipeline.

End ETLPipeline.

(** ** Sample data *)

Module Samples.

Definition digit (a : ascii) : option Z :=
  let n := Z.of_nat (nat_of_ascii a) in
  if (48 <=? n) && (n <=? 57) then Some (n - 48) else None.

Definition number (ds : list ascii) : option Z :=
  fold_left (λ acc a, x ← acc ; d ← digit a ; Some (10 * x + d)) ds (Some 0).

(** A date parser that reads the form YYYY-MM-DD and nothing else. *)
Definition iso_parser (s : string) : option Z :=
  match list_ascii_of_string s with
  | [y1; y2; y3; y4; "-"%char; m1; m2; "-"%char; d1; d2] =>
      y ← number [y1; y2; y3; y4] ;
      m ← number [m1; m2] ;
      d ← number [d1; d2] ;
      if (1 <=? m) && (m <=? 12) && (1 <=? d) && (d <=? 31)
      then Some (days_from_civil y m d * ticks_per_day) else None
  | _ => None
  end.

Definition price (z : Z) : cell := CFloat (Fin (inject_Z z)).

(** One line of a booking file. *)
Definition line (hotel room : Z) (check_in check_out : string) (guests : Z)
    (booking_price base_price : Z) : gmap string cell :=
  list_to_map
    [("hotel_id", CInt hotel); ("room_id", CInt room);
     ("check_in_date", CStr check_in); ("check_out_date", CStr check_out);
     ("guest_name", CStr "Asha Rao"); ("guest_email", CStr "asha@example.com");
     ("num_guests", CInt guests);
     ("booking_price", price booking_price); ("base_price", price base_price)].

Definition FILE_COLUMNS : list string := REQUIRED_COLUMNS ++ ["guest_email"].

(** Three valid rows and one with [booking_price = 0]. *)
Definition batch_with_zero_price : DataFrame :=
  mkFrame FILE_COLUMNS
    [line 1 5 "2024-01-10" "2024-01-12" 2 5000 6000;
     line 1 6 "2024-01-10" "2024-01-15" 2 7000 7000;
     line 1 7 "2024-01-11" "2024-01-15" 1 3000 3000;
     line 2 5 "2024-01-12" "2024-01-15" 2 0 6000].

(** Two bookings sharing (hotel_id=1, room_id=5, check_in_date=2024-01-10). *)
Definition batch_with_duplicate : DataFrame :=
  mkFrame FILE_COLUMNS
    [line 1 5 "2024-01-10" "2024-01-12" 2 5000 6000;
     line 1 6 "2024-01-10" "2024-01-15" 2 7000 7000;
     line 1 5 "2024-01-10" "2024-01-15" 1 3000 3000].

(** The same two bookings in a file without the [base_price] column. *)
Definition batch_without_base_price : DataFrame :=
  mkFrame ["hotel_id"; "room_id"; "check_in_date"; "check_out_date";
           "guest_name"; "num_guests"; "booking_price"; "guest_email"]
    (map (delete "base_price")
       [line 1 5 "2024-01-10" "2024-01-12" 2 5000 6000;
        line 1 5 "2024-01-10" "2024-01-15" 1 3000 3000]).

Definition empty_store : Session :=
  mkSession [Hotel.mk 1 "Sea View" "Goa" 10 None None] [] [].

(** The bookings of the sample session of the metrics calculator, as a
    frame ready to load. *)
Definition stored_batch : DataFrame :=
  ETLPipeline.frame_of_records
    (map ETLPipeline.booking_record (bookings MetricsCalculator.sample_db)).

Definition readings : ETLPipeline.clock := ETLPipeline.mkClock 1000 1001 1002 1003.

(** A cleaned row as the stay stage leaves it. *)
Definition stay_row (hotel room day nights price_paid : Z) : gmap string cell :=
  list_to_map
    [("hotel_id", CInt hotel); ("room_id", CInt room);
     ("check_in_date", CTime (day * ticks_per_day));
     ("check_out_date", CTime ((day + nights) * ticks_per_day));
     ("booking_price", price price_paid); ("base_price", price price_paid);
     ("length_of_stay", CInt nights)].

Definition STAY_COLUMNS : list string :=
  ["hotel_id"; "room_id"; "check_in_date"; "check_out_date"; "booking_price";
   "base_price"; "length_of_stay"].

(** A stay of no night. *)
Definition zero_night_batch : DataFrame :=
  mkFrame STAY_COLUMNS [stay_row 1 5 19732 0 4000].

(** Two bookings of one hotel, a hundred days apart. *)
Definition far_apart_batch : DataFrame :=
  mkFrame STAY_COLUMNS [stay_row 1 5 19732 2 100; stay_row 1 6 19832 2 300].

End Samples.

(** ** [MetricsCalculator.recalculate_all_metrics]
       ([app/utils/metrics_calculator.py], lines 126 to 161) *)

Module Recalculation.
Import MetricsCalculator.


(** The dict it returns. *)
Inductive summary : Type :=
| NoBookingsFound
| Recalculated (hotels_processed metrics_calculated : nat) (range_start range_end : Z).




End Recalculation.

(** A stored figure that is zero. *)
Definition is_zero (o : option Q) : Prop :=
  match o with Some q => (q == 0)%Q | None => False end.

(** ** The analytics service ([app/services/analytics_service.py]) *)

Module AnalyticsService.
Import MetricsCalculator.

Record revenue_metrics : Type := mkRevenue {
  total_revenue : Q;
  total_bookings : nat;
  average_daily_rate : Q;
  occupancy_rate : Q;
  period_start : option Z;
  period_end : option Z
}.

(** [Booking.status.in_(["confirmed", "completed"])] *)
Definition counted (b : Booking.t) : bool :=
  status_is "confirmed" (Booking.status b) || status_is "completed" (Booking.status b).

(** [if hotel_id:] passes over [None] and over a zero id. *)
Definition truthy (hotel_id : option Z) : option Z :=
  match hotel_id with
  | Some h => if h =? 0 then None else Some h
  | None => None
  end.

(** The query of [calculate_revenue_metrics], lines 23 to 34. *)
Definition selected (db : Session) (hotel_id start_date end_date : option Z)
    : list Booking.t :=
  let q := List.filter counted (bookings db) in
  let q := match truthy hotel_id with
           | Some h => List.filter (λ b, Booking.hotel_id b =? h) q
           | None => q
           end in
  let q := match start_date with
           | Some s => List.filter (λ b, s <=? Booking.check_in_date b) q
           | None => q
           end in
  match end_date with
  | Some e => List.filter (λ b, Booking.check_out_date b <=? e) q
  | None => q
  end.

(** [sum(b.booking_price for b in bookings)] and the sum of the stay
    lengths. *)
Definition sum_prices (bs : list Booking.t) : Q :=
  fold_left (λ a b, (a + Booking.booking_price b)%Q) bs 0%Q.

Definition sum_nights (bs : list Booking.t) : Z :=
  fold_left (λ a b, a + stay_nights b) bs 0.

(** [query(func.sum(Hotel.total_rooms)).scalar() or 0] *)
Definition all_rooms (hs : list Hotel.t) : Z :=
  fold_left (λ a h, a + Hotel.total_rooms h) hs 0.

Definition calculate_revenue_metrics (db : Session)
    (hotel_id start_date end_date : option Z) : result revenue_metrics :=
  let bookings := selected db hotel_id start_date end_date in
  match bookings with
  | [] => ret (mkRevenue 0 0 0 0 start_date end_date)
  | _ =>
      let total_revenue := sum_prices bookings in
      let total_bookings := length bookings in
      let total_room_nights := sum_nights bookings in
      adr ← (if 0 <? total_room_nights
             then py_div total_revenue (inject_Z total_room_nights)
             else ret 0%Q) ;
      let total_rooms :=
        match truthy hotel_id with
        | Some h =>
            match first (λ x, Hotel.id x =? h) (hotels db) with
            | Some hotel => Hotel.total_rooms hotel
            | None => 0
            end
        | None => all_rooms (hotels db)
        end in
      let days_in_period :=
        match start_date, end_date with
        | Some s, Some e => e - s
        | _, _ => 180
        end in
      let available_room_nights := total_rooms * days_in_period in
      occupancy_rate ←
        (if 0 <? available_room_nights
         then x ← py_div (inject_Z total_room_nights) (inject_Z available_room_nights) ;
              ret (x * 100)%Q
         else ret 0%Q) ;
      ret (mkRevenue (round2 total_revenue) total_bookings (round2 adr)
             (round2 occupancy_rate) start_date end_date)
  end.

Record daily_statistics : Type := mkDaily {
  date : Z;
  hotel_id : Z;
  rooms_occupied : Z;
  total_rooms : Z;
  daily_occupancy_rate : Q;
  daily_revenue : Q
}.

Definition get_daily_statistics (db : Session) (hotel_id target_date : Z)
    : result daily_statistics :=
  let bookings := List.filter (is_active hotel_id target_date) (bookings db) in
  let hotel := first (λ x, Hotel.id x =? hotel_id) (hotels db) in
  let rooms_occupied := Z.of_nat (length bookings) in
  let total_rooms := match hotel with Some x => Hotel.total_rooms x | None => 0 end in
  occupancy_rate ←
    (if 0 <? total_rooms
     then x ← py_div (inject_Z rooms_occupied) (inject_Z total_rooms) ; ret (x * 100)%Q
     else ret 0%Q) ;
  daily_revenue ← sum_prorated 0 bookings ;
  ret (mkDaily target_date hotel_id rooms_occupied total_rooms
         (round2 occupancy_rate) (round2 daily_revenue)).

End AnalyticsService.

(** ** The booking schema and endpoints
       ([app/models/schemas.py], [app/api/bookings.py]) *)

Module BookingCreate.

(** The fields of [BookingCreate], those of [BookingBase] first. *)
Record t : Type := mk {
  check_in_date : Z;
  check_out_date : Z;
  guest_name : string;
  guest_email : option string;
  num_guests : Z;
  booking_source : option string;
  hotel_id : Z;
  room_id : Z;
  booking_price : Q;
  base_price : Q
}.

(** The validator of [check_out_date]; [values] holds the check-in date
    when that field passed its own validation. *)
Definition check_out_after_check_in (v : Z) (values : option Z) : bool :=
  match values with
  | Some check_in => negb (v <=? check_in)
  | None => true
  end.

(** A payload the model accepts: the [Field(gt=0)] bounds and the
    validator. *)
Definition accepted (p : t) : bool :=
  check_out_after_check_in (check_out_date p) (Some (check_in_date p))
  && (0 <? num_guests p)
  && Qlt_bool 0 (booking_price p)
  && Qlt_bool 0 (base_price p).

End BookingCreate.

Module BookingsApi.

(** The [detail] of an [HTTPException], one constructor per message. *)
Inductive detail : Type :=
| BookingNotFound (booking_id : Z)
| ErrorCheckingDataQuality (e : exn)
| ErrorGeneratingFeatureSummary (e : exn).

Record HTTPException : Type := mkHTTP {
  status_code : Z;
  reason : detail
}.

Definition response (A : Type) : Type := (HTTPException + A)%type.

Definition by_id (booking_id : Z) (b : Booking.t) : bool := Booking.id b =? booking_id.

(** [get_booking] *)
Definition get_booking (db : Session) (booking_id : Z) : response Booking.t :=
  match first (by_id booking_id) (bookings db) with
  | Some booking => inr booking
  | None => inl (mkHTTP 404 (BookingNotFound booking_id))
  end.

(** The [Booking] built from [booking.model_dump()], once inserted: the columns the
    payload does not name take their defaults, [status] "confirmed" and
    [booking_date] the clock reading. *)
Definition new_booking (new_id now : Z) (p : BookingCreate.t) : Booking.t :=
  Booking.mk new_id (BookingCreate.hotel_id p) (BookingCreate.room_id p)
    (BookingCreate.check_in_date p) (BookingCreate.check_out_date p)
    (Some (BookingCreate.guest_name p)) (BookingCreate.guest_email p)
    (BookingCreate.num_guests p) (BookingCreate.booking_price p)
    (BookingCreate.base_price p) (Some now) (BookingCreate.booking_source p)
    (Some "confirmed").

(** [create_booking]: the payload has passed the model. *)
Definition create_booking (db : Session) (booking : BookingCreate.t) (now : Z)
    : Session * Booking.t :=
  let db_booking := new_booking (next_id (map Booking.id (bookings db))) now booking in
  (mkSession (hotels db) (bookings db ++ [db_booking]) (daily_metrics db), db_booking).

(** [booking.status = "cancelled"] *)
Definition cancel (b : Booking.t) : Booking.t :=
  Booking.mk (Booking.id b) (Booking.hotel_id b) (Booking.room_id b)
    (Booking.check_in_date b) (Booking.check_out_date b) (Booking.guest_name b)
    (Booking.guest_email b) (Booking.num_guests b) (Booking.booking_price b)
    (Booking.base_price b) (Booking.booking_date b) (Booking.booking_source b)
    (Some "cancelled").

(** [cancel_booking] *)
Definition cancel_booking (db : Session) (booking_id : Z)
    : response (Session * Booking.t) :=
  match first (by_id booking_id) (bookings db) with
  | None => inl (mkHTTP 404 (BookingNotFound booking_id))
  | Some booking =>
      inr (mkSession (hotels db)
             (update_first (by_id booking_id) cancel (bookings db))
             (daily_metrics db),
           cancel booking)
  end.

End BookingsApi.

(** ** Notions the properties use *)

(** The rows a load state has accounted for. *)
Definition accounted (st : ETLPipeline.load_state) : Z :=
  ETLPipeline.loaded_count st + ETLPipeline.skipped_count st
  + ETLPipeline.error_count st.


(** A frame with the required columns and no row. *)
Definition header_only : DataFrame := mkFrame Samples.FILE_COLUMNS [].

(** The columns [clean_dataframe] fills in when they are absent. *)
Definition DEFAULTED_COLUMNS : list string := ["booking_source"; "status"; "booking_date"].


(** A value that is missing or at least zero. *)
Definition missing_or_at_least_zero (c : cell) : Prop :=
  c = CNull ∨ ∃ x, c = CFloat x ∧ f_le (Fin 0) x = true.

(** The category of a stay of [n] nights, as the bins
    [0, 1, 3, 7, 30] and their labels give it. *)
Definition stay_bucket (n : Z) : cell :=
  if n <=? 0 then CNull
  else if n <=? 1 then CStr "short"
  else if n <=? 3 then CStr "medium"
  else if n <=? 7 then CStr "long"
  else if n <=? 30 then CStr "extended"
  else CNull.

(** The columns each stage of the feature engineer assigns, in order. *)
Definition TIME_FEATURES : list string :=
  ["day_of_week"; "day_of_month"; "month"; "quarter"; "year"; "week_of_year";
   "is_weekend"; "season"; "is_peak_season"; "is_holiday_season"].

Definition STAY_FEATURES (with_booking_date : bool) : list string :=
  ["length_of_stay"; "stay_category"]
  ++ (if with_booking_date then ["lead_time_days"; "is_last_minute"] else []).

Definition PRICING_FEATURES : list string :=
  ["price_per_night"; "discount_pct"; "price_category"].

Definition AGGREGATED_FEATURES : list string :=
  ["avg_price_7d"; "booking_count_7d"; "avg_price_30d"; "booking_count_30d";
   "prev_booking_price"].

Definition OCCUPANCY_FEATURES : list string := ["hotel_total_rooms"; "occupancy_rate"].

Definition ENGINEERED_FEATURES (with_booking_date with_db : bool) : list string :=
  TIME_FEATURES ++ STAY_FEATURES with_booking_date ++ PRICING_FEATURES
  ++ AGGREGATED_FEATURES ++ (if with_db then OCCUPANCY_FEATURES else []).

(** Assigning a list of columns one after the other. *)
Definition add_labels (cols names : list string) : list string :=
  fold_left add_label names cols.

(** A booking file with the required columns and nothing else. *)
Definition batch_of_required_columns : DataFrame :=
  mkFrame REQUIRED_COLUMNS
    [delete "guest_email" (Samples.line 1 5 "2024-01-10" "2024-01-12" 2 5000 6000)].

(** ** The ingestion endpoints ([app/api/ingestion.py]) *)

Module IngestionApi.
Import BookingsApi.

(** [try: ... except Exception as e: raise HTTPException(500, ...)] *)
Definition guarded {A} (wrap : exn → detail) (c : result A) : response A :=
  match c with
  | inl e => inl (mkHTTP 500 (wrap e))
  | inr a => inr a
  end.

(** [df.empty]: no row, or no column. *)
Definition empty (df : DataFrame) : bool :=
  (length (rows df) =? 0)%nat || (length (columns df) =? 0)%nat.

(** [df.head(n)]: the first [n] rows; all but the last [-n] when [n] is
    negative. *)
Definition head (n : Z) (df : DataFrame) : DataFrame :=
  mkFrame (columns df)
    (take (if 0 <=? n then Z.to_nat n
           else (length (rows df) - Z.to_nat (- n))%nat)
       (rows df)).

(** What [get_feature_summary] returns. *)
Inductive feature_summary_response : Type :=
| NoBookingsFound
| FeatureSummary (summary : FeatureEngineer.feature_summary)
    (sample_records : list (gmap string cell)).

(** [create_all_features] on a frame that comes straight from the
    database. Its date columns hold [datetime.date] objects, so their
    dtype is [object] and [.dt] raises on them whether or not a row is
    left; with a row left the first cell already raises. *)
Definition features_of_extracted (df : DataFrame) (db : Session) : result DataFrame :=
  match rows df with
  | [] => raise AttributeError
  | _ => outcome (FeatureEngineer.create_all_features df (Some db))
  end.

(** [get_feature_summary(limit, db)]; what the calls print is left out. *)
Definition get_feature_summary (db : Session) (limit : Z)
    : response feature_summary_response :=
  guarded ErrorGeneratingFeatureSummary
    (df ← outcome (ETLPipeline.extract_from_database db None None) ;
     if empty df then ret NoBookingsFound
     else
       let df := head limit df in
       df_featured ← features_of_extracted df db ;
       let summary := FeatureEngineer.get_feature_summary df_featured in
       ret (FeatureSummary summary (rows (head 5 df_featured)))).

End IngestionApi.

(** A whole number between [lo] and [hi]. *)
Definition int_between (lo hi : Z) (c : cell) : Prop :=
  ∃ n, c = CInt n ∧ lo <= n ∧ n <= hi.

(** What the time stage leaves in a row with a check-in timestamp. *)
Definition dated_row (r : gmap string cell) : Prop :=
  int_between 0 6 (cell_at "day_of_week" r)
  ∧ int_between 1 31 (cell_at "day_of_month" r)
  ∧ int_between 1 12 (cell_at "month" r)
  ∧ int_between 1 4 (cell_at "quarter" r)
  ∧ int_between 1 53 (cell_at "week_of_year" r)
  ∧ (cell_at "is_weekend" r = CInt 1
     ∧ (cell_at "day_of_week" r = CInt 5 ∨ cell_at "day_of_week" r = CInt 6)
     ∨ cell_at "is_weekend" r = CInt 0
       ∧ int_between 0 4 (cell_at "day_of_week" r))
  ∧ (∃ s, cell_at "season" r = CStr s ∧ s ∈ ["winter"; "spring"; "monsoon"; "autumn"])
  ∧ int_between 0 1 (cell_at "is_peak_season" r)
  ∧ int_between 0 1 (cell_at "is_holiday_season" r)
  ∧ (cell_at "season" r = CStr "winter" → cell_at "is_peak_season" r = CInt 1)
  ∧ (cell_at "season" r = CStr "monsoon" →
     cell_at "is_peak_season" r = CInt 0 ∧ cell_at "is_holiday_season" r = CInt 0).

(** What it leaves in a row without a check-in date: no calendar field,
    and flags that say no. *)
Definition undated_row (r : gmap string cell) : Prop :=
  (∀ c, c ∈ ["day_of_week"; "day_of_month"; "month"; "quarter"; "year";
             "week_of_year"; "season"] → cell_at c r = CNull)
  ∧ (∀ c, c ∈ ["is_weekend"; "is_peak_season"; "is_holiday_season"] →
       cell_at c r = CInt 0).



Module DataQualityApi.
Import BookingsApi IngestionApi.

Section Check.

Variable parse_datetime : string → option Z.


End Check.

End DataQualityApi.

(** * Properties *)

(** ** The metrics calculator *)

Module MetricsCalculatorFacts.
Import MetricsCalculator.

Lemma is_active_nights h d b : is_active h d b = true → 0 < stay_nights b.
Proof.
  unfold is_active, stay_nights. intros H.
  repeat (apply andb_prop in H; destruct H as [H ?]). lia.
Qed.

Lemma prorated_positive b : 0 < stay_nights b → prorated b = inr (daily_share b).
Proof.
  intros Hn. unfold prorated, py_div.
  destruct (Qeq_bool (inject_Z (stay_nights b)) 0) eqn:E; [| reflexivity].
  apply Qeq_bool_eq in E. unfold Qeq, inject_Z in E. simpl in E. lia.
Qed.

Lemma sum_prorated_positive bs : ∀ acc,
  Forall (λ b, 0 < stay_nights b) bs →
  sum_prorated acc bs = inr (shares_total acc bs).
Proof.
  induction bs as [| b bs IH]; intros acc Hall; [reflexivity |].
  inversion Hall; subst. simpl. rewrite prorated_positive by assumption.
  simpl. apply IH. assumption.
Qed.

Lemma active_bookings_nights db h d :
  Forall (λ b, 0 < stay_nights b) (active_bookings db h d).
Proof.
  apply List.Forall_forall. intros b Hb. apply List.filter_In in Hb.
  eapply is_active_nights, Hb.
Qed.

Lemma shares_total_acc bs : ∀ acc, (shares_total acc bs == acc + shares_total 0 bs)%Q.
Proof.
  induction bs as [| b bs IH]; intros acc; simpl.
  - ring.
  - rewrite IH. rewrite (IH (0 + daily_share b)%Q). ring.
Qed.

Lemma shares_total_split pre b post :
  (shares_total 0 (pre ++ b :: post)
   == shares_total 0 pre + daily_share b + shares_total 0 post)%Q.
Proof.
  unfold shares_total at 1. rewrite fold_left_app. simpl.
  fold (shares_total 0 pre).
  fold (shares_total (shares_total 0 pre + daily_share b) post).
  apply shares_total_acc.
Qed.

(** The figures exist as soon as the hotel does: the division of the
    generator never sees a zero. *)
Lemma compute_figures_returns db hotel h d :
  ∃ fg, compute_figures db hotel h d = inr fg
        ∧ f_total_revenue fg = shares_total 0 (active_bookings db h d)
        ∧ f_booking_count fg = count (is_arrival h d) (bookings db)
        ∧ f_cancellation_count fg = count (is_cancelled_arrival h d) (bookings db).
Proof.
  unfold compute_figures. fold (active_bookings db h d).
  rewrite (sum_prorated_positive _ 0 (active_bookings_nights db h d)).
  simpl. eexists. split; [reflexivity |]. simpl. auto.
Qed.

Lemma calculate_total_revenue db h d now db' m :
  calculate_daily_metrics db h d now = inr (db', m) →
  DailyMetrics.total_revenue m
  = Some (round2 (shares_total 0 (active_bookings db h d)))
  ∧ DailyMetrics.booking_count m = Some (count (is_arrival h d) (bookings db))
  ∧ DailyMetrics.cancellation_count m
    = Some (count (is_cancelled_arrival h d) (bookings db)).
Proof.
  unfold calculate_daily_metrics.
  destruct (first _ (hotels db)) as [hotel |]; [| discriminate].
  destruct (compute_figures_returns db hotel h d) as (fg & -> & Ht & Hb & Hc).
  simpl. destruct (first _ (daily_metrics db)); intros [= <- <-]; simpl;
    rewrite Ht, Hb, Hc; auto.
Qed.

Lemma calculate_returns db h d now :
  is_Some (first (λ x, Hotel.id x =? h) (hotels db)) →
  ∃ db' m, calculate_daily_metrics db h d now = inr (db', m).
Proof.
  intros [hotel Hh]. unfold calculate_daily_metrics. rewrite Hh.
  destruct (compute_figures_returns db hotel h d) as (fg & -> & _).
  simpl. destruct (first _ (daily_metrics db)); eauto.
Qed.

Lemma status_active_arrival h d b :
  is_cancelled_arrival h d b = true → is_arrival h d b = true.
Proof. unfold is_cancelled_arrival, is_arrival. intros H. apply andb_prop in H. tauto. Qed.

Lemma filter_length_le {A} (p q : A → bool) (l : list A) :
  (∀ x, p x = true → q x = true) →
  (length (List.filter p l) ≤ length (List.filter q l))%nat.
Proof.
  intros Hpq. induction l as [| x l IH]; simpl; [lia |].
  destruct (p x) eqn:Hp.
  - rewrite (Hpq _ Hp). simpl. lia.
  - destruct (q x); simpl; lia.
Qed.

Lemma first_split {A} (p : A → bool) (f : A → A) (l : list A) (x : A) :
  first p l = Some x →
  ∃ pre post, l = pre ++ x :: post
              ∧ Forall (λ y, p y = false) pre
              ∧ p x = true
              ∧ update_first p f l = pre ++ f x :: post.
Proof.
  unfold first. induction l as [| y l IH]; simpl; [discriminate |].
  destruct (p y) eqn:Hp.
  - intros [= ->]. exists [], l. auto.
  - intros Hx. destruct (IH Hx) as (pre & post & -> & Hpre & Hpx & Hup).
    exists (y :: pre), post. rewrite Hup. auto.
Qed.

Lemma first_none_key h d (l : list DailyMetrics.t) :
  first (is_cell h d) l = None → (h, d) ∉ map cell_key l.
Proof.
  unfold first. intros Hnone Hin.
  apply list_elem_of_In, List.in_map_iff in Hin. destruct Hin as (m & Hk & Hm).
  apply (List.find_none _ _ Hnone) in Hm.
  unfold cell_key in Hk. injection Hk as Hh Hd.
  unfold is_cell in Hm. rewrite Hh, Hd, !Z.eqb_refl in Hm. discriminate.
Qed.

Lemma first_app_new {A} (p : A → bool) (l : list A) (x : A) :
  first p l = None → p x = true → first p (l ++ [x]) = Some x.
Proof.
  unfold first. induction l as [| y l IH]; simpl.
  - intros _ ->. reflexivity.
  - destruct (p y); [discriminate | exact IH].
Qed.

Lemma first_update_first {A} (p : A → bool) (f : A → A) (l : list A) (x : A) :
  first p l = Some x → p (f x) = true →
  first p (update_first p f l) = Some (f x).
Proof.
  unfold first. induction l as [| y l IH]; simpl; [discriminate |].
  destruct (p y) eqn:Hp.
  - intros [= ->] Hf. simpl. rewrite Hf. reflexivity.
  - intros Hx Hf. simpl. rewrite Hp. auto.
Qed.

Lemma first_true {A} (p : A → bool) (l : list A) (x : A) :
  first p l = Some x → p x = true.
Proof. unfold first. intros H. by apply List.find_some in H as [_ ?]. Qed.

Lemma length_update_first {A} (p : A → bool) (f : A → A) (l : list A) :
  length (update_first p f l) = length l.
Proof.
  induction l as [| y l IH]; simpl; [reflexivity |].
  destruct (p y); simpl; [reflexivity | by rewrite IH].
Qed.

Lemma is_cell_assign h d fg now m : is_cell h d (assign fg now m) = is_cell h d m.
Proof. reflexivity. Qed.

(** Rounding to hundredths leaves a whole number of hundredths alone. *)
Lemma round2_hundredths (q : Q) (z : Z) :
  (q == inject_Z z / 100)%Q → (round2 q == q)%Q.
Proof.
  intros Hq.
  assert (Hx : (q * 100 == inject_Z z)%Q) by (rewrite Hq; field).
  assert (Hr : round_half_even (q * 100) = z).
  { unfold round_half_even.
    assert (Hf : Qfloor (q * 100) = z) by (rewrite Hx; apply Qfloor_Z).
    rewrite Hf.
    assert (Hn : Qnum (q * 100) = z * Zpos (Qden (q * 100))).
    { unfold Qeq in Hx. simpl in Hx. simpl. lia. }
    rewrite Hn, Z.sub_diag. reflexivity. }
  unfold round2. rewrite Hr, Hq. unfold Qeq, Qdiv, Qmult, Qinv, inject_Z. simpl. lia.
Qed.

(** C1. Proration law. Whenever the hotel exists the call returns, and the
    [total_revenue] it stores is [round(.., 2)] of the sum, over the bookings
    selected as active on the target date, of [booking_price] divided by the
    stay length in nights (the rounding changes nothing when that sum is a
    whole number of hundredths): every active booking has at least one
    night and enters the sum with exactly that share; the share of a
    one-night booking is its full price, and a lone one-night booking makes
    the sum its full price; a 4-night booking of the hotel with a counted
    status is active on exactly its 4 days and its share is a quarter of
    its price. *)
Theorem proration_law (db : Session) (h d now : Z) :
  is_Some (first (λ x, Hotel.id x =? h) (hotels db)) →
  let active := active_bookings db h d in
  ∃ db' m,
    calculate_daily_metrics db h d now = inr (db', m)
    ∧ DailyMetrics.total_revenue m = Some (round2 (shares_total 0 active))
    ∧ (∀ z, (shares_total 0 active == inject_Z z / 100)%Q →
         (round2 (shares_total 0 active) == shares_total 0 active)%Q)
    ∧ (∀ pre b post, active = pre ++ b :: post →
         0 < stay_nights b
         ∧ (shares_total 0 active
            == shares_total 0 pre + daily_share b + shares_total 0 post)%Q)
    ∧ (∀ b, stay_nights b = 1 →
         (daily_share b == Booking.booking_price b)%Q
         ∧ (active = [b] → (shares_total 0 active == Booking.booking_price b)%Q))
    ∧ (∀ b, stay_nights b = 4 →
         (daily_share b == Booking.booking_price b / 4)%Q
         ∧ (Booking.hotel_id b = h →
            (status_is "confirmed" (Booking.status b)
             || status_is "completed" (Booking.status b)) = true →
            (is_active h d b = true
             ↔ Booking.check_in_date b ≤ d ≤ Booking.check_in_date b + 3))).
Proof.
  intros Hh active.
  destruct (calculate_returns db h d now Hh) as (db' & m & Hcall).
  exists db', m. split; [exact Hcall |].
  split; [apply (calculate_total_revenue _ _ _ _ _ _ Hcall) |].
  split; [intros z; apply round2_hundredths |].
  split; [| split].
  - intros pre b post Hact. split.
    + pose proof (active_bookings_nights db h d) as Hall.
      fold active in Hall. rewrite Hact in Hall.
      apply List.Forall_app in Hall. destruct Hall as [_ Hall].
      inversion Hall; assumption.
    + rewrite Hact. apply shares_total_split.
  - intros b Hn. split.
    + unfold daily_share. rewrite Hn. unfold Qeq, Qdiv, Qinv, Qmult, inject_Z.
      simpl. lia.
    + intros ->. unfold shares_total, daily_share. simpl. rewrite Hn.
      unfold Qeq, Qdiv, Qinv, Qmult, Qplus, inject_Z. simpl. lia.
  - intros b Hn. split.
    + unfold daily_share. rewrite Hn. reflexivity.
    + intros Hhotel Hst. unfold is_active. unfold stay_nights in Hn.
      rewrite Hst, Hhotel, Z.eqb_refl. simpl. rewrite andb_true_r.
      rewrite andb_true_iff, Z.leb_le, Z.ltb_lt. lia.
Qed.

Lemma proration_law_witness :
  is_Some (first (λ x, Hotel.id x =? 1) (hotels sample_db))
  ∧ ∃ db' m,
      calculate_daily_metrics sample_db 1 102 7 = inr (db', m)
      ∧ DailyMetrics.total_revenue m = Some (450000 # 100).
Proof.
  assert (Hh : is_Some (first (λ x, Hotel.id x =? 1) (hotels sample_db)))
    by (vm_compute; eauto).
  split; [exact Hh |].
  destruct (proration_law sample_db 1 102 7 Hh) as (db' & m & Hcall & Hrev & _).
  exists db', m. split; [exact Hcall |]. rewrite Hrev. vm_compute. reflexivity.
Defined.

Lemma update_first_keys fg now h d (l : list DailyMetrics.t) :
  map cell_key (update_first (is_cell h d) (assign fg now) l) = map cell_key l.
Proof.
  induction l as [| y l IH]; simpl; [reflexivity |].
  destruct (is_cell h d y); simpl; [reflexivity | by rewrite IH].
Qed.

Lemma is_cell_key h d m : is_cell h d m = true → cell_key m = (h, d).
Proof.
  unfold is_cell, cell_key. intros H. apply andb_prop in H.
  destruct H as [Hh Hd]. apply Z.eqb_eq in Hh, Hd. by rewrite Hh, Hd.
Qed.

(** C2. One row per (hotel_id, date). From a table with at most one row per
    cell, a call that returns leaves a table with at most one row per cell:
    when the cell has a row, that row is assigned in place (same position,
    same [id], the other rows untouched); a row is appended only when the
    cell has none. A call that raises writes nothing. *)
Theorem upsert_keeps_one_row_per_cell (db : Session) (h d now : Z) :
  one_row_per_cell (daily_metrics db) →
  match calculate_daily_metrics db h d now with
  | inl _ => True
  | inr (db', m) =>
      one_row_per_cell (daily_metrics db')
      ∧ cell_key m = (h, d)
      ∧ match first (is_cell h d) (daily_metrics db) with
        | Some old =>
            DailyMetrics.id m = DailyMetrics.id old
            ∧ length (daily_metrics db') = length (daily_metrics db)
            ∧ ∃ pre post,
                daily_metrics db = pre ++ old :: post
                ∧ daily_metrics db' = pre ++ m :: post
                ∧ ((h, d) ∉ map cell_key pre)
                ∧ ((h, d) ∉ map cell_key post)
        | None => daily_metrics db' = daily_metrics db ++ [m]
        end
  end.
Proof.
  intros Huniq. unfold calculate_daily_metrics.
  destruct (first _ (hotels db)) as [hotel |]; [| exact I].
  destruct (compute_figures_returns db hotel h d) as (fg & -> & _). simpl.
  destruct (first (is_cell h d) (daily_metrics db)) as [old |] eqn:Hfirst.
  - destruct (first_split _ (assign fg now) _ _ Hfirst)
      as (pre & post & Hl & Hpre & Hold & Hup).
    simpl. split; [| split; [| split; [| split]]].
    + unfold one_row_per_cell. by rewrite update_first_keys.
    + apply (is_cell_key h d). by rewrite is_cell_assign.
    + reflexivity.
    + rewrite Hup, Hl, !length_app. reflexivity.
    + exists pre, post. split; [exact Hl |]. split; [exact Hup |].
      unfold one_row_per_cell in Huniq. rewrite Hl, map_app in Huniq. simpl in Huniq.
      rewrite (is_cell_key _ _ _ Hold) in Huniq.
      apply NoDup_app in Huniq. destruct Huniq as (_ & Hdisj & Hpost).
      apply NoDup_cons in Hpost. destruct Hpost as [Hpost _].
      split; [| exact Hpost].
      intros Hin. apply (Hdisj _ Hin). left.
  - simpl. split; [| split; [reflexivity | reflexivity]].
    unfold one_row_per_cell. rewrite map_app. simpl.
    apply NoDup_app. split; [exact Huniq |]. split.
    + intros k Hk Hk'. apply list_elem_of_singleton in Hk'. subst k.
      exact (first_none_key _ _ _ Hfirst Hk).
    + apply NoDup_singleton.
Qed.

Lemma upsert_keeps_one_row_per_cell_witness :
  one_row_per_cell (daily_metrics sample_db)
  ∧ ∃ db' m, calculate_daily_metrics sample_db 1 102 7 = inr (db', m)
             ∧ one_row_per_cell (daily_metrics db').
Proof.
  assert (Hu : one_row_per_cell (daily_metrics sample_db)) by apply NoDup_nil_2.
  split; [exact Hu |].
  pose proof (upsert_keeps_one_row_per_cell sample_db 1 102 7 Hu) as H.
  destruct (calculate_daily_metrics sample_db 1 102 7) as [e | [db' m]] eqn:E.
  - vm_compute in E. discriminate E.
  - exists db', m. split; [reflexivity | apply H].
Defined.

(** C3. Idempotence. When a call returns, an immediately following call for
    the same hotel and date (the bookings and the hotel are what the first
    call left) returns too, and its snapshot agrees with the first in every
    field except [calculated_at], which carries the second clock reading. *)
Theorem recompute_same_snapshot (db db1 : Session) (h d now1 now2 : Z)
    (m1 : DailyMetrics.t) :
  calculate_daily_metrics db h d now1 = inr (db1, m1) →
  ∃ db2 m2,
    calculate_daily_metrics db1 h d now2 = inr (db2, m2)
    ∧ same_figures m1 m2
    ∧ DailyMetrics.calculated_at m2 = Some now2
    ∧ length (daily_metrics db2) = length (daily_metrics db1).
Proof.
  unfold calculate_daily_metrics.
  destruct (first _ (hotels db)) as [hotel |] eqn:Hhotel; [| discriminate].
  destruct (compute_figures_returns db hotel h d) as (fg & Hfg & _).
  rewrite Hfg. simpl.
  destruct (first (is_cell h d) (daily_metrics db)) as [old |] eqn:Hfirst;
    intros [= <- <-]; simpl; rewrite Hhotel;
    change (compute_figures _ hotel h d) with (compute_figures db hotel h d);
    rewrite Hfg; simpl.
  - rewrite (first_update_first _ _ _ _ Hfirst)
      by (rewrite is_cell_assign; eapply first_true; eauto).
    do 2 eexists. split; [reflexivity |]. simpl.
    split; [repeat split |]. split; [reflexivity |].
    apply length_update_first.
  - rewrite (first_app_new _ _ _ Hfirst)
      by (unfold is_cell; simpl; by rewrite !Z.eqb_refl).
    do 2 eexists. split; [reflexivity |]. simpl.
    split; [repeat split |]. split; [reflexivity |].
    apply length_update_first.
Qed.

Lemma recompute_same_snapshot_witness :
  ∃ db1 m1 db2 m2,
    calculate_daily_metrics sample_db 1 102 7 = inr (db1, m1)
    ∧ calculate_daily_metrics db1 1 102 8 = inr (db2, m2)
    ∧ same_figures m1 m2.
Proof.
  destruct (calculate_daily_metrics sample_db 1 102 7) as [e | [db1 m1]] eqn:E.
  - vm_compute in E. discriminate E.
  - destruct (recompute_same_snapshot sample_db db1 1 102 7 8 m1 E)
      as (db2 & m2 & H2 & Hsame & _).
    exists db1, m1, db2, m2. auto.
Defined.

(** C10. Cancellations are arrivals. In every snapshot a call produces,
    [booking_count] is the number of the hotel's bookings whose
    [check_in_date] is the target date, whatever their status,
    [cancellation_count] is the number of those whose status is
    [cancelled], and the second never exceeds the first. *)
Theorem cancellations_within_bookings (db db' : Session) (h d now : Z)
    (m : DailyMetrics.t) :
  calculate_daily_metrics db h d now = inr (db', m) →
  ∃ bc cc,
    DailyMetrics.booking_count m = Some bc
    ∧ DailyMetrics.cancellation_count m = Some cc
    ∧ bc = Z.of_nat (length (List.filter
             (λ b, (Booking.hotel_id b =? h) && (Booking.check_in_date b =? d))
             (bookings db)))
    ∧ cc = Z.of_nat (length (List.filter
             (λ b, (Booking.hotel_id b =? h) && (Booking.check_in_date b =? d)
                   && status_is "cancelled" (Booking.status b))
             (bookings db)))
    ∧ cc ≤ bc.
Proof.
  intros Hcall.
  destruct (calculate_total_revenue _ _ _ _ _ _ Hcall) as (_ & Hb & Hc).
  do 2 eexists. split; [exact Hb |]. split; [exact Hc |].
  split; [reflexivity |]. split; [reflexivity |].
  unfold count. apply Nat2Z.inj_le.
  apply filter_length_le, status_active_arrival.
Qed.

Lemma cancellations_within_bookings_witness :
  ∃ db' m,
    calculate_daily_metrics sample_db 1 102 7 = inr (db', m)
    ∧ DailyMetrics.booking_count m = Some 2
    ∧ DailyMetrics.cancellation_count m = Some 1.
Proof.
  destruct (calculate_daily_metrics sample_db 1 102 7) as [e | [db' m]] eqn:E.
  - vm_compute in E. discriminate E.
  - destruct (cancellations_within_bookings sample_db db' 1 102 7 m E)
      as (bc & cc & Hb & Hc & -> & -> & _).
    exists db', m. split; [reflexivity |]. split; [exact Hb | exact Hc].
Defined.

End MetricsCalculatorFacts.

(** ** Frames *)

Section FrameFacts.

Lemma traverse_inr {A B} (f : A → result B) (l : list A) (ys : list B) :
  traverse f l = inr ys → Forall2 (λ x y, f x = inr y) l ys.
Proof.
  revert ys. induction l as [| x l IH]; simpl; intros ys.
  - intros [= <-]. constructor.
  - destruct (f x) as [e | y] eqn:Hfx; simpl; [discriminate |].
    destruct (traverse f l) as [e | ys'] eqn:Htl; simpl; [discriminate |].
    intros [= <-]. constructor; auto.
Qed.

Lemma traverse2_inr {A B C} (f : A → B → result C) (l : list A) (l' : list B)
    (ys : list C) :
  length l = length l' → traverse2 f l l' = inr ys →
  length ys = length l
  ∧ ∀ i x x', l !! i = Some x → l' !! i = Some x' →
      ∃ y, ys !! i = Some y ∧ f x x' = inr y.
Proof.
  revert l' ys. induction l as [| x l IH]; intros [| x' l'] ys Hlen; simpl in *;
    try discriminate.
  - intros [= <-]. split; [reflexivity |]. intros i ? ? Hi. by destruct i.
  - destruct (f x x') as [e | y] eqn:Hfx; simpl; [discriminate |].
    destruct (traverse2 f l l') as [e | ys'] eqn:Htl; simpl; [discriminate |].
    intros [= <-]. destruct (IH l' ys') as [Hl Hi]; [lia | exact Htl |].
    split; [simpl; lia |].
    intros [| i] a a'; simpl.
    + intros [= <-] [= <-]. eauto.
    + apply Hi.
Qed.

Lemma column_inr (df : DataFrame) (c : string) (cs : list cell) :
  column df c = inr cs → cs = map (cell_at c) (rows df).
Proof. unfold column. destruct (has_column df c); [| discriminate]. by intros [= <-]. Qed.

Lemma cell_at_insert (c : string) (v : cell) (r : gmap string cell) :
  cell_at c (<[c := v]> r) = v.
Proof. unfold cell_at. by rewrite lookup_insert_eq. Qed.

Lemma cell_at_insert_ne (c c' : string) (v : cell) (r : gmap string cell) :
  c ≠ c' → cell_at c' (<[c := v]> r) = cell_at c' r.
Proof. intros. unfold cell_at. by rewrite lookup_insert_ne. Qed.

Lemma set_column_lookup (df : DataFrame) (c : string) (vals : list cell)
    (i : nat) (r : gmap string cell) :
  length vals = length (rows df) → rows df !! i = Some r →
  ∃ v, vals !! i = Some v ∧ rows (set_column df c vals) !! i = Some (<[c := v]> r).
Proof.
  intros Hlen Hr. destruct (vals !! i) as [v |] eqn:Hv.
  - exists v. split; [reflexivity |]. simpl.
    rewrite lookup_zip_with, Hr. simpl. by rewrite Hv.
  - apply lookup_ge_None in Hv. apply lookup_lt_Some in Hr. lia.
Qed.

Lemma set_column_length (df : DataFrame) (c : string) (vals : list cell) :
  length vals = length (rows df) →
  length (rows (set_column df c vals)) = length (rows df).
Proof. intros Hlen. simpl. rewrite length_zip_with. lia. Qed.

Lemma f_eqb_refl (x : fval) : f_eqb x x = true.
Proof. destruct x; simpl; auto. apply Qeq_bool_iff. reflexivity. Qed.

Lemma f_eqb_sym (x y : fval) : f_eqb x y = f_eqb y x.
Proof.
  destruct x, y; simpl; auto.
  destruct (Qeq_bool q q0) eqn:E, (Qeq_bool q0 q) eqn:E'; auto.
  - apply Qeq_bool_iff in E. symmetry in E. apply Qeq_bool_iff in E. congruence.
  - apply Qeq_bool_iff in E'. symmetry in E'. apply Qeq_bool_iff in E'. congruence.
Qed.

Lemma cell_eqb_refl (c : cell) : cell_eqb c c = true.
Proof.
  destruct c; simpl; auto using Z.eqb_refl, f_eqb_refl, String.eqb_refl.
Qed.

Lemma cell_eqb_sym (a b : cell) : cell_eqb a b = cell_eqb b a.
Proof.
  destruct a, b; simpl; auto using Z.eqb_sym, f_eqb_sym, String.eqb_sym.
Qed.

Lemma same_on_refl (subset : list string) (r : gmap string cell) :
  same_on subset r r = true.
Proof. unfold same_on. apply forallb_forall. intros. apply cell_eqb_refl. Qed.

Lemma same_on_sym (subset : list string) (r r' : gmap string cell) :
  same_on subset r r' = same_on subset r' r.
Proof.
  unfold same_on. induction subset as [| c cs IH]; simpl; [reflexivity |].
  by rewrite IH, cell_eqb_sym.
Qed.

Lemma filter_none {A} (p : A → bool) (l : list A) :
  (∀ x, x ∈ l → p x = false) → List.filter p l = [].
Proof.
  induction l as [| x l IH]; simpl; intros H; [reflexivity |].
  rewrite (H x) by left. apply IH. intros y Hy. apply H. by right.
Qed.

(** A predicate that holds at one position only selects one element. *)
Lemma filter_one {A} (p : A → bool) (l : list A) (a : nat) (x : A) :
  l !! a = Some x → p x = true →
  (∀ b y, b ≠ a → l !! b = Some y → p y = false) →
  List.filter p l = [x].
Proof.
  intros Hx Hp Hother.
  rewrite <- (take_drop_middle l a x Hx), List.filter_app. simpl. rewrite Hp.
  rewrite !filter_none; [reflexivity | |].
  - intros y Hy. apply list_elem_of_lookup in Hy. destruct Hy as [b Hb].
    rewrite lookup_drop in Hb. apply (Hother (S a + b)%nat); [lia | exact Hb].
  - intros y Hy. apply list_elem_of_lookup in Hy. destruct Hy as [b Hb].
    apply lookup_take_Some in Hb. destruct Hb as [Hb Hlt].
    apply (Hother b); [lia | exact Hb].
Qed.

(** A predicate that holds at two positions only selects two elements. *)
Lemma filter_two {A} (p : A → bool) (l : list A) (i j : nat) (x y : A) :
  (i < j)%nat → l !! i = Some x → l !! j = Some y → p x = true → p y = true →
  (∀ b z, b ≠ i → b ≠ j → l !! b = Some z → p z = false) →
  List.filter p l = [x; y].
Proof.
  intros Hij Hx Hy Hpx Hpy Hother.
  rewrite <- (take_drop_middle l j y Hy), List.filter_app. simpl. rewrite Hpy.
  rewrite (filter_one p (take j l) i x).
  - rewrite filter_none; [reflexivity |].
    intros z Hz. apply list_elem_of_lookup in Hz. destruct Hz as [b Hb].
    rewrite lookup_drop in Hb. apply (Hother (S j + b)%nat); [lia | lia | exact Hb].
  - rewrite lookup_take_lt by exact Hij. exact Hx.
  - exact Hpx.
  - intros b z Hb Hz. apply lookup_take_Some in Hz. destruct Hz as [Hz Hlt].
    apply (Hother b); [exact Hb | lia | exact Hz].
Qed.

Lemma count_true_map {A} (f : A → bool) (l : list A) :
  count_true (map f l) = length (List.filter f l).
Proof.
  unfold count_true. induction l as [| x l IH]; simpl; [reflexivity |].
  destruct (f x); simpl; by rewrite IH.
Qed.

(** [duplicated(keep=False)] marks both rows of the only pair that shares
    a key, and no other row. *)
Lemma duplicated_pair (rs : list (gmap string cell)) (i j : nat) :
  shares_key_exactly rs i j →
  count_true (duplicated_keep_false KEY_COLUMNS rs) = 2%nat.
Proof.
  intros (Hij & (ri & rj & Hi & Hj & Hsame) & Honly).
  unfold duplicated_keep_false. rewrite count_true_map.
  rewrite (filter_two _ rs i j ri rj Hij Hi Hj); [reflexivity | | |].
  - rewrite (filter_two _ rs i j ri rj Hij Hi Hj); auto using same_on_refl.
    intros b z Hbi Hbj Hz. destruct (same_on KEY_COLUMNS ri z) eqn:E; [| reflexivity].
    destruct (Honly i b ri z) as [[_ ?] | [? _]]; auto; lia.
  - rewrite (filter_two _ rs i j ri rj Hij Hi Hj); auto using same_on_refl.
    + by rewrite same_on_sym.
    + intros b z Hbi Hbj Hz. destruct (same_on KEY_COLUMNS rj z) eqn:E; [| reflexivity].
      destruct (Honly j b rj z) as [[? _] | [_ ?]]; auto; lia.
  - intros b z Hbi Hbj Hz.
    rewrite (filter_one _ rs b z Hz); auto using same_on_refl.
    intros b' y Hb' Hy. destruct (same_on KEY_COLUMNS z y) eqn:E; [| reflexivity].
    destruct (Honly b b' z y) as [[? _] | [? _]]; auto; lia.
Qed.

Lemma drop_later_app (subset : list string) (l1 : list (gmap string cell)) :
  ∀ seen l2,
    (∀ a r, l1 !! a = Some r →
       existsb (same_on subset r) seen = false
       ∧ ∀ b y, (b < a)%nat → l1 !! b = Some y → same_on subset r y = false) →
    drop_later subset seen (l1 ++ l2) = l1 ++ drop_later subset (seen ++ l1) l2.
Proof.
  induction l1 as [| r l1 IH]; intros seen l2 H; simpl.
  - by rewrite app_nil_r.
  - destruct (H 0%nat r eq_refl) as [-> _].
    rewrite (IH (seen ++ [r]) l2).
    + by rewrite <- app_assoc.
    + intros a r' Hr'. destruct (H (S a) r' Hr') as [Hseen Hbefore]. split.
      * rewrite existsb_app, Hseen. simpl. rewrite orb_false_r.
        apply (Hbefore 0%nat r); [lia | reflexivity].
      * intros b y Hb Hy. apply (Hbefore (S b) y); [lia | exact Hy].
Qed.

(** [drop_duplicates(keep='first')] removes the later row of the only
    pair that shares a key, and nothing else. *)
Lemma drop_later_pair (rs : list (gmap string cell)) (i j : nat) :
  shares_key_exactly rs i j →
  drop_later KEY_COLUMNS [] rs = delete j rs.
Proof.
  intros (Hij & (ri & rj & Hi & Hj & Hsame) & Honly).
  rewrite delete_take_drop.
  rewrite <- (take_drop_middle rs j rj Hj) at 1.
  rewrite drop_later_app.
  - simpl.
    assert (Hex : existsb (same_on KEY_COLUMNS rj) (take j rs) = true).
    { apply existsb_exists. exists ri. split; [| by rewrite same_on_sym].
      apply list_elem_of_In, list_elem_of_lookup. exists i.
      by rewrite lookup_take_lt. }
    rewrite Hex.
    rewrite <- (app_nil_r (drop (S j) rs)) at 1.
    rewrite drop_later_app; [by rewrite app_nil_r |].
    intros a r Hr. rewrite lookup_drop in Hr. split.
    + destruct (existsb (same_on KEY_COLUMNS r) (take j rs)) eqn:E; [| reflexivity].
      apply existsb_exists in E. destruct E as (y & Hy & Hry).
      apply list_elem_of_In, list_elem_of_lookup in Hy. destruct Hy as [b Hb].
      apply lookup_take_Some in Hb. destruct Hb as [Hb Hlt].
      destruct (Honly (S j + a)%nat b r y) as [[? ?] | [? ?]]; auto; lia.
    + intros b y Hb Hy. rewrite lookup_drop in Hy.
      destruct (same_on KEY_COLUMNS r y) eqn:E; [| reflexivity].
      destruct (Honly (S j + a)%nat (S j + b)%nat r y) as [[? ?] | [? ?]]; auto; lia.
  - intros a r Hr. apply lookup_take_Some in Hr. destruct Hr as [Hr Hlt].
    split; [reflexivity |].
    intros b y Hb Hy. apply lookup_take_Some in Hy. destruct Hy as [Hy _].
    destruct (same_on KEY_COLUMNS r y) eqn:E; [| reflexivity].
    destruct (Honly a b r y) as [[? ?] | [? ?]]; auto; lia.
Qed.

Lemma shares_key_exactlyb_sound (rs : list (gmap string cell)) (i j : nat) :
  shares_key_exactlyb rs i j = true → shares_key_exactly rs i j.
Proof.
  unfold shares_key_exactlyb. intros H.
  apply andb_prop in H. destruct H as [H Hall].
  apply andb_prop in H. destruct H as [Hij Hpair].
  apply Nat.ltb_lt in Hij. split; [exact Hij |]. split.
  - destruct (rs !! i) as [ri |]; [| discriminate].
    destruct (rs !! j) as [rj |]; [| discriminate]. eauto.
  - intros a b ra rb Hab Ha Hb Hsame.
    rewrite forallb_forall in Hall.
    assert (Hina : In a (seq 0 (length rs)))
      by (apply in_seq; apply lookup_lt_Some in Ha; lia).
    assert (Hinb : In b (seq 0 (length rs)))
      by (apply in_seq; apply lookup_lt_Some in Hb; lia).
    specialize (Hall a Hina). rewrite forallb_forall in Hall.
    specialize (Hall b Hinb). rewrite Ha, Hb, Hsame in Hall. simpl in Hall.
    rewrite orb_false_r in Hall.
    apply orb_prop in Hall. destruct Hall as [Hall | Hall].
    + apply orb_prop in Hall. destruct Hall as [Hall | Hall].
      * apply Nat.eqb_eq in Hall. contradiction.
      * apply andb_prop in Hall. destruct Hall as [H1 H2].
        apply Nat.eqb_eq in H1, H2. auto.
    + apply andb_prop in Hall. destruct Hall as [H1 H2].
      apply Nat.eqb_eq in H1, H2. auto.
Qed.

End FrameFacts.

(** ** The quality validator *)

Section ValidatorFacts.

Variable parse_datetime : string → option Z.

Lemma elem_of_missing_cols (df : DataFrame) (c : string) :
  c ∈ missing_cols df ↔ c ∈ REQUIRED_COLUMNS ∧ c ∉ columns df.
Proof.
  unfold missing_cols. rewrite list_elem_of_In, List.filter_In, <- list_elem_of_In.
  unfold has_column. rewrite negb_true_iff, bool_decide_eq_false. tauto.
Qed.

(** C4. A batch without one of the required columns gets a report with
    exactly one error, which lists the required columns that are absent
    and no others; the report has no warning, no info line and no
    statistics, and the batch is handed back untouched: no later check has
    run. *)
Theorem missing_required_column_short_circuits (df : DataFrame) :
  (∃ c, c ∈ REQUIRED_COLUMNS ∧ c ∉ columns df) →
  ∃ report,
    validate_dataframe parse_datetime df = inr (df, report)
    ∧ errors report = [MissingRequiredColumns (missing_cols df)]
    ∧ (∀ c, c ∈ missing_cols df ↔ c ∈ REQUIRED_COLUMNS ∧ c ∉ columns df)
    ∧ warnings report = []
    ∧ info report = []
    ∧ stats report = None
    ∧ is_valid report = false.
Proof.
  intros (c & Hreq & Habs).
  assert (Hin : c ∈ missing_cols df) by (apply elem_of_missing_cols; auto).
  unfold validate_dataframe.
  destruct (missing_cols df) as [| m ms] eqn:Hm.
  - by apply elem_of_nil in Hin.
  - simpl. eexists. split; [reflexivity |]. simpl.
    split; [reflexivity |]. split; [| auto].
    intros c'. rewrite <- Hm. apply elem_of_missing_cols.
Qed.

Lemma warnings_if_error (b : bool) r m :
  warnings (if b then add_error r m else r) = warnings r.
Proof. by destruct b. Qed.

Lemma warnings_if_info (b : bool) r m :
  warnings (if b then add_info r m else r) = warnings r.
Proof. by destruct b. Qed.

Lemma warnings_check_nulls df r : warnings (check_nulls df r) = warnings r.
Proof.
  unfold check_nulls. generalize REQUIRED_COLUMNS. intros cols. revert r.
  induction cols as [| c cols IH]; intros r; simpl; [reflexivity |].
  rewrite IH. apply warnings_if_error.
Qed.

Lemma warnings_check_dates df r :
  warnings (snd (check_dates parse_datetime df r)) = warnings r.
Proof.
  unfold check_dates.
  destruct (convert_column _ df _); [reflexivity |].
  destruct (convert_column _ _ _); reflexivity.
Qed.

Ltac step :=
  match goal with
  | |- context [mbind _ ?c] =>
      let E := fresh "E" in destruct c eqn:E; simpl; [discriminate |]
  end.

Lemma validate_warnings df df' report :
  missing_cols df = [] →
  validate_dataframe parse_datetime df = inr (df', report) →
  rows df' ≠ [] →
  let dup := duplicated_keep_false KEY_COLUMNS (rows df') in
  ∃ tail,
    warnings report
    = (if existsb (λ b, b) dup then [PotentialDuplicates (count_true dup)] else [])
      ++ tail
    ∧ (tail = [] ∨ ∃ n, tail = [UnusuallyHighPrices n]).
Proof.
  intros Hmiss. unfold validate_dataframe. rewrite Hmiss. simpl.
  destruct (_ || _) eqn:Hempty.
  { intros [= <- <-] Hrows. apply orb_prop in Hempty. destruct Hempty as [H | H].
    - apply Nat.eqb_eq in H. destruct (rows df); [contradiction | discriminate].
    - apply Nat.eqb_eq in H. exfalso.
      assert (Hin : "hotel_id" ∈ missing_cols df).
      { apply list_elem_of_In, List.filter_In. split; [left; reflexivity |].
        unfold has_column. destruct (columns df); [reflexivity | discriminate]. }
      rewrite Hmiss in Hin. by apply elem_of_nil in Hin. }
  pose proof (warnings_check_dates df
                (check_nulls df (add_info new_report
                   (AllRequiredColumnsPresent (length (rows df)))))) as Hw.
  destruct (check_dates _ _ _) as [df1 rep1]. simpl in Hw.
  rewrite warnings_check_nulls in Hw. simpl in Hw.
  repeat step.
  intros [= <- <-] _. cbv zeta.
  destruct (0 <? count_true l1)%nat, (0 <? count_true (l3 ||* l5))%nat,
    (0 <? count_true l7)%nat,
    (existsb (λ b : bool, b) (duplicated_keep_false KEY_COLUMNS (rows df1))),
    (0 <? count_true (above_three_sigma l8))%nat;
    match goal with |- context [is_valid ?r] => destruct (is_valid r) end;
    simpl; rewrite Hw; simpl;
    (eexists; split; [reflexivity | eauto]).
Qed.

Lemma count_true_existsb (l : list bool) :
  count_true l ≠ 0%nat → existsb (λ b, b) l = true.
Proof.
  unfold count_true. induction l as [| [] l IH]; simpl; auto.
Qed.

(** C9, as the code has it. Take a batch with every required column.
    If the validator returns and, in the batch as it leaves the date
    conversion, exactly two rows share a (hotel_id, room_id,
    check_in_date) key, the report carries the warning for 2 potential
    duplicates and no duplicate warning with another count. If the
    cleaner's standardisation returns and exactly two of its rows share a
    key, the cleaner returns that frame without the later of the two: the
    first occurrence stays where it was and no other row left has its
    key. *)
Theorem duplicate_pair_is_warned_and_dropped (df : DataFrame) (now : Z) (i j : nat) :
  missing_cols df = [] →
  (∀ df' report,
     validate_dataframe parse_datetime df = inr (df', report) →
     shares_key_exactly (rows df') i j →
     PotentialDuplicates 2 ∈ warnings report
     ∧ ∀ n, PotentialDuplicates n ∈ warnings report → n = 2%nat)
  ∧ (∀ dfs,
       standardize parse_datetime df now = inr dfs →
       shares_key_exactly (rows dfs) i j →
       ∃ dfc ri,
         clean_dataframe parse_datetime df now = inr dfc
         ∧ rows dfc = delete j (rows dfs)
         ∧ rows dfs !! i = Some ri
         ∧ rows dfc !! i = Some ri
         ∧ ∀ b rb, b ≠ i → rows dfc !! b = Some rb →
             same_on KEY_COLUMNS ri rb = false).
Proof.
  intros Hmiss. split.
  - intros df' report Hval Hpair.
    assert (Hrows : rows df' ≠ []).
    { destruct Hpair as (_ & (ri & _ & Hi & _) & _). intros Hnil.
      rewrite Hnil in Hi. discriminate. }
    destruct (validate_warnings df df' report Hmiss Hval Hrows) as (tail & Hw & Htail).
    rewrite (duplicated_pair _ _ _ Hpair) in Hw.
    rewrite count_true_existsb in Hw
      by (rewrite (duplicated_pair _ _ _ Hpair); discriminate).
    rewrite Hw. split; [left |].
    intros n Hn. apply elem_of_cons in Hn. destruct Hn as [[= ->] | Hn]; [reflexivity |].
    destruct Htail as [-> | [m ->]].
    + by apply elem_of_nil in Hn.
    + apply list_elem_of_singleton in Hn. discriminate.
  - intros dfs Hstd Hpair. unfold clean_dataframe. rewrite Hstd. simpl.
    destruct Hpair as (Hij & (ri & rj & Hi & Hj & Hsame) & Honly).
    assert (Hpair : shares_key_exactly (rows dfs) i j)
      by (split; [exact Hij | split; [eauto | exact Honly]]).
    eexists _, ri. split; [reflexivity |]. simpl.
    rewrite (drop_later_pair _ _ _ Hpair).
    split; [reflexivity |]. split; [exact Hi |].
    split; [by rewrite list_lookup_delete_lt |].
    intros b rb Hb Hrb.
    destruct (same_on KEY_COLUMNS ri rb) eqn:E; [| exact E].
    destruct (decide (b < j)%nat) as [Hlt | Hge].
    + rewrite list_lookup_delete_lt in Hrb by exact Hlt.
      destruct (Honly i b ri rb) as [[? ?] | [? ?]]; auto; lia.
    + rewrite list_lookup_delete_ge in Hrb by lia.
      destruct (Honly i (S b) ri rb) as [[? ?] | [? ?]]; auto; lia.
Qed.

End ValidatorFacts.

Lemma missing_required_column_short_circuits_witness :
  (∃ c, c ∈ REQUIRED_COLUMNS ∧ c ∉ columns Samples.batch_without_base_price)
  ∧ ∃ report,
      validate_dataframe Samples.iso_parser Samples.batch_without_base_price
      = inr (Samples.batch_without_base_price, report)
      ∧ errors report = [MissingRequiredColumns ["base_price"]].
Proof.
  assert (H : ∃ c, c ∈ REQUIRED_COLUMNS ∧ c ∉ columns Samples.batch_without_base_price).
  { exists "base_price". split; apply (bool_decide_unpack _); vm_compute; exact I. }
  split; [exact H |].
  destruct (missing_required_column_short_circuits Samples.iso_parser _ H)
    as (report & Hv & He & _).
  exists report. split; [exact Hv |]. rewrite He. reflexivity.
Defined.

Lemma duplicate_pair_is_warned_and_dropped_witness :
  missing_cols Samples.batch_with_duplicate = []
  ∧ ∃ df' report dfs dfc,
      validate_dataframe Samples.iso_parser Samples.batch_with_duplicate
      = inr (df', report)
      ∧ shares_key_exactly (rows df') 0 2
      ∧ PotentialDuplicates 2 ∈ warnings report
      ∧ standardize Samples.iso_parser Samples.batch_with_duplicate 1001 = inr dfs
      ∧ shares_key_exactly (rows dfs) 0 2
      ∧ clean_dataframe Samples.iso_parser Samples.batch_with_duplicate 1001 = inr dfc
      ∧ rows dfc = delete 2%nat (rows dfs).
Proof.
  assert (Hm : missing_cols Samples.batch_with_duplicate = []) by reflexivity.
  split; [exact Hm |].
  destruct (duplicate_pair_is_warned_and_dropped Samples.iso_parser
              Samples.batch_with_duplicate 1001 0 2 Hm) as [Hv Hc].
  destruct (validate_dataframe Samples.iso_parser Samples.batch_with_duplicate)
    as [e | [df' report]] eqn:Ev; [vm_compute in Ev; discriminate Ev |].
  destruct (standardize Samples.iso_parser Samples.batch_with_duplicate 1001)
    as [e | dfs] eqn:Es; [vm_compute in Es; discriminate Es |].
  assert (Hp : shares_key_exactly (rows df') 0 2).
  { apply shares_key_exactlyb_sound. vm_compute in Ev. injection Ev as <- _.
    vm_compute. reflexivity. }
  assert (Hq : shares_key_exactly (rows dfs) 0 2).
  { apply shares_key_exactlyb_sound. vm_compute in Es. injection Es as <-.
    vm_compute. reflexivity. }
  destruct (Hv df' report eq_refl Hp) as [Hw _].
  destruct (Hc dfs eq_refl Hq) as (dfc & ri & Hclean & Hrows & _).
  exists df', report, dfs, dfc. auto 10.
Defined.

(** C9, as stated, fails: two rows that share a key in a batch without the
    [base_price] column draw no duplicate warning; the validator returns
    after the column check. *)
Lemma duplicate_pair_not_warned_without_columns :
  ∃ report,
    validate_dataframe Samples.iso_parser Samples.batch_without_base_price
    = inr (Samples.batch_without_base_price, report)
    ∧ shares_key_exactly (rows Samples.batch_without_base_price) 0 1
    ∧ warnings report = []
    ∧ ¬ (PotentialDuplicates 2 ∈ warnings report).
Proof.
  eexists. split; [vm_compute; reflexivity |].
  split; [apply shares_key_exactlyb_sound; vm_compute; reflexivity |].
  split; [reflexivity |]. simpl. apply not_elem_of_nil.
Qed.

(** ** The pipeline *)

Section PipelineFacts.
Import ETLPipeline.

Variable parse_datetime : string → option Z.

Lemma is_valid_false (report : DataQualityReport) :
  is_valid report = false ↔ errors report ≠ [].
Proof.
  unfold is_valid. destruct (errors report); simpl; split; congruence.
Qed.

Lemma extract_prints (db : Session) (src : source) (e : event) :
  e ∈ printed (extract db src) →
  e = ExtractingFromFile ∨ e = ExtractingFromDatabase ∨ ∃ n, e = Extracted n.
Proof.
  destruct src as [[err | df] | h sd | tag]; simpl;
    unfold extract_from_csv, extract_from_database, mbind, IO_bind, say, lift; simpl;
    intros Hin;
    repeat (apply elem_of_cons in Hin; destruct Hin as [-> | Hin]; [by eauto |]);
    by apply elem_of_nil in Hin.
Qed.

(** C5. A batch the validator reports an error on stops the pipeline.
    Whatever the source, once extraction has produced the batch and the
    validator's report on it has an error, [run_full_pipeline] returns
    [success = False] with that very report and the failure message; the
    session is the one it was given (no booking is written), and nothing
    is printed after "Validation failed": no cleaning, no feature
    engineering, no load. *)
Theorem invalid_batch_stops_pipeline (db : Session) (src : source) (clk : clock)
    (df df' : DataFrame) (report : DataQualityReport) (extraction : list event) :
  extract db src = mkIO extraction (inr df) →
  validate_dataframe parse_datetime df = inr (df', report) →
  errors report ≠ [] →
  let run := run_full_pipeline parse_datetime db src clk in
  outcome run
  = inr (db, mkResult false None report None None "Pipeline failed at validation stage")
  ∧ printed run
    = [Separator; PipelineStarting; Separator] ++ extraction
      ++ [TransformationStarting; ValidatingDataQuality; ValidationFailed]
  ∧ (CleaningData ∉ printed run)
  ∧ (EngineeringFeatures ∉ printed run)
  ∧ (FeatureEngineeringStarting ∉ printed run)
  ∧ (LoadingToDatabase ∉ printed run)
  ∧ (∀ n k, BatchCommitted n k ∉ printed run).
Proof.
  intros Hext Hval Herr run.
  apply is_valid_false in Herr.
  assert (Hrun : run = mkIO ([Separator; PipelineStarting; Separator] ++ extraction
      ++ [TransformationStarting; ValidatingDataQuality; ValidationFailed])
      (inr (db, mkResult false None report None None
                  "Pipeline failed at validation stage"))).
  { unfold run, run_full_pipeline, transform.
    unfold mbind, IO_bind, say, lift. simpl. rewrite Hext. simpl.
    rewrite Hval. simpl. rewrite Herr. simpl.
    rewrite Herr. reflexivity. }
  rewrite Hrun. simpl. split; [reflexivity |]. split; [reflexivity |].
  assert (Hex : ∀ e, e ∈ extraction →
            e = ExtractingFromFile ∨ e = ExtractingFromDatabase ∨ ∃ n, e = Extracted n).
  { intros e He. apply (extract_prints db src).
    rewrite Hext. exact He. }
  repeat split; try intros n k; intros Hin;
    repeat (apply elem_of_cons in Hin; destruct Hin as [Hin | Hin];
            [discriminate Hin |]);
    apply elem_of_app in Hin; destruct Hin as [Hin | Hin];
    try (apply Hex in Hin; destruct Hin as [Hin | [Hin | [? Hin]]];
         discriminate Hin);
    repeat (apply elem_of_cons in Hin; destruct Hin as [Hin | Hin];
            [discriminate Hin |]);
    by apply elem_of_nil in Hin.
Qed.

End PipelineFacts.

Lemma invalid_batch_stops_pipeline_witness :
  let run := ETLPipeline.run_full_pipeline Samples.iso_parser Samples.empty_store
               (ETLPipeline.Csv (inr Samples.batch_with_zero_price)) Samples.readings in
  ∃ report,
    errors report = [InvalidPrices 1]
    ∧ outcome run
      = inr (Samples.empty_store,
             ETLPipeline.mkResult false None report None None
               "Pipeline failed at validation stage")
    ∧ LoadingToDatabase ∉ printed run.
Proof.
  intros run.
  destruct (validate_dataframe Samples.iso_parser Samples.batch_with_zero_price)
    as [e | [df' report]] eqn:E.
  - vm_compute in E. discriminate E.
  - assert (He : errors report = [InvalidPrices 1]).
    { vm_compute in E. injection E as _ <-. reflexivity. }
    assert (Hne : errors report ≠ []) by (rewrite He; discriminate).
    destruct (invalid_batch_stops_pipeline Samples.iso_parser Samples.empty_store
                (ETLPipeline.Csv (inr Samples.batch_with_zero_price)) Samples.readings
                Samples.batch_with_zero_price df' report
                [ExtractingFromFile; Extracted 4] eq_refl E Hne)
      as (Hout & _ & _ & _ & _ & Hload & _).
    exists report. split; [exact He |]. split; [exact Hout | exact Hload].
Defined.

(** ** The feature engineer *)

Section FeatureEngineerFacts.
Import FeatureEngineer.

Lemma cut_length bins labels cs out :
  cut bins labels cs = inr out → length out = length cs.
Proof.
  unfold cut. intros H. apply traverse_inr in H.
  symmetry. eapply Forall2_length, H.
Qed.

(** C8, as the code has it. The pricing stage gives every row
    [price_per_night = booking_price / length_of_stay] as a float
    division of the two cells, and nothing guards a zero divisor: a
    positive price over a stay of no night gives plus infinity, a negative
    one minus infinity, and the value is missing only when the price is
    zero (or an operand is missing). With a divisor other than zero the
    value is the exact quotient. *)
Theorem price_per_night_is_unguarded_division (df df' : DataFrame) :
  create_pricing_features df = inr df' →
  length (rows df') = length (rows df)
  ∧ ∀ i r, rows df !! i = Some r →
      ∃ r' p n,
        rows df' !! i = Some r'
        ∧ as_float (cell_at "booking_price" r) = inr p
        ∧ as_float (cell_at "length_of_stay" r) = inr n
        ∧ cell_at "price_per_night" r' = of_float (f_div p n)
        ∧ (∀ q m, p = Fin q → n = Fin m → (m == 0)%Q →
             cell_at "price_per_night" r'
             = match q_sign q with
               | Gt => CFloat PInf
               | Lt => CFloat NInf
               | Eq => CNull
               end)
        ∧ (∀ q m, p = Fin q → n = Fin m → ¬ (m == 0)%Q →
             cell_at "price_per_night" r' = CFloat (Fin (q / m))).
Proof.
  unfold create_pricing_features.
  destruct (column df "booking_price") as [e | price] eqn:Hprice; simpl; [discriminate |].
  destruct (column df "length_of_stay") as [e | los] eqn:Hlos; simpl; [discriminate |].
  destruct (traverse2 (arith f_div) price los) as [e | ppn] eqn:Hppn; simpl;
    [discriminate |].
  apply column_inr in Hprice, Hlos.
  assert (Hlen : length price = length los) by (subst; by rewrite !length_map).
  destruct (traverse2_inr _ _ _ _ Hlen Hppn) as [Hlppn Hat].
  assert (Hl1 : length (map of_float ppn) = length (rows df))
    by (rewrite length_map, Hlppn, Hprice, length_map; reflexivity).
  set (df1 := set_column df "price_per_night" (map of_float ppn)).
  destruct (column df1 "base_price") as [e | base] eqn:Hbase; simpl; [discriminate |].
  destruct (column df1 "booking_price") as [e | price1] eqn:Hp1; simpl; [discriminate |].
  destruct (traverse2 (arith f_sub) base price1) as [e | diff] eqn:Hdiff; simpl;
    [discriminate |].
  destruct (traverse2 _ diff base) as [e | ratio] eqn:Hratio; simpl; [discriminate |].
  apply column_inr in Hbase, Hp1.
  assert (Hlr1 : length (rows df1) = length (rows df))
    by (apply set_column_length, Hl1).
  assert (Hlb : length base = length (rows df))
    by (rewrite Hbase, length_map; exact Hlr1).
  assert (Hlp1 : length price1 = length (rows df))
    by (rewrite Hp1, length_map; exact Hlr1).
  assert (Hld : length diff = length (rows df)).
  { assert (Hlen' : length base = length price1) by (rewrite Hlb, Hlp1; reflexivity).
    destruct (traverse2_inr _ _ _ _ Hlen' Hdiff) as [-> _]. exact Hlb. }
  assert (Hlra : length ratio = length (rows df)).
  { assert (Hlen' : length diff = length base) by (rewrite Hld, Hlb; reflexivity).
    destruct (traverse2_inr _ _ _ _ Hlen' Hratio) as [-> _]. exact Hld. }
  match goal with
  | |- context [set_column df1 "discount_pct" ?v] => set (pct := v)
  end.
  assert (Hl2 : length pct = length (rows df1))
    by (unfold pct; rewrite !length_map, Hlra, Hlr1; reflexivity).
  set (df2 := set_column df1 "discount_pct" pct).
  destruct (column df2 "price_per_night") as [e | ppn2] eqn:Hppn2; simpl; [discriminate |].
  destruct (cut _ _ ppn2) as [e | cat] eqn:Hcat; simpl; [discriminate |].
  intros [= <-].
  apply column_inr in Hppn2. apply cut_length in Hcat.
  assert (Hlr2 : length (rows df2) = length (rows df1))
    by (apply set_column_length, Hl2).
  assert (Hl3 : length cat = length (rows df2))
    by (rewrite Hcat, Hppn2, length_map; reflexivity).
  split; [rewrite (set_column_length _ _ _ Hl3), Hlr2, Hlr1; reflexivity |].
  intros i r Hr.
  destruct (set_column_lookup df "price_per_night" _ i r Hl1 Hr) as (v1 & Hv1 & Hr1).
  fold df1 in Hr1.
  destruct (set_column_lookup df1 "discount_pct" _ i _ Hl2 Hr1) as (v2 & Hv2 & Hr2).
  fold df2 in Hr2.
  destruct (set_column_lookup df2 "price_category" _ i _ Hl3 Hr2) as (v3 & Hv3 & Hr3).
  rewrite list_lookup_fmap in Hv1.
  destruct (ppn !! i) as [x |] eqn:Hx; [| discriminate]. injection Hv1 as <-.
  destruct (Hat i (cell_at "booking_price" r) (cell_at "length_of_stay" r))
    as (y & Hy & Hdiv).
  { subst price. by rewrite list_lookup_fmap, Hr. }
  { subst los. by rewrite list_lookup_fmap, Hr. }
  rewrite Hx in Hy. injection Hy as <-.
  unfold arith in Hdiv.
  destruct (as_float (cell_at "booking_price" r)) as [e | p] eqn:Hp; [discriminate |].
  destruct (as_float (cell_at "length_of_stay" r)) as [e | n] eqn:Hn; [discriminate |].
  simpl in Hdiv. injection Hdiv as <-.
  eexists _, p, n. split; [exact Hr3 |]. split; [reflexivity |]. split; [reflexivity |].
  assert (Hcell : cell_at "price_per_night"
                    (<["price_category" := v3]> (<["discount_pct" := v2]>
                       (<["price_per_night" := of_float (f_div p n)]> r)))
                  = of_float (f_div p n)).
  { rewrite !cell_at_insert_ne by discriminate. apply cell_at_insert. }
  rewrite Hcell. split; [reflexivity |]. split.
  - intros q m -> -> Hm. simpl. apply Qeq_bool_iff in Hm. rewrite Hm.
    destruct (q_sign q); reflexivity.
  - intros q m -> -> Hm. simpl.
    destruct (Qeq_bool m 0) eqn:E; [| reflexivity].
    apply Qeq_bool_iff in E. contradiction.
Qed.

Lemma price_per_night_is_unguarded_division_witness :
  ∃ df' r',
    create_pricing_features Samples.far_apart_batch = inr df'
    ∧ rows df' !! 0%nat = Some r'
    ∧ cell_at "price_per_night" r' = CFloat (Fin (100 / 2)).
Proof.
  destruct (create_pricing_features Samples.far_apart_batch) as [e | df'] eqn:E.
  - vm_compute in E. discriminate E.
  - destruct (price_per_night_is_unguarded_division _ _ E) as [_ H].
    destruct (H 0%nat (Samples.stay_row 1 5 19732 2 100) eq_refl)
      as (r' & p & n & Hr' & Hp & Hn & _ & _ & Hq).
    exists df', r'. split; [reflexivity |]. split; [exact Hr' |].
    injection Hp as <-. injection Hn as <-.
    apply (Hq (inject_Z 100) (inject_Z 2) eq_refl eq_refl). discriminate.
Defined.

(** C8, as stated, fails: a stay of no night is not left without a
    price per night. The division is carried out, the row gets plus
    infinity and the "luxury" category. *)
Lemma zero_night_stay_is_priced :
  ∃ df' r',
    create_pricing_features Samples.zero_night_batch = inr df'
    ∧ rows df' = [r']
    ∧ cell_at "length_of_stay" r' = CInt 0
    ∧ cell_at "price_per_night" r' = CFloat PInf
    ∧ is_null (cell_at "price_per_night" r') = false
    ∧ cell_at "price_category" r' = CStr "luxury".
Proof.
  destruct (create_pricing_features Samples.zero_night_batch) as [e | df'] eqn:E;
    vm_compute in E; [discriminate E |].
  injection E as <-. eexists _, _. split; [reflexivity |].
  split; [reflexivity |]. vm_compute. auto.
Qed.

(** C7. The rolling windows hold rows, not days. On two bookings of one
    hotel a hundred days apart, prices 100 and 300, the stage sorts by
    check-in and gives the later row [avg_price_7d = 200] and
    [booking_count_7d = 2] (and the same for the 30-day columns): its
    window is the last seven rows of the hotel, whatever their dates. A
    trailing window of seven days holds the later booking alone: average
    300, count 1. *)
Theorem rolling_window_counts_rows_not_days :
  ∃ df',
    create_aggregated_features Samples.far_apart_batch = inr df'
    ∧ map (cell_at "check_in_date") (rows df')
      = [CTime (19732 * ticks_per_day); CTime (19832 * ticks_per_day)]
    ∧ map (cell_at "avg_price_7d") (rows df')
      = [CFloat (Fin 100); CFloat (Fin (400 # 2))]
    ∧ map (cell_at "booking_count_7d") (rows df') = [CFloat (Fin 1); CFloat (Fin 2)]
    ∧ map (cell_at "avg_price_30d") (rows df')
      = [CFloat (Fin 100); CFloat (Fin (400 # 2))]
    ∧ map (cell_at "booking_count_30d") (rows df') = [CFloat (Fin 1); CFloat (Fin 2)]
    ∧ trailing_days_rolling 7 window_mean [] (rows Samples.far_apart_batch)
      = inr [CFloat (Fin 100); CFloat (Fin 300)]
    ∧ trailing_days_rolling 7 window_count [] (rows Samples.far_apart_batch)
      = inr [CFloat (Fin 1); CFloat (Fin 1)].
Proof.
  destruct (create_aggregated_features Samples.far_apart_batch) as [e | df'] eqn:E;
    vm_compute in E; [discriminate E |].
  injection E as <-. eexists. split; [reflexivity |].
  repeat split; vm_compute; reflexivity.
Qed.

End FeatureEngineerFacts.

(** ** The load stage *)

Section LoadFacts.
Import ETLPipeline.

Lemma first_app {A} (p : A → bool) (l l' : list A) (x : A) :
  first p l = Some x → first p (l ++ l') = Some x.
Proof.
  unfold first. induction l as [| y l IH]; simpl; [discriminate |].
  destruct (p y); auto.
Qed.

Lemma first_exists {A} (p : A → bool) (l : list A) (x : A) :
  In x l → p x = true → ∃ y, first p l = Some y.
Proof.
  unfold first. intros Hin Hp. destruct (List.find p l) as [y |] eqn:E; [eauto |].
  rewrite (List.find_none _ _ E x Hin) in Hp. discriminate.
Qed.

(** A booking once found stays found when rows are appended. *)
Lemma find_existing_grows (s s' : Session) (row : gmap string cell) (b : Booking.t)
    (ext : list Booking.t) :
  bookings s' = bookings s ++ ext →
  find_existing s row = inr (Some b) → find_existing s' row = inr (Some b).
Proof.
  intros Hext. unfold find_existing.
  destruct (integer_param (cell_at "hotel_id" row)) as [e | h]; simpl; [discriminate |].
  destruct (integer_param (cell_at "room_id" row)) as [e | r]; simpl; [discriminate |].
  destruct (date_param (cell_at "check_in_date" row)) as [e | d]; simpl; [discriminate |].
  destruct h, r, d; try discriminate.
  intros [= H]. rewrite Hext, (first_app _ _ _ _ H). reflexivity.
Qed.

(** The key of an inserted booking is the key the query binds. *)
Lemma insert_booking_key (new_id : Z) (row : gmap string cell) (b : Booking.t) :
  insert_booking new_id row = inr b →
  integer_param (cell_at "hotel_id" row) = inr (Some (Booking.hotel_id b))
  ∧ integer_param (cell_at "room_id" row) = inr (Some (Booking.room_id b))
  ∧ date_param (cell_at "check_in_date" row) = inr (Some (Booking.check_in_date b)).
Proof.
  unfold insert_booking.
  destruct (integer_param (cell_at "hotel_id" row)) as [e | [h |]]; simpl;
    try discriminate.
  destruct (integer_param (cell_at "room_id" row)) as [e | [r |]]; simpl;
    try discriminate.
  destruct (date_param (cell_at "check_in_date" row)) as [e | [d |]]; simpl;
    try discriminate.
  repeat match goal with
         | |- context [mbind _ ?c] => destruct c as [? | ?]; simpl; try discriminate
         end.
  intros [= <-]. simpl. auto.
Qed.

Lemma insert_booking_found (s : Session) (new_id : Z) (row : gmap string cell)
    (b : Booking.t) :
  insert_booking new_id row = inr b → In b (bookings s) →
  ∃ b', find_existing s row = inr (Some b').
Proof.
  intros Hins Hin. destruct (insert_booking_key _ _ _ Hins) as (Hh & Hr & Hd).
  unfold find_existing. rewrite Hh, Hr, Hd. simpl.
  destruct (first_exists
              (λ x, (Booking.hotel_id x =? Booking.hotel_id b)
                    && (Booking.room_id x =? Booking.room_id b)
                    && (Booking.check_in_date x =? Booking.check_in_date b))
              (bookings s) b Hin) as [y Hy].
  - by rewrite !Z.eqb_refl.
  - rewrite Hy. eauto.
Qed.

Lemma flush_inr (pend : list (gmap string cell)) :
  ∀ table table',
    flush table pend = inr table' →
    ∃ added, table' = table ++ added
             ∧ Forall2 (λ row b, ∃ new_id, insert_booking new_id row = inr b) pend added.
Proof.
  induction pend as [| row pend IH]; intros table table'; simpl.
  - intros [= <-]. exists []. by rewrite app_nil_r.
  - destruct (insert_booking _ row) as [e | b] eqn:Hb; simpl; [discriminate |].
    intros H. destruct (IH _ _ H) as (added & -> & Hall).
    exists (b :: added). rewrite <- app_assoc. split; [reflexivity |].
    constructor; eauto.
Qed.

(** The inner loop over one batch: the session is only read. *)
Lemma load_rows_spec (rs : list (gmap string cell)) :
  ∀ st,
    let st1 := fold_left load_row rs st in
    session st1 = session st
    ∧ error_count st ≤ error_count st1
    ∧ (∃ extra, output st1 = output st ++ extra ∧ BatchCommitFailed ∉ extra)
    ∧ ∃ added,
        pending st1 = pending st ++ added
        ∧ (error_count st1 ≤ error_count st →
           ∀ row, In row rs →
             (∃ b, find_existing (session st) row = inr (Some b)) ∨ In row added).
Proof.
  induction rs as [| row rs IH]; intros st; simpl.
  - split; [reflexivity |]. split; [lia |].
    split; [exists []; split; [by rewrite app_nil_r | apply not_elem_of_nil] |].
    exists []. split; [by rewrite app_nil_r |]. intros _ ? [].
  - destruct (IH (load_row st row)) as (Hs & He & (extra & Hout & Hnf) & added & Hp & Hrows).
    unfold load_row in *.
    destruct (find_existing (session st) row) as [e | [b |]] eqn:Hfind; simpl in *.
    + split; [exact Hs |]. split; [lia |]. split.
      * exists (ErrorLoadingRecord :: extra). rewrite Hout, <- app_assoc.
        split; [reflexivity |]. intros Hin. apply elem_of_cons in Hin.
        destruct Hin as [Hin | Hin]; [discriminate | contradiction].
      * exists added. split; [exact Hp |]. intros Hle. lia.
    + split; [exact Hs |]. split; [exact He |]. split; [eauto |].
      exists added. split; [exact Hp |]. intros Hle r [<- | Hin]; [eauto | auto].
    + split; [exact Hs |]. split; [exact He |]. split; [eauto |].
      exists (row :: added). rewrite Hp, <- app_assoc. split; [reflexivity |].
      intros Hle r [<- | Hin]; [right; left; reflexivity |].
      destruct (Hrows Hle r Hin) as [? | ?]; [by left | right; by right].
Qed.

(** One batch of a load: the committed bookings only grow, and when the
    batch brings no error and its commit goes through, every row of the
    batch has a booking with its key afterwards. *)
Lemma load_batch_spec (bs : nat) (R : list (gmap string cell)) (st : load_state)
    (i : nat) :
  pending st = [] →
  let st2 := load_batch bs R st i in
  pending st2 = []
  ∧ error_count st ≤ error_count st2
  ∧ (∃ extra, output st2 = output st ++ extra)
  ∧ (∃ ext, bookings (session st2) = bookings (session st) ++ ext)
  ∧ (error_count st2 ≤ error_count st → BatchCommitFailed ∉ output st2 →
     ∀ row, In row (take bs (drop i R)) →
       ∃ b, find_existing (session st2) row = inr (Some b)).
Proof.
  intros Hpend. unfold load_batch.
  destruct (load_rows_spec (take bs (drop i R)) st)
    as (Hs & He & (extra & Hout & Hnf) & added & Hp & Hrows).
  set (st1 := fold_left load_row (take bs (drop i R)) st) in *.
  rewrite Hpend in Hp. simpl in Hp.
  unfold commit_batch.
  destruct (flush (bookings (session st1)) (pending st1)) as [e | table] eqn:Hflush;
    simpl.
  - split; [reflexivity |]. split; [exact He |].
    split; [exists (extra ++ [BatchCommitFailed]); by rewrite Hout, app_assoc |].
    split; [exists []; by rewrite Hs, app_nil_r |].
    intros _ Hnot. exfalso. apply Hnot. apply elem_of_app. right. left.
  - destruct (flush_inr _ _ _ Hflush) as (new & -> & Hall).
    split; [reflexivity |]. split; [exact He |].
    split; [eexists; by rewrite Hout, <- app_assoc |].
    split; [exists new; by rewrite Hs |].
    intros Hle _ row Hrow.
    destruct (Hrows Hle row Hrow) as [[b Hb] | Hin].
    + exists b. eapply find_existing_grows; [| exact Hb]. simpl. by rewrite Hs.
    + rewrite Hp in Hall.
      apply list_elem_of_In, list_elem_of_lookup in Hin. destruct Hin as [k Hk].
      destruct (Forall2_lookup_l _ _ _ _ _ Hall Hk) as (b & Hb & new_id & Hins).
      apply (insert_booking_found _ new_id row b Hins). simpl.
      apply in_or_app. right. apply list_elem_of_In, list_elem_of_lookup. eauto.
Qed.

(** The whole loop, for a load without error or failed commit. *)
Lemma load_batches_spec (bs : nat) (R : list (gmap string cell)) (starts : list nat) :
  ∀ st,
    pending st = [] →
    let st' := fold_left (load_batch bs R) starts st in
    pending st' = []
    ∧ error_count st ≤ error_count st'
    ∧ (∃ extra, output st' = output st ++ extra)
    ∧ (∃ ext, bookings (session st') = bookings (session st) ++ ext)
    ∧ (error_count st' ≤ error_count st → BatchCommitFailed ∉ output st' →
       ∀ i row, In i starts → In row (take bs (drop i R)) →
         ∃ b, find_existing (session st') row = inr (Some b)).
Proof.
  induction starts as [| i starts IH]; intros st Hpend; simpl.
  - split; [exact Hpend |]. split; [lia |].
    split; [exists []; by rewrite app_nil_r |].
    split; [exists []; by rewrite app_nil_r |]. intros _ _ ? ? [].
  - destruct (load_batch_spec bs R st i Hpend)
      as (Hp1 & He1 & (x1 & Ho1) & (ext1 & Hb1) & Hrows1).
    destruct (IH (load_batch bs R st i) Hp1)
      as (Hp2 & He2 & (x2 & Ho2) & (ext2 & Hb2) & Hrows2).
    split; [exact Hp2 |]. split; [lia |].
    split; [exists (x1 ++ x2); by rewrite Ho2, Ho1, app_assoc |].
    split; [exists (ext1 ++ ext2); by rewrite Hb2, Hb1, app_assoc |].
    intros Hle Hnot j row [<- | Hj] Hrow.
    + destruct (Hrows1 ltac:(lia)) with (row := row) as [b Hb]; [| exact Hrow |].
      * intros Hin. apply Hnot. rewrite Ho2. apply elem_of_app. by left.
      * exists b. eapply find_existing_grows; [exact Hb2 | exact Hb].
    + apply (Hrows2 ltac:(lia) Hnot j row Hj Hrow).
Qed.

(** The inner loop when every row already has a booking with its key. *)
Lemma reload_rows (rs : list (gmap string cell)) :
  ∀ st,
    (∀ row, In row rs → ∃ b, find_existing (session st) row = inr (Some b)) →
    fold_left load_row rs st
    = mkLoad (session st) (pending st) (loaded_count st)
        (skipped_count st + Z.of_nat (length rs)) (error_count st) (output st).
Proof.
  induction rs as [| row rs IH]; intros st Hall.
  - destruct st. simpl. f_equal. lia.
  - simpl fold_left. destruct (Hall row (or_introl eq_refl)) as [b Hb].
    unfold load_row at 2. rewrite Hb. rewrite IH.
    + simpl. f_equal. lia.
    + intros r Hr. simpl. apply Hall. by right.
Qed.

Lemma reload_batches (bs : nat) (R : list (gmap string cell)) (starts : list nat) :
  ∀ st,
    pending st = [] →
    (∀ i row, In i starts → In row (take bs (drop i R)) →
       ∃ b, find_existing (session st) row = inr (Some b)) →
    let st' := fold_left (load_batch bs R) starts st in
    session st' = session st
    ∧ pending st' = []
    ∧ loaded_count st' = loaded_count st
    ∧ skipped_count st'
      = skipped_count st
        + Z.of_nat (sum_list (map (λ i, length (take bs (drop i R))) starts))
    ∧ error_count st' = error_count st.
Proof.
  induction starts as [| i starts IH]; intros st Hpend Hall; simpl.
  - repeat split; auto. lia.
  - assert (Hb : load_batch bs R st i
                 = mkLoad (session st) [] (loaded_count st)
                     (skipped_count st + Z.of_nat (length (take bs (drop i R))))
                     (error_count st)
                     (output st ++ [BatchCommitted (i / bs + 1) (loaded_count st)])).
    { unfold load_batch. rewrite reload_rows by (intros; eapply Hall; [by left | done]).
      unfold commit_batch. simpl. rewrite Hpend. simpl.
      destruct (session st). reflexivity. }
    rewrite Hb.
    destruct (IH (mkLoad (session st) [] (loaded_count st)
                    (skipped_count st + Z.of_nat (length (take bs (drop i R))))
                    (error_count st)
                    (output st ++ [BatchCommitted (i / bs + 1) (loaded_count st)])))
      as (H1 & H2 & H3 & H4 & H5); [reflexivity | |].
    + intros j row Hj Hrow. simpl. apply (Hall j row); [by right | exact Hrow].
    + simpl in *. repeat split; auto. rewrite H4. lia.
Qed.

(** The batches cover the frame. *)
Lemma batch_lengths {A} (R : list A) (bs m : nat) :
  sum_list (map (λ i, length (take bs (drop i R))) (map (λ k, k * bs)%nat (seq 0 m)))
  = Nat.min (m * bs) (length R).
Proof.
  induction m as [| m IH].
  - reflexivity.
  - rewrite seq_S, !map_app, sum_list_with_app, IH. simpl.
    rewrite length_take, length_drop. lia.
Qed.

Lemma batch_starts_cover {A} (R : list A) (bs : nat) :
  (0 < bs)%nat →
  sum_list (map (λ i, length (take bs (drop i R))) (batch_starts (length R) bs))
  = length R.
Proof.
  intros Hbs. unfold batch_starts. rewrite batch_lengths.
  apply Nat.min_r.
  pose proof (Nat.div_mod_eq (length R + bs - 1) bs) as Hdm.
  pose proof (Nat.mod_upper_bound (length R + bs - 1) bs ltac:(lia)) as Hmod.
  nia.
Qed.

Lemma load_to_database_unfold (db : Session) (df : DataFrame) (batch_size now : Z) :
  0 < batch_size →
  load_to_database db df batch_size now
  = let dff := if has_column df "booking_date" then df
               else fill_column df "booking_date" (CTime now) in
    match project dff BOOKING_COLS with
    | inl e => mkIO [LoadingToDatabase] (inl e)
    | inr df_to_load =>
        let st := fold_left (load_batch (Z.to_nat batch_size) (rows df_to_load))
                    (batch_starts (length (rows df_to_load)) (Z.to_nat batch_size))
                    (mkLoad db [] 0 0 0 []) in
        mkIO (LoadingToDatabase
              :: output st
                 ++ [LoadComplete (loaded_count st) (skipped_count st) (error_count st)])
             (inr (session st, dff,
                   mkCounters (loaded_count st) (skipped_count st) (error_count st)
                     (Z.of_nat (length (rows df_to_load)))))
    end.
Proof.
  intros Hbs. unfold load_to_database, mbind, IO_bind, say, lift. simpl.
  destruct (project _ BOOKING_COLS) as [e | df_to_load]; simpl; [reflexivity |].
  destruct (batch_size =? 0) eqn:E0; [apply Z.eqb_eq in E0; lia |].
  destruct (batch_size <? 0) eqn:E1; [apply Z.ltb_lt in E1; lia |].
  reflexivity.
Qed.

Lemma has_column_fill (df : DataFrame) (c : string) (v : cell) :
  has_column (fill_column df c v) c = true.
Proof.
  unfold has_column, fill_column, add_label. simpl. apply bool_decide_eq_true.
  case_bool_decide; [assumption |]. apply elem_of_app. right. left.
Qed.

(** A load in which every row already has a booking with its key. *)
Lemma reload_counts (db : Session) (df : DataFrame) (df_to_load : DataFrame)
    (batch_size now : Z) :
  0 < batch_size →
  has_column df "booking_date" = true →
  project df BOOKING_COLS = inr df_to_load →
  (∀ i row, In i (batch_starts (length (rows df_to_load)) (Z.to_nat batch_size)) →
     In row (take (Z.to_nat batch_size) (drop i (rows df_to_load))) →
     ∃ b, find_existing db row = inr (Some b)) →
  ∃ log c,
    load_to_database db df batch_size now = mkIO log (inr (db, df, c))
    ∧ loaded c = 0 ∧ skipped c = total c
    ∧ total c = Z.of_nat (length (rows df_to_load)) ∧ load_errors c = 0.
Proof.
  intros Hbs Hcol Hproj Hall.
  rewrite (load_to_database_unfold _ _ _ _ Hbs). rewrite Hcol. cbv zeta.
  rewrite Hproj.
  destruct (reload_batches (Z.to_nat batch_size) (rows df_to_load)
              (batch_starts (length (rows df_to_load)) (Z.to_nat batch_size))
              (mkLoad db [] 0 0 0 []) eq_refl Hall) as (Hs & _ & Hl & Hsk & He).
  simpl in Hs, Hl, Hsk, He.
  rewrite batch_starts_cover in Hsk by lia.
  do 2 eexists. rewrite Hs, Hl, Hsk, He. split; [reflexivity |]. simpl. auto.
Qed.

Lemma extracted_row_found (db : Session) (b : Booking.t) :
  In b (bookings db) →
  ∃ b', find_existing db (project_row BOOKING_COLS (booking_record b)) = inr (Some b').
Proof.
  intros Hin. unfold find_existing.
  change (cell_at "hotel_id" (project_row BOOKING_COLS (booking_record b)))
    with (CInt (Booking.hotel_id b)).
  change (cell_at "room_id" (project_row BOOKING_COLS (booking_record b)))
    with (CInt (Booking.room_id b)).
  change (cell_at "check_in_date" (project_row BOOKING_COLS (booking_record b)))
    with (CDate (Booking.check_in_date b)).
  simpl.
  destruct (first_exists
              (λ x, (Booking.hotel_id x =? Booking.hotel_id b)
                    && (Booking.room_id x =? Booking.room_id b)
                    && (Booking.check_in_date x =? Booking.check_in_date b))
              (bookings db) b Hin) as [y Hy].
  - by rewrite !Z.eqb_refl.
  - rewrite Hy. eauto.
Qed.

Lemma extracted_bookings_in (db : Session) (h sd : option Z) (b : Booking.t) :
  In b (extracted_bookings db h sd) → In b (bookings db).
Proof.
  unfold extracted_bookings. intros Hin.
  destruct sd as [d |]; [apply List.filter_In in Hin; destruct Hin as [Hin _] |];
    (destruct h as [h |]; [destruct (h =? 0);
       [| apply List.filter_In in Hin; destruct Hin as [Hin _]] |]); exact Hin.
Qed.

(** C6. Reloading skips every row. When a load with a positive batch size
    returns without a row error and without a failed commit, loading the
    same frame again (the frame the first call handed back) returns with
    [loaded = 0] and [skipped = total], the total of the first load, and
    leaves the session as it is. The same holds for any non-empty frame
    re-extracted from that session. *)
Theorem reload_skips_every_row (db db1 : Session) (df df1 : DataFrame)
    (batch_size now1 now2 : Z) (log1 : list event) (c1 : load_counters) :
  0 < batch_size →
  load_to_database db df batch_size now1 = mkIO log1 (inr (db1, df1, c1)) →
  load_errors c1 = 0 →
  BatchCommitFailed ∉ log1 →
  (∃ log2 c2,
     load_to_database db1 df1 batch_size now2 = mkIO log2 (inr (db1, df1, c2))
     ∧ loaded c2 = 0 ∧ skipped c2 = total c2 ∧ total c2 = total c1
     ∧ load_errors c2 = 0)
  ∧ (∀ hotel_id start_date logx dfx,
       extract_from_database db1 hotel_id start_date = mkIO logx (inr dfx) →
       rows dfx ≠ [] →
       ∃ log3 c3,
         load_to_database db1 dfx batch_size now2 = mkIO log3 (inr (db1, dfx, c3))
         ∧ loaded c3 = 0 ∧ skipped c3 = total c3
         ∧ total c3 = Z.of_nat (length (rows dfx)) ∧ load_errors c3 = 0).
Proof.
  intros Hbs Hload Herr Hlog. split.
  - rewrite (load_to_database_unfold _ _ _ _ Hbs) in Hload. cbv zeta in Hload.
    set (dff := if has_column df "booking_date" then df
                else fill_column df "booking_date" (CTime now1)) in *.
    assert (Hcol : has_column dff "booking_date" = true).
    { unfold dff. destruct (has_column df "booking_date") eqn:E;
        [exact E | apply has_column_fill]. }
    destruct (project dff BOOKING_COLS) as [e | df_to_load] eqn:Hproj;
      [discriminate |].
    injection Hload as Hlog1 Hdb Hdf Hc. subst df1 c1. simpl in Herr.
    destruct (load_batches_spec (Z.to_nat batch_size) (rows df_to_load)
                (batch_starts (length (rows df_to_load)) (Z.to_nat batch_size))
                (mkLoad db [] 0 0 0 []) eq_refl)
      as (_ & _ & _ & _ & Hfound).
    rewrite Hdb in Hfound. simpl in Hfound.
    destruct (reload_counts db1 dff df_to_load batch_size now2 Hbs Hcol Hproj)
      as (log2 & c2 & H2 & ? & ? & ? & ?).
    + apply Hfound; [lia |].
      intros Hin. apply Hlog. rewrite <- Hlog1. right.
      apply elem_of_app. by left.
    + exists log2, c2. simpl. auto.
  - intros h sd logx dfx Hext Hne.
    unfold extract_from_database, mbind, IO_bind, say in Hext. simpl in Hext.
    injection Hext as _ <-.
    destruct (extracted_bookings db1 h sd) as [| b0 bs0] eqn:Hbs0;
      [contradiction |].
    rewrite <- Hbs0 in *. clear Hne.
    set (dfx := frame_of_records (map booking_record (extracted_bookings db1 h sd))).
    assert (Hdfx : dfx = mkFrame EXTRACTED_COLUMNS
                           (map booking_record (extracted_bookings db1 h sd)))
      by (unfold dfx; rewrite Hbs0; reflexivity).
    destruct (reload_counts db1 dfx
                (mkFrame BOOKING_COLS (map (project_row BOOKING_COLS) (rows dfx)))
                batch_size now2 Hbs)
      as (log3 & c3 & H3 & ? & ? & Ht & ?).
    + rewrite Hdfx. reflexivity.
    + rewrite Hdfx. reflexivity.
    + intros i row _ Hrow. simpl in Hrow.
      apply list_elem_of_In, list_elem_of_lookup in Hrow. destruct Hrow as [k Hk].
      apply lookup_take_Some in Hk. destruct Hk as [Hk _].
      rewrite lookup_drop in Hk.
      assert (Hrow : In row (map (project_row BOOKING_COLS) (rows dfx)))
        by (apply list_elem_of_In, list_elem_of_lookup; eauto).
      rewrite Hdfx in Hrow. simpl in Hrow.
      apply List.in_map_iff in Hrow. destruct Hrow as (r & <- & Hr).
      apply List.in_map_iff in Hr. destruct Hr as (b & <- & Hb).
      apply extracted_row_found, (extracted_bookings_in _ h sd), Hb.
    + exists log3, c3. simpl in Ht. rewrite length_map in Ht. auto.
Qed.

End LoadFacts.

Lemma reload_skips_every_row_witness :
  ∃ log1 db1 df1 c1 log2 c2,
    0 < 100
    ∧ ETLPipeline.load_to_database Samples.empty_store Samples.stored_batch 100 1002
      = mkIO log1 (inr (db1, df1, c1))
    ∧ ETLPipeline.loaded c1 = 3
    ∧ ETLPipeline.load_errors c1 = 0
    ∧ (BatchCommitFailed ∉ log1)
    ∧ ETLPipeline.load_to_database db1 df1 100 1003 = mkIO log2 (inr (db1, df1, c2))
    ∧ ETLPipeline.loaded c2 = 0
    ∧ ETLPipeline.skipped c2 = 3.
Proof.
  destruct (ETLPipeline.load_to_database Samples.empty_store Samples.stored_batch 100 1002)
    as [log1 [e | [[db1 df1] c1]]] eqn:E.
  - vm_compute in E. discriminate E.
  - assert (Hc : ETLPipeline.loaded c1 = 3 ∧ ETLPipeline.load_errors c1 = 0
                 ∧ ETLPipeline.total c1 = 3 ∧ BatchCommitFailed ∉ log1).
    { vm_compute in E. injection E as <- _ _ <-.
      split; [reflexivity |]. split; [reflexivity |]. split; [reflexivity |].
      intros Hin.
      repeat (apply elem_of_cons in Hin; destruct Hin as [Hin | Hin]; [discriminate Hin |]).
      by apply elem_of_nil in Hin. }
    destruct Hc as (Hl & He & Ht & Hf).
    destruct (reload_skips_every_row Samples.empty_store db1 Samples.stored_batch df1
                100 1002 1003 log1 c1 ltac:(lia) E He Hf)
      as [(log2 & c2 & H2 & Hl2 & Hs2 & Ht2 & _) _].
    exists log1, db1, df1, c1, log2, c2.
    split; [lia |]. split; [reflexivity |]. split; [exact Hl |]. split; [exact He |].
    split; [exact Hf |]. split; [exact H2 |]. split; [exact Hl2 |]. lia.
Defined.

(** ** Ranges of days and the whole recalculation *)

Section RangeFacts.
Import MetricsCalculator MetricsCalculatorFacts.








(** X2. For a hotel id no hotel has, calculate_date_range_metrics raises
    ValueError('Hotel <id> not found') at the first day when start <= end,
    and returns the empty list with the session untouched when end < start:
    the empty range never looks the hotel up. *)
Theorem date_range_unknown_hotel (db : Session) (h s e now : Z) :
  first (λ x, Hotel.id x =? h) (hotels db) = None →
  calculate_date_range_metrics db h s e now
  = if e <? s then inr (db, []) else inl (ValueError_hotel_not_found h).
Proof.
  intros Hh. unfold calculate_date_range_metrics.
  destruct (e <? s) eqn:E.
  - apply Z.ltb_lt in E. replace (Z.to_nat (e - s + 1)) with O by lia. reflexivity.
  - apply Z.ltb_ge in E. destruct (Z.to_nat (e - s + 1)) as [| k] eqn:Ek; [lia |].
    simpl. unfold calculate_daily_metrics. rewrite Hh. reflexivity.
Qed.

Lemma date_range_unknown_hotel_witness :
  calculate_date_range_metrics sample_db 9 100 104 7 = inl (ValueError_hotel_not_found 9)
  ∧ calculate_date_range_metrics sample_db 9 104 100 7 = inr (sample_db, []).
Proof.
  assert (Hh : first (λ x, Hotel.id x =? 9) (hotels sample_db) = None) by reflexivity.
  split.
  - exact (date_range_unknown_hotel sample_db 9 100 104 7 Hh).
  - exact (date_range_unknown_hotel sample_db 9 104 100 7 Hh).
Defined.


Lemma round2_zero (q : Q) : (q == 0)%Q → (round2 q == 0)%Q.
Proof.
  intros Hq. transitivity q; [| exact Hq].
  apply (round2_hundredths q 0). rewrite Hq. reflexivity.
Qed.

Lemma inject_Z_nonzero (z : Z) : 0 < z → ¬ (inject_Z z == 0)%Q.
Proof. unfold Qeq, inject_Z. simpl. lia. Qed.

(** X3. When no booking of the hotel is active on the target date, the
    snapshot calculate_daily_metrics stores has rooms_occupied = 0 and
    occupancy_rate, total_revenue, average_daily_rate and
    revenue_per_available_room all equal to 0, whatever the hotel's
    total_rooms (also 0 or negative): no division is attempted on an empty
    day. *)
Theorem empty_day_is_all_zero (db db' : Session) (h d now : Z) (m : DailyMetrics.t) :
  calculate_daily_metrics db h d now = inr (db', m) →
  active_bookings db h d = [] →
  DailyMetrics.rooms_occupied m = Some 0
  ∧ is_zero (DailyMetrics.occupancy_rate m)
  ∧ is_zero (DailyMetrics.total_revenue m)
  ∧ is_zero (DailyMetrics.average_daily_rate m)
  ∧ is_zero (DailyMetrics.revenue_per_available_room m).
Proof.
  unfold calculate_daily_metrics, active_bookings.
  destruct (first _ (hotels db)) as [hotel |]; [| discriminate].
  unfold compute_figures. intros Hcall Hnone. rewrite Hnone in Hcall. simpl in Hcall.
  assert (Hocc : ((if 0 <? Hotel.total_rooms hotel
                   then inject_Z 0 / inject_Z (Hotel.total_rooms hotel) * 100
                   else 0) == 0)%Q).
  { destruct (0 <? Hotel.total_rooms hotel) eqn:E; [| reflexivity].
    apply Z.ltb_lt in E. field. by apply inject_Z_nonzero. }
  assert (Hrev : ((if 0 <? Hotel.total_rooms hotel
                   then 0 / inject_Z (Hotel.total_rooms hotel)
                   else 0) == 0)%Q).
  { destruct (0 <? Hotel.total_rooms hotel) eqn:E; [| reflexivity].
    apply Z.ltb_lt in E. field. by apply inject_Z_nonzero. }
  destruct (first (is_cell h d) (daily_metrics db)); injection Hcall as <- <-; simpl;
    (split; [reflexivity |]); repeat split; apply round2_zero;
    first [exact Hocc | exact Hrev | reflexivity].
Qed.

Lemma empty_day_is_all_zero_witness :
  ∃ db' m,
    calculate_daily_metrics sample_db 1 200 7 = inr (db', m)
    ∧ active_bookings sample_db 1 200 = []
    ∧ DailyMetrics.rooms_occupied m = Some 0
    ∧ is_zero (DailyMetrics.total_revenue m).
Proof.
  destruct (calculate_daily_metrics sample_db 1 200 7) as [e | [db' m]] eqn:E.
  - vm_compute in E. discriminate E.
  - destruct (empty_day_is_all_zero sample_db db' 1 200 7 m E eq_refl)
      as (Hr & _ & Ht & _).
    exists db', m. auto.
Defined.



Import Recalculation.






End RangeFacts.

(** ** The analytics service *)

Section AnalyticsFacts.
Import MetricsCalculator MetricsCalculatorFacts AnalyticsService.

Lemma py_div_positive (a : Q) (z : Z) :
  0 < z → py_div a (inject_Z z) = inr (a / inject_Z z)%Q.
Proof.
  intros Hz. unfold py_div.
  destruct (Qeq_bool (inject_Z z) 0) eqn:E; [| reflexivity].
  apply Qeq_bool_eq in E. unfold Qeq, inject_Z in E. simpl in E. lia.
Qed.

(** X6. get_daily_statistics never raises and reports rooms_occupied = the
    number of bookings active on the date. When the hotel exists its
    rooms_occupied, total_rooms, occupancy_rate and daily_revenue are
    exactly the rooms_occupied, rooms_available, occupancy_rate and
    total_revenue of the snapshot calculate_daily_metrics stores for the
    same session, hotel and date; when the hotel does not exist,
    calculate_daily_metrics raises ValueError while get_daily_statistics
    answers with total_rooms = 0 and occupancy_rate = 0. *)
Theorem daily_statistics_agree_with_snapshot (db : Session) (h d now : Z) :
  ∃ s,
    get_daily_statistics db h d = inr s
    ∧ rooms_occupied s = Z.of_nat (length (active_bookings db h d))
    ∧ match calculate_daily_metrics db h d now with
      | inr (_, m) =>
          DailyMetrics.rooms_occupied m = Some (rooms_occupied s)
          ∧ DailyMetrics.rooms_available m = Some (total_rooms s)
          ∧ DailyMetrics.occupancy_rate m = Some (daily_occupancy_rate s)
          ∧ DailyMetrics.total_revenue m = Some (daily_revenue s)
      | inl e =>
          e = ValueError_hotel_not_found h
          ∧ total_rooms s = 0
          ∧ (daily_occupancy_rate s == 0)%Q
      end.
Proof.
  unfold get_daily_statistics, calculate_daily_metrics, compute_figures.
  fold (active_bookings db h d).
  rewrite (sum_prorated_positive _ 0 (active_bookings_nights db h d)).
  destruct (first _ (hotels db)) as [hotel |].
  - destruct (0 <? Hotel.total_rooms hotel) eqn:E.
    + apply Z.ltb_lt in E. rewrite (py_div_positive _ _ E). simpl.
      eexists. split; [reflexivity |]. split; [reflexivity |].
      destruct (first _ (daily_metrics db)); simpl; auto.
    + simpl. eexists. split; [reflexivity |]. split; [reflexivity |].
      destruct (first _ (daily_metrics db)); simpl; auto.
  - simpl. eexists. split; [reflexivity |]. split; [reflexivity |]. simpl.
    split; [reflexivity |]. split; reflexivity.
Qed.

(** X7. calculate_revenue_metrics never raises (both divisions are guarded),
    echoes the period it was given and counts the selected bookings. With no
    selected booking every figure is 0. Otherwise total_revenue is round(sum
    of booking_price, 2); average_daily_rate is round(total_revenue / total
    room nights, 2) when the room nights are positive and 0 when they are
    not; and occupancy_rate is 0 when a non-zero hotel_id names no hotel. *)
Theorem revenue_metrics_always_return (db : Session)
    (hotel_id start_date end_date : option Z) :
  let chosen := selected db hotel_id start_date end_date in
  ∃ r,
    calculate_revenue_metrics db hotel_id start_date end_date = inr r
    ∧ total_bookings r = length chosen
    ∧ period_start r = start_date
    ∧ period_end r = end_date
    ∧ (chosen = [] →
       total_revenue r = 0%Q ∧ average_daily_rate r = 0%Q ∧ occupancy_rate r = 0%Q)
    ∧ (chosen ≠ [] →
       total_revenue r = round2 (sum_prices chosen)
       ∧ (0 < sum_nights chosen →
          average_daily_rate r
          = round2 (sum_prices chosen / inject_Z (sum_nights chosen)))
       ∧ (sum_nights chosen ≤ 0 → (average_daily_rate r == 0)%Q)
       ∧ (∀ h, truthy hotel_id = Some h →
            first (λ x, Hotel.id x =? h) (hotels db) = None →
            (occupancy_rate r == 0)%Q)).
Proof.
  intros chosen. unfold calculate_revenue_metrics. fold chosen.
  destruct chosen as [| b bs] eqn:Hsel.
  { eexists. split; [reflexivity |]. simpl.
    split; [reflexivity |]. split; [reflexivity |]. split; [reflexivity |].
    split; [auto |]. intros H. by destruct H. }
  set (sel := b :: bs).
  set (rooms := match truthy hotel_id with
                | Some h => match first (λ x, Hotel.id x =? h) (hotels db) with
                            | Some hotel => Hotel.total_rooms hotel
                            | None => 0
                            end
                | None => all_rooms (hotels db)
                end).
  set (days := match start_date, end_date with Some s, Some e => e - s | _, _ => 180 end).
  assert (Hadr : ∃ adr,
            (if 0 <? sum_nights sel
             then py_div (sum_prices sel) (inject_Z (sum_nights sel)) else ret 0%Q)
            = inr adr
            ∧ (0 < sum_nights sel → adr = (sum_prices sel / inject_Z (sum_nights sel))%Q)
            ∧ (sum_nights sel ≤ 0 → adr = 0%Q)).
  { destruct (0 <? sum_nights sel) eqn:E.
    - apply Z.ltb_lt in E. rewrite (py_div_positive _ _ E). eexists.
      split; [reflexivity |]. split; [reflexivity | lia].
    - apply Z.ltb_ge in E. eexists. split; [reflexivity |]. split; [lia | reflexivity]. }
  destruct Hadr as (adr & -> & Hadr1 & Hadr0).
  assert (Hocc : ∃ occ,
            (if 0 <? rooms * days
             then x ← py_div (inject_Z (sum_nights sel)) (inject_Z (rooms * days)) ;
                  ret (x * 100)%Q
             else ret 0%Q) = inr occ
            ∧ (rooms = 0 → occ = 0%Q)).
  { destruct (0 <? rooms * days) eqn:E.
    - apply Z.ltb_lt in E. rewrite (py_div_positive _ _ E). simpl. eexists.
      split; [reflexivity |]. lia.
    - eexists. split; reflexivity. }
  destruct Hocc as (occ & -> & Hocc0).
  simpl. eexists. split; [reflexivity |]. simpl.
  split; [reflexivity |]. split; [reflexivity |]. split; [reflexivity |].
  split; [discriminate |]. intros _.
  split; [reflexivity |]. split; [by intros H; rewrite (Hadr1 H) |].
  split; [intros H; rewrite (Hadr0 H); by apply round2_zero |].
  intros h Hh Hnone. apply round2_zero. rewrite Hocc0; [reflexivity |].
  unfold rooms. by rewrite Hh, Hnone.
Qed.

End AnalyticsFacts.

(** ** The booking endpoints *)

Section BookingsFacts.
Import MetricsCalculator MetricsCalculatorFacts BookingsApi.

Lemma filter_app_one {A} (p : A → bool) (l : list A) (x : A) :
  length (List.filter p (l ++ [x]))
  = (length (List.filter p l) + (if p x then 1 else 0))%nat.
Proof.
  rewrite List.filter_app, length_app. simpl. by destruct (p x).
Qed.

Lemma next_id_above (ids : list Z) : ∀ x, x ∈ ids → x < next_id ids.
Proof.
  unfold next_id. induction ids as [| y ids IH]; intros x Hx.
  - by apply elem_of_nil in Hx.
  - simpl. apply elem_of_cons in Hx. destruct Hx as [-> | Hx]; [lia |].
    specialize (IH x Hx). lia.
Qed.

(** X8. A payload the BookingCreate model accepts (check_out_date after
    check_in_date, num_guests, booking_price and base_price above 0) is
    stored by create_booking as a new last row with an id above every
    existing one and status 'confirmed'; it has at least one night and a
    positive price, the metrics calculator counts it as active on exactly
    the days check_in_date <= d < check_out_date of its hotel, and the
    number of active bookings of any (hotel, day) grows by one exactly
    there; hotels and daily metrics are untouched. *)
Theorem created_booking_is_counted (db : Session) (p : BookingCreate.t) (now : Z) :
  BookingCreate.accepted p = true →
  let '(db', b) := create_booking db p now in
  bookings db' = bookings db ++ [b]
  ∧ hotels db' = hotels db
  ∧ daily_metrics db' = daily_metrics db
  ∧ (∀ x, x ∈ bookings db → Booking.id x < Booking.id b)
  ∧ Booking.status b = Some "confirmed"
  ∧ 1 ≤ stay_nights b
  ∧ (0 < Booking.booking_price b)%Q
  ∧ (∀ h d,
       is_active h d b = true
       ↔ h = BookingCreate.hotel_id p
         ∧ BookingCreate.check_in_date p ≤ d < BookingCreate.check_out_date p)
  ∧ (∀ h d,
       length (active_bookings db' h d)
       = (length (active_bookings db h d) + (if is_active h d b then 1 else 0))%nat).
Proof.
  unfold BookingCreate.accepted, BookingCreate.check_out_after_check_in.
  intros Hacc.
  apply andb_prop in Hacc. destruct Hacc as [Hacc Hbase].
  apply andb_prop in Hacc. destruct Hacc as [Hacc Hprice].
  apply andb_prop in Hacc. destruct Hacc as [Hdates Hguests].
  apply negb_true_iff, Z.leb_gt in Hdates.
  unfold create_booking. simpl.
  split; [reflexivity |]. split; [reflexivity |]. split; [reflexivity |].
  split.
  { intros x Hx. apply next_id_above. apply list_elem_of_fmap. eauto. }
  split; [reflexivity |].
  split; [unfold stay_nights; simpl; lia |].
  split.
  { unfold Qlt_bool in Hprice. apply negb_true_iff in Hprice.
    destruct (Qlt_le_dec 0 (BookingCreate.booking_price p)) as [H | H]; [exact H |].
    apply Qle_bool_iff in H. congruence. }
  split.
  - intros h d. unfold is_active. simpl.
    rewrite ?orb_true_r, ?andb_true_r, !andb_true_iff, Z.eqb_eq, Z.leb_le, Z.ltb_lt.
    intuition lia.
  - intros h d. unfold active_bookings. simpl. apply filter_app_one.
Qed.

Lemma created_booking_is_counted_witness :
  let p := BookingCreate.mk 102 104 "Asha Rao" None 2 (Some "direct") 1 7
             (3000 # 1) (3500 # 1) in
  BookingCreate.accepted p = true
  ∧ length (active_bookings (fst (create_booking sample_db p 9)) 1 102) = 3%nat.
Proof.
  assert (Hacc : BookingCreate.accepted
                   (BookingCreate.mk 102 104 "Asha Rao" None 2 (Some "direct") 1 7
                      (3000 # 1) (3500 # 1)) = true) by reflexivity.
  split; [exact Hacc |].
  pose proof (created_booking_is_counted sample_db _ 9 Hacc) as H.
  destruct (create_booking sample_db _ 9) as [db' b] eqn:E.
  destruct H as (_ & _ & _ & _ & _ & _ & _ & _ & Hcount).
  simpl. rewrite Hcount. injection E as _ <-. reflexivity.
Defined.

Lemma filter_middle {A} (p : A → bool) (pre post : list A) (x : A) :
  length (List.filter p (pre ++ x :: post))
  = (length (List.filter p pre) + (if p x then 1 else 0)
     + length (List.filter p post))%nat.
Proof.
  rewrite List.filter_app, length_app. simpl. destruct (p x); simpl; lia.
Qed.

Lemma is_active_cancel h d b : is_active h d (cancel b) = false.
Proof. unfold is_active. simpl. by rewrite andb_false_r. Qed.

(** X9. cancel_booking answers 404 when no booking has the id. Otherwise it
    sets the status of the first booking with the id to 'cancelled' and
    changes nothing else: the table keeps its length, the number of active
    bookings of any (hotel, day) drops by one exactly where the booking was
    active, the arrivals of every day are unchanged, the cancellations of a
    day grow by one exactly on the booking's check-in day at its hotel
    unless it was cancelled already, and cancelling again returns the same
    booking and session. *)
Theorem cancelled_booking_frees_its_room (db : Session) (booking_id : Z) :
  match first (by_id booking_id) (bookings db) with
  | None => cancel_booking db booking_id = inl (mkHTTP 404 (BookingNotFound booking_id))
  | Some old =>
      ∃ db' b,
        cancel_booking db booking_id = inr (db', b)
        ∧ b = cancel old
        ∧ Booking.status b = Some "cancelled"
        ∧ hotels db' = hotels db
        ∧ daily_metrics db' = daily_metrics db
        ∧ length (bookings db') = length (bookings db)
        ∧ (∀ h d,
             length (active_bookings db h d)
             = (length (active_bookings db' h d)
                + (if is_active h d old then 1 else 0))%nat)
        ∧ (∀ h d,
             count (is_arrival h d) (bookings db') = count (is_arrival h d) (bookings db))
        ∧ (∀ h d,
             count (is_cancelled_arrival h d) (bookings db')
             = count (is_cancelled_arrival h d) (bookings db)
               + (if is_arrival h d old
                     && negb (status_is "cancelled" (Booking.status old))
                  then 1 else 0))
        ∧ cancel_booking db' booking_id = inr (db', b)
  end.
Proof.
  unfold cancel_booking.
  destruct (first (by_id booking_id) (bookings db)) as [old |] eqn:Hfirst;
    [| reflexivity].
  destruct (first_split _ cancel _ _ Hfirst) as (pre & post & Hl & Hpre & Hold & Hup).
  do 2 eexists. split; [reflexivity |]. split; [reflexivity |].
  split; [reflexivity |]. split; [reflexivity |]. split; [reflexivity |]. simpl.
  split; [apply length_update_first |].
  split; [| split; [| split]].
  - intros h d. unfold active_bookings. simpl. rewrite Hup, Hl, !filter_middle.
    rewrite is_active_cancel. lia.
  - intros h d. unfold count. rewrite Hup, Hl, !filter_middle.
    reflexivity.
  - intros h d. unfold count. rewrite Hup, Hl, !filter_middle.
    unfold is_cancelled_arrival, is_arrival. simpl.
    destruct ((Booking.hotel_id old =? h) && (Booking.check_in_date old =? d));
      simpl; [| lia].
    destruct (status_is "cancelled" (Booking.status old)); simpl; lia.
  - rewrite (first_update_first _ _ _ _ Hfirst) by exact Hold.
    f_equal. f_equal. f_equal. rewrite Hup.
    clear -Hpre Hold. induction pre as [| y pre IH]; simpl.
    + change (by_id booking_id (cancel old)) with (by_id booking_id old).
      by rewrite Hold.
    + inversion Hpre; subst. rewrite H1. f_equal. by apply IH.
Qed.

End BookingsFacts.

(** ** Counting in the load stage *)

Section LoadCountFacts.
Import ETLPipeline.

Lemma load_rows_counts (rs : list (gmap string cell)) :
  ∀ st,
    let st1 := fold_left load_row rs st in
    session st1 = session st
    ∧ accounted st1 = accounted st + Z.of_nat (length rs)
    ∧ skipped_count st ≤ skipped_count st1
    ∧ error_count st ≤ error_count st1
    ∧ ∃ added,
        pending st1 = pending st ++ added
        ∧ loaded_count st1 = loaded_count st + Z.of_nat (length added).
Proof.
  unfold accounted.
  induction rs as [| row rs IH]; intros st; simpl.
  - repeat split; try lia. exists []. rewrite app_nil_r. split; [reflexivity | simpl; lia].
  - destruct (IH (load_row st row)) as (Hs & Hacc & Hsk & Her & added & Hp & Hl).
    unfold load_row in *.
    destruct (find_existing (session st) row) as [e | [b |]]; simpl in *.
    + repeat split; try lia; try assumption. exists added. auto.
    + repeat split; try lia; try assumption. exists added. auto.
    + repeat split; try lia; try assumption. exists (row :: added).
      rewrite Hp, <- app_assoc. split; [reflexivity |]. simpl length. lia.
Qed.

Lemma load_batch_counts (bs : nat) (R : list (gmap string cell)) (st : load_state)
    (i : nat) :
  pending st = [] →
  let st2 := load_batch bs R st i in
  pending st2 = []
  ∧ hotels (session st2) = hotels (session st)
  ∧ daily_metrics (session st2) = daily_metrics (session st)
  ∧ accounted st2 = accounted st + Z.of_nat (length (take bs (drop i R)))
  ∧ loaded_count st ≤ loaded_count st2
  ∧ skipped_count st ≤ skipped_count st2
  ∧ error_count st ≤ error_count st2
  ∧ ∃ ext,
      bookings (session st2) = bookings (session st) ++ ext
      ∧ Z.of_nat (length ext) ≤ loaded_count st2 - loaded_count st
      ∧ (BatchCommitFailed ∉ output st2 →
         Z.of_nat (length ext) = loaded_count st2 - loaded_count st).
Proof.
  intros Hpend. unfold load_batch.
  destruct (load_rows_counts (take bs (drop i R)) st)
    as (Hs & Hacc & Hsk & Her & added & Hp & Hl).
  set (st1 := fold_left load_row (take bs (drop i R)) st) in *.
  rewrite Hpend in Hp. simpl in Hp.
  unfold commit_batch, accounted in *.
  destruct (flush (bookings (session st1)) (pending st1)) as [e | table] eqn:Hflush;
    simpl.
  - rewrite Hs. repeat split; try lia. exists []. rewrite app_nil_r.
    split; [reflexivity |]. split; [simpl; lia |].
    intros Hnot. exfalso. apply Hnot. apply elem_of_app. right.
    apply list_elem_of_singleton. reflexivity.
  - destruct (flush_inr _ _ _ Hflush) as (new & -> & Hall).
    apply Forall2_length in Hall. rewrite Hp in Hall.
    rewrite Hs. repeat split; try lia. exists new. split; [reflexivity |].
    split; [lia |]. intros _. lia.
Qed.

Lemma load_batches_counts (bs : nat) (R : list (gmap string cell)) (starts : list nat) :
  ∀ st,
    pending st = [] →
    let st' := fold_left (load_batch bs R) starts st in
    hotels (session st') = hotels (session st)
    ∧ daily_metrics (session st') = daily_metrics (session st)
    ∧ accounted st'
      = accounted st
        + Z.of_nat (sum_list (map (λ i, length (take bs (drop i R))) starts))
    ∧ loaded_count st ≤ loaded_count st'
    ∧ skipped_count st ≤ skipped_count st'
    ∧ error_count st ≤ error_count st'
    ∧ (∃ extra, output st' = output st ++ extra)
    ∧ ∃ ext,
        bookings (session st') = bookings (session st) ++ ext
        ∧ Z.of_nat (length ext) ≤ loaded_count st' - loaded_count st
        ∧ (BatchCommitFailed ∉ output st' →
           Z.of_nat (length ext) = loaded_count st' - loaded_count st).
Proof.
  induction starts as [| i starts IH]; intros st Hpend; simpl.
  - repeat split; try lia. { exists []. by rewrite app_nil_r. }
    exists []. rewrite app_nil_r. split; [reflexivity |]. simpl. split; [lia |].
    intros _. lia.
  - destruct (load_batch_counts bs R st i Hpend)
      as (Hp1 & Hh1 & Hm1 & Ha1 & Hl1 & Hs1 & He1 & ext1 & Hb1 & Hn1 & Hx1).
    destruct (load_batch_spec bs R st i Hpend) as (_ & _ & (x1 & Ho1) & _).
    destruct (IH (load_batch bs R st i) Hp1)
      as (Hh2 & Hm2 & Ha2 & Hl2 & Hs2 & He2 & (x2 & Ho2) & ext2 & Hb2 & Hn2 & Hx2).
    split; [congruence |]. split; [congruence |].
    split; [rewrite Ha2, Ha1; lia |].
    split; [lia |]. split; [lia |]. split; [lia |].
    split; [exists (x1 ++ x2); by rewrite Ho2, Ho1, app_assoc |].
    exists (ext1 ++ ext2). rewrite Hb2, Hb1, app_assoc. split; [reflexivity |].
    rewrite length_app. split; [lia |].
    intros Hnot.
    rewrite Nat2Z.inj_add, Hx2 by exact Hnot.
    rewrite Hx1; [lia |].
    intros Hin. apply Hnot. rewrite Ho2. apply elem_of_app. by left.
Qed.

Lemma project_length (df df' : DataFrame) (cols : list string) :
  project df cols = inr df' → length (rows df') = length (rows df).
Proof.
  unfold project. destruct (List.find _ cols); [discriminate |].
  intros [= <-]. simpl. by rewrite length_map.
Qed.

Lemma with_booking_date_length (df : DataFrame) (now : Z) :
  length (rows (if has_column df "booking_date" then df
                else fill_column df "booking_date" (CTime now)))
  = length (rows df).
Proof. destruct (has_column df "booking_date"); simpl; [| rewrite length_map]; reflexivity. Qed.

(** X10. For a positive batch size, whenever load_to_database returns, total
    is the number of rows of the frame and loaded + skipped + errors =
    total, each counter being non-negative: every row is counted once, in
    exactly one of the three counters. *)
Theorem load_accounts_for_every_row (db db' : Session) (df df' : DataFrame)
    (batch_size now : Z) (log : list event) (c : load_counters) :
  0 < batch_size →
  load_to_database db df batch_size now = mkIO log (inr (db', df', c)) →
  total c = Z.of_nat (length (rows df))
  ∧ loaded c + skipped c + load_errors c = total c
  ∧ 0 ≤ loaded c ∧ 0 ≤ skipped c ∧ 0 ≤ load_errors c.
Proof.
  intros Hbs. rewrite (load_to_database_unfold _ _ _ _ Hbs). cbv zeta.
  pose proof (with_booking_date_length df now) as Hlen.
  destruct (project _ BOOKING_COLS) as [e | df_to_load] eqn:Hproj; [discriminate |].
  apply project_length in Hproj.
  destruct (load_batches_counts (Z.to_nat batch_size) (rows df_to_load)
              (batch_starts (length (rows df_to_load)) (Z.to_nat batch_size))
              (mkLoad db [] 0 0 0 []) eq_refl)
    as (_ & _ & Hacc & Hl & Hs & He & _).
  rewrite batch_starts_cover in Hacc by lia.
  unfold accounted in Hacc. simpl in Hacc, Hl, Hs, He.
  intros [= _ _ _ <-]. simpl. repeat split; try lia.
Qed.

Lemma load_accounts_for_every_row_witness :
  ∃ log db' df' c,
    0 < 100
    ∧ load_to_database Samples.empty_store Samples.stored_batch 100 1002
      = mkIO log (inr (db', df', c))
    ∧ total c = 3
    ∧ loaded c + skipped c + load_errors c = 3.
Proof.
  destruct (load_to_database Samples.empty_store Samples.stored_batch 100 1002)
    as [log [e | [[db' df'] c]]] eqn:E.
  - vm_compute in E. discriminate E.
  - destruct (load_accounts_for_every_row _ _ _ _ 100 _ _ _ ltac:(lia) E)
      as (Ht & Hsum & _).
    exists log, db', df', c. split; [lia |]. split; [reflexivity |].
    assert (Hn : total c = 3) by (rewrite Ht; reflexivity).
    split; [exact Hn | lia].
Defined.

(** X11. Whenever load_to_database returns, hotels and daily metrics are as
    they were and the bookings table is the old table followed by new rows:
    no existing booking is changed or removed. The number of new rows is at
    most loaded, and equals loaded when no batch commit failed (rows of a
    rolled-back batch stay counted as loaded). *)
Theorem load_only_appends_bookings (db db' : Session) (df df' : DataFrame)
    (batch_size now : Z) (log : list event) (c : load_counters) :
  load_to_database db df batch_size now = mkIO log (inr (db', df', c)) →
  hotels db' = hotels db
  ∧ daily_metrics db' = daily_metrics db
  ∧ ∃ ext,
      bookings db' = bookings db ++ ext
      ∧ Z.of_nat (length ext) ≤ loaded c
      ∧ (BatchCommitFailed ∉ log → Z.of_nat (length ext) = loaded c).
Proof.
  unfold load_to_database, mbind, IO_bind, say, lift. simpl.
  destruct (project _ BOOKING_COLS) as [e | df_to_load]; simpl; [discriminate |].
  destruct (batch_size =? 0); simpl; [discriminate |].
  destruct (batch_size <? 0); simpl.
  - intros [= <- <- _ <-]. simpl. split; [reflexivity |]. split; [reflexivity |].
    exists []. rewrite app_nil_r. simpl. split; [reflexivity |]. split; [lia |].
    intros _. reflexivity.
  - destruct (load_batches_counts (Z.to_nat batch_size) (rows df_to_load)
                (batch_starts (length (rows df_to_load)) (Z.to_nat batch_size))
                (mkLoad db [] 0 0 0 []) eq_refl)
      as (Hh & Hm & _ & _ & _ & _ & _ & ext & Hb & Hn & Hx).
    simpl in Hh, Hm, Hb, Hn, Hx.
    intros [= <- <- _ <-]. simpl.
    split; [exact Hh |]. split; [exact Hm |]. exists ext.
    split; [exact Hb |]. split; [lia |].
    intros Hnot. rewrite Hx; [lia |].
    intros Hin. apply Hnot. right. apply elem_of_app. by left.
Qed.

Lemma load_only_appends_bookings_witness :
  ∃ log db' df' c ext,
    load_to_database Samples.empty_store Samples.stored_batch 100 1002
    = mkIO log (inr (db', df', c))
    ∧ bookings db' = bookings Samples.empty_store ++ ext
    ∧ Z.of_nat (length ext) ≤ loaded c.
Proof.
  destruct (load_to_database Samples.empty_store Samples.stored_batch 100 1002)
    as [log [e | [[db' df'] c]]] eqn:E.
  - vm_compute in E. discriminate E.
  - destruct (load_only_appends_bookings _ _ _ _ _ _ _ _ E)
      as (_ & _ & ext & Hb & Hn & _).
    exists log, db', df', c, ext. auto.
Defined.

(** X12. When the frame has the booking columns and batch_size is not
    positive, load_to_database loads nothing: with batch_size = 0 range()
    raises ValueError after the first line is printed; with a negative
    batch_size the loop body never runs and the call reports loaded =
    skipped = errors = 0 with total = the number of rows, leaving the
    session untouched. *)
Theorem nonpositive_batch_size_loads_nothing (db : Session) (df : DataFrame)
    (batch_size now : Z) (df_to_load : DataFrame) :
  batch_size ≤ 0 →
  let dff := if has_column df "booking_date" then df
             else fill_column df "booking_date" (CTime now) in
  project dff BOOKING_COLS = inr df_to_load →
  load_to_database db df batch_size now
  = if batch_size =? 0
    then mkIO [LoadingToDatabase] (inl ValueError_range_step)
    else mkIO [LoadingToDatabase; LoadComplete 0 0 0]
           (inr (db, dff, mkCounters 0 0 0 (Z.of_nat (length (rows df))))).
Proof.
  intros Hbs dff Hproj.
  unfold load_to_database, mbind, IO_bind, say, lift. simpl. fold dff.
  rewrite Hproj. simpl.
  destruct (batch_size =? 0) eqn:E0; simpl; [reflexivity |].
  apply Z.eqb_neq in E0.
  destruct (batch_size <? 0) eqn:E1; [| apply Z.ltb_ge in E1; lia].
  simpl. rewrite (project_length _ _ _ Hproj). unfold dff.
  rewrite with_booking_date_length. reflexivity.
Qed.

Lemma nonpositive_batch_size_loads_nothing_witness :
  load_to_database Samples.empty_store Samples.stored_batch (-5) 1002
  = mkIO [LoadingToDatabase; LoadComplete 0 0 0]
      (inr (Samples.empty_store, Samples.stored_batch, mkCounters 0 0 0 3)).
Proof.
  apply (nonpositive_batch_size_loads_nothing Samples.empty_store Samples.stored_batch
           (-5) 1002
           (mkFrame BOOKING_COLS (map (project_row BOOKING_COLS) (rows Samples.stored_batch)))).
  - lia.
  - reflexivity.
Defined.


End LoadCountFacts.

(** ** What the validator guarantees *)

Section ValidatorMoreFacts.

Variable parse_datetime : string → option Z.


Ltac bind_step :=
  match goal with
  | |- context [mbind _ ?c] =>
      let E := fresh "E" in destruct c eqn:E; simpl; [discriminate |]
  end.

Lemma add_label_present (cols : list string) (c : string) :
  c ∈ cols → add_label cols c = cols.
Proof. intros H. unfold add_label. by rewrite bool_decide_eq_true_2. Qed.

Lemma has_column_elem (df : DataFrame) (c : string) :
  has_column df c = true ↔ c ∈ columns df.
Proof. unfold has_column. apply bool_decide_eq_true. Qed.

Lemma traverse_length {A B} (f : A → result B) (l : list A) (ys : list B) :
  traverse f l = inr ys → length ys = length l.
Proof. intros H. apply traverse_inr, Forall2_length in H. lia. Qed.

Lemma traverse_lookup {A B} (f : A → result B) (l : list A) (ys : list B)
    (i : nat) (x : A) :
  traverse f l = inr ys → l !! i = Some x → ∃ y, ys !! i = Some y ∧ f x = inr y.
Proof.
  intros H Hx. apply traverse_inr in H.
  destruct (Forall2_lookup_l _ _ _ _ _ H Hx) as (y & Hy & Hf). eauto.
Qed.

(** What [df[c] = pd.to_datetime(df[c])] leaves. *)
Lemma convert_column_rows (df df' : DataFrame) (c : string) :
  convert_column parse_datetime df c = inr df' →
  columns df' = columns df
  ∧ length (rows df') = length (rows df)
  ∧ ∀ i r, rows df !! i = Some r →
      ∃ v, to_datetime parse_datetime (cell_at c r) = inr v
           ∧ rows df' !! i = Some (<[c := v]> r).
Proof.
  unfold convert_column, column.
  destruct (has_column df c) eqn:Hc; simpl; [| discriminate].
  destruct (traverse _ _) as [e | ts] eqn:Ht; simpl; [discriminate |].
  intros [= <-].
  pose proof (traverse_length _ _ _ Ht) as Hlen. rewrite length_map in Hlen.
  split; [simpl; apply add_label_present; by apply has_column_elem |].
  split; [by apply set_column_length |].
  intros i r Hr.
  destruct (set_column_lookup df c ts i r Hlen Hr) as (v & Hv & Hrow).
  exists v. split; [| exact Hrow].
  destruct (traverse_lookup _ _ _ i (cell_at c r) Ht) as (y & Hy & Hf).
  { by rewrite list_lookup_fmap, Hr. }
  congruence.
Qed.


(** The rows after check 4, whatever its outcome. *)
Lemma check_dates_rows (df df2 : DataFrame) (rep rep2 : DataQualityReport) :
  check_dates parse_datetime df rep = (df2, rep2) →
  columns df2 = columns df
  ∧ length (rows df2) = length (rows df)
  ∧ ∀ i r, rows df !! i = Some r →
      ∃ r', rows df2 !! i = Some r'
            ∧ ∀ c, c ≠ "check_in_date" → c ≠ "check_out_date" →
                cell_at c r' = cell_at c r.
Proof.
  unfold check_dates.
  destruct (convert_column _ df _) as [e | df1] eqn:H1.
  { intros [= <- _]. split; [reflexivity |]. split; [reflexivity |]. eauto. }
  destruct (convert_column_rows _ _ _ H1) as (Hc1 & Hl1 & Hr1).
  destruct (convert_column _ df1 _) as [e | df2'] eqn:H2.
  - intros [= <- _]. split; [exact Hc1 |]. split; [exact Hl1 |].
    intros i r Hr. destruct (Hr1 i r Hr) as (v & _ & Hrow).
    eexists. split; [exact Hrow |]. intros c Hci _. by rewrite cell_at_insert_ne.
  - destruct (convert_column_rows _ _ _ H2) as (Hc2 & Hl2 & Hr2).
    intros [= <- _]. split; [congruence |]. split; [congruence |].
    intros i r Hr. destruct (Hr1 i r Hr) as (v & _ & Hrow).
    destruct (Hr2 i _ Hrow) as (v' & _ & Hrow').
    eexists. split; [exact Hrow' |]. intros c Hci Hco.
    by rewrite !cell_at_insert_ne.
Qed.

(** X14. Whenever validate_dataframe returns, the caller's frame has the
    same column labels and the same number of rows as before, and every cell
    outside check_in_date and check_out_date is unchanged; when the report
    carries no statistics (a required column is missing, or the frame is
    empty) the frame is not touched at all. *)
Theorem validation_only_rewrites_dates (df df' : DataFrame)
    (report : DataQualityReport) :
  validate_dataframe parse_datetime df = inr (df', report) →
  columns df' = columns df
  ∧ length (rows df') = length (rows df)
  ∧ (∀ i r, rows df !! i = Some r →
       ∃ r', rows df' !! i = Some r'
             ∧ ∀ c, c ≠ "check_in_date" → c ≠ "check_out_date" →
                 cell_at c r' = cell_at c r)
  ∧ (stats report = None → df' = df).
Proof.
  unfold validate_dataframe.
  destruct (0 <? length (missing_cols df))%nat.
  { intros [= <- _]. eauto 10. }
  destruct (_ || _).
  { intros [= <- _]. eauto 10. }
  destruct (check_dates _ _ _) as [df2 rep2] eqn:Hcd.
  apply check_dates_rows in Hcd. destruct Hcd as (Hc & Hl & Hr).
  simpl. repeat bind_step.
  intros [= <- <-]. split; [exact Hc |]. split; [exact Hl |]. split; [exact Hr |].
  cbv zeta. match goal with |- context [is_valid ?r] => destruct (is_valid r) end;
    simpl; discriminate.
Qed.









(** X16. A batch with every required column and no row gets a report with
    exactly the error 'DataFrame is empty', the info line counting 0 rows,
    no warning and no statistics; the frame is handed back untouched. *)
Theorem empty_batch_is_rejected (df : DataFrame) :
  missing_cols df = [] → rows df = [] →
  ∃ report,
    validate_dataframe parse_datetime df = inr (df, report)
    ∧ errors report = [DataFrameIsEmpty]
    ∧ warnings report = []
    ∧ info report = [AllRequiredColumnsPresent 0]
    ∧ stats report = None
    ∧ is_valid report = false.
Proof.
  intros Hmiss Hrows. unfold validate_dataframe. rewrite Hmiss, Hrows. simpl.
  eexists. split; [reflexivity |]. simpl. auto 10.
Qed.

End ValidatorMoreFacts.

Lemma validation_only_rewrites_dates_witness :
  ∃ df' report,
    validate_dataframe Samples.iso_parser Samples.batch_with_zero_price = inr (df', report)
    ∧ columns df' = columns Samples.batch_with_zero_price
    ∧ length (rows df') = 4%nat.
Proof.
  destruct (validate_dataframe Samples.iso_parser Samples.batch_with_zero_price)
    as [e | [df' report]] eqn:E.
  - vm_compute in E. discriminate E.
  - destruct (validation_only_rewrites_dates _ _ _ _ E) as (Hc & Hl & _).
    exists df', report. split; [reflexivity |]. split; [exact Hc | exact Hl].
Defined.


Lemma empty_batch_is_rejected_witness :
  ∃ report,
    validate_dataframe Samples.iso_parser header_only = inr (header_only, report)
    ∧ errors report = [DataFrameIsEmpty].
Proof.
  destruct (empty_batch_is_rejected Samples.iso_parser header_only eq_refl eq_refl)
    as (report & Hv & He & _).
  exists report. split; [exact Hv | exact He].
Defined.

(** ** What the cleaner guarantees *)

Lemma elem_of_add_label (cols : list string) (c x : string) :
  x ∈ add_label cols c ↔ x ∈ cols ∨ x = c.
Proof.
  unfold add_label. case_bool_decide as Hc.
  - split; [auto |]. intros [? | ->]; assumption.
  - rewrite elem_of_app, list_elem_of_singleton. tauto.
Qed.

Section CleanerFacts.

Variable parse_datetime : string → option Z.

Lemma drop_later_spec (subset : list string) (rs : list (gmap string cell)) :
  ∀ seen,
    let out := drop_later subset seen rs in
    sublist out rs
    ∧ (∀ r, r ∈ out → existsb (same_on subset r) seen = false)
    ∧ (∀ i j ri rj, (i < j)%nat → out !! i = Some ri → out !! j = Some rj →
         same_on subset rj ri = false)
    ∧ (∀ r, r ∈ rs → existsb (same_on subset r) (seen ++ out) = true).
Proof.
  induction rs as [| r rs IH]; intros seen; simpl.
  - split; [constructor |]. split; [intros r Hr; by apply elem_of_nil in Hr |].
    split; [intros i j ri rj _ Hi; by destruct i |].
    intros r Hr. by apply elem_of_nil in Hr.
  - destruct (existsb (same_on subset r) seen) eqn:Hseen.
    + destruct (IH seen) as (Hsub & Hnew & Hpair & Hcover).
      split; [by apply sublist_cons |]. split; [exact Hnew |]. split; [exact Hpair |].
      intros r0 Hr0. apply elem_of_cons in Hr0. destruct Hr0 as [-> | Hr0]; [| auto].
      by rewrite existsb_app, Hseen.
    + destruct (IH (seen ++ [r])) as (Hsub & Hnew & Hpair & Hcover).
      split; [by apply sublist_skip |]. split; [| split].
      * intros r0 Hr0. apply elem_of_cons in Hr0. destruct Hr0 as [-> | Hr0]; [exact Hseen |].
        specialize (Hnew r0 Hr0). rewrite existsb_app in Hnew.
        by apply orb_false_elim in Hnew as [? _].
      * intros [| i] [| j] ri rj Hij Hi Hj; simpl in *; try lia.
        -- injection Hi as <-.
           assert (Hin : rj ∈ drop_later subset (seen ++ [r]) rs)
             by (apply list_elem_of_lookup; eauto).
           specialize (Hnew rj Hin). rewrite existsb_app in Hnew.
           apply orb_false_elim in Hnew as [_ Hnew]. simpl in Hnew.
           by rewrite orb_false_r in Hnew.
        -- apply (Hpair i j); [lia | assumption | assumption].
      * intros r0 Hr0. apply elem_of_cons in Hr0. destruct Hr0 as [-> | Hr0].
        -- rewrite existsb_app. simpl. by rewrite same_on_refl, orb_true_r.
        -- specialize (Hcover r0 Hr0). by rewrite <- app_assoc in Hcover.
Qed.

(** X17. Whenever clean_dataframe returns, its rows are a sub-sequence
    (order kept) of the standardised rows that starts with the same first
    row, no two of them share a (hotel_id, room_id, check_in_date) key, and
    every standardised row has a row left with its key: duplicates go, keys
    do not. *)
Theorem cleaned_rows_have_distinct_keys (df dfc : DataFrame) (now : Z) :
  clean_dataframe parse_datetime df now = inr dfc →
  ∃ dfs,
    standardize parse_datetime df now = inr dfs
    ∧ columns dfc = columns dfs
    ∧ sublist (rows dfc) (rows dfs)
    ∧ head (rows dfc) = head (rows dfs)
    ∧ (∀ i j ri rj, i ≠ j → rows dfc !! i = Some ri → rows dfc !! j = Some rj →
         same_on KEY_COLUMNS ri rj = false)
    ∧ (∀ r, r ∈ rows dfs → ∃ r', r' ∈ rows dfc ∧ same_on KEY_COLUMNS r r' = true).
Proof.
  unfold clean_dataframe. intros Hclean.
  destruct (standardize parse_datetime df now) as [e | dfs]; simpl in Hclean;
    [discriminate Hclean |].
  injection Hclean as <-. exists dfs. split; [reflexivity |]. split; [reflexivity |].
  unfold drop_duplicates_keep_first. cbn [rows columns].
  destruct (drop_later_spec KEY_COLUMNS (rows dfs) []) as (Hsub & _ & Hpair & Hcover).
  split; [exact Hsub |]. split; [by destruct (rows dfs) |]. split.
  - intros i j ri rj Hij Hi Hj.
    destruct (decide (i < j)%nat) as [Hlt | Hge].
    + rewrite same_on_sym. by apply (Hpair i j).
    + apply (Hpair j i); [lia | assumption | assumption].
  - intros r Hr. specialize (Hcover r Hr). cbn [app] in Hcover.
    apply existsb_exists in Hcover. destruct Hcover as (r' & Hin & Hsame).
    exists r'. split; [by apply list_elem_of_In | exact Hsame].
Qed.

Lemma zip_with_map_self {A B C} (f : A → B → C) (h : A → B) (l : list A) :
  zip_with f l (map h l) = map (λ x, f x (h x)) l.
Proof. induction l as [| x l IH]; simpl; [reflexivity | by rewrite IH]. Qed.

(** Stripping one column leaves the labels, and leaves a column alone
    whose cells all hold one value that stripping does not change. *)
Lemma strip_column_spec (df df' : DataFrame) (c : string) :
  strip_column df c = inr df' →
  columns df' = columns df
  ∧ ∀ k v, (∀ s, v = CStr s → strip s = s) →
      (∀ r, r ∈ rows df → cell_at k r = v) →
      ∀ r, r ∈ rows df' → cell_at k r = v.
Proof.
  unfold strip_column, column.
  destruct (has_column df c) eqn:Hc; simpl; [| discriminate].
  destruct (existsb is_text _) eqn:Htext.
  - intros [= <-]. split; [simpl; apply add_label_present; by apply has_column_elem |].
    intros k v Hv Hall r'. simpl. rewrite zip_with_fmap_r, zip_with_map_self.
    intros Hr'. apply list_elem_of_fmap in Hr'. destruct Hr' as (r & -> & Hr).
    destruct (decide (k = c)) as [-> | Hk].
    + rewrite cell_at_insert, (Hall r Hr).
      destruct (is_text v) eqn:Hv_text.
      * destruct v as [| | | s | |]; try discriminate. by rewrite (Hv s eq_refl).
      * exfalso. apply existsb_exists in Htext. destruct Htext as (x & Hx & Htx).
        apply List.in_map_iff in Hx. destruct Hx as (r0 & <- & Hr0).
        apply list_elem_of_In in Hr0. rewrite (Hall r0 Hr0) in Htx. congruence.
    + rewrite cell_at_insert_ne by congruence. auto.
  - destruct (existsb is_date_object _); [discriminate |].
    intros [= <-]. split; [reflexivity |]. auto.
Qed.

Lemma strip_columns_spec (cols : list string) :
  ∀ df df',
    strip_columns df cols = inr df' →
    columns df' = columns df
    ∧ ∀ k v, (∀ s, v = CStr s → strip s = s) →
        (∀ r, r ∈ rows df → cell_at k r = v) →
        ∀ r, r ∈ rows df' → cell_at k r = v.
Proof.
  induction cols as [| c cols IH]; intros df df'; simpl.
  - intros [= <-]. auto.
  - destruct (strip_column df c) as [e | df1] eqn:H1; simpl; [discriminate |].
    intros H. apply IH in H. destruct H as [Hc Hk].
    apply strip_column_spec in H1. destruct H1 as [Hc1 Hk1].
    split; [congruence |]. intros k v Hv Hall. apply (Hk k v Hv). by apply Hk1.
Qed.

(** [if c not in df.columns: df[c] = v] *)
Lemma default_column_spec (df : DataFrame) (c : string) (v : cell) :
  let df' := if has_column df c then df else fill_column df c v in
  (∀ x, x ∈ columns df' ↔ x ∈ columns df ∨ x = c)
  ∧ (has_column df c = false → ∀ r, r ∈ rows df' → cell_at c r = v)
  ∧ (∀ k w, k ≠ c → (∀ r, r ∈ rows df → cell_at k r = w) →
       ∀ r, r ∈ rows df' → cell_at k r = w).
Proof.
  destruct (has_column df c) eqn:Hc; simpl.
  - split; [| split; [discriminate | auto]].
    intros x. split; [auto |]. intros [? | ->]; [assumption | by apply has_column_elem].
  - split; [apply elem_of_add_label |]. split.
    + intros _ r Hr. apply list_elem_of_fmap in Hr. destruct Hr as (r0 & -> & _).
      apply cell_at_insert.
    + intros k w Hk Hall r Hr. apply list_elem_of_fmap in Hr.
      destruct Hr as (r0 & -> & Hr0). rewrite cell_at_insert_ne by congruence. auto.
Qed.

Lemma standardize_spec (df dfs : DataFrame) (now : Z) :
  standardize parse_datetime df now = inr dfs →
  (∀ c, c ∈ columns dfs ↔ c ∈ columns df ∨ c ∈ DEFAULTED_COLUMNS)
  ∧ (has_column df "booking_source" = false →
     ∀ r, r ∈ rows dfs → cell_at "booking_source" r = CStr "direct")
  ∧ (has_column df "status" = false →
     ∀ r, r ∈ rows dfs → cell_at "status" r = CStr "confirmed")
  ∧ (has_column df "booking_date" = false →
     ∀ r, r ∈ rows dfs → cell_at "booking_date" r = CTime now).
Proof.
  unfold standardize. intros H.
  destruct (convert_column parse_datetime df "check_in_date") as [e | df1] eqn:H1;
    simpl in H; [discriminate H |].
  destruct (convert_column parse_datetime df1 "check_out_date") as [e | df2] eqn:H2;
    simpl in H; [discriminate H |].
  apply convert_column_rows in H1, H2.
  destruct H1 as (Hc1 & _). destruct H2 as (Hc2 & _).
  assert (Hcols : columns df2 = columns df) by congruence.
  assert (Hhas : ∀ c, has_column df2 c = has_column df c)
    by (intros c; unfold has_column; by rewrite Hcols).
  destruct (default_column_spec df2 "booking_source" (CStr "direct")) as (Ha1 & Ha2 & _).
  set (dfa := if has_column df2 "booking_source" then df2
              else fill_column df2 "booking_source" (CStr "direct")) in *.
  destruct (default_column_spec dfa "status" (CStr "confirmed")) as (Hb1 & Hb2 & Hb3).
  set (dfb := if has_column dfa "status" then dfa
              else fill_column dfa "status" (CStr "confirmed")) in *.
  destruct (default_column_spec dfb "booking_date" (CTime now)) as (Hd1 & Hd2 & Hd3).
  set (dfd := if has_column dfb "booking_date" then dfb
              else fill_column dfb "booking_date" (CTime now)) in *.
  apply strip_columns_spec in H. destruct H as [Hcs Hkeep].
  assert (Hmem : ∀ c, c ∈ columns dfd ↔ c ∈ columns df ∨ c ∈ DEFAULTED_COLUMNS).
  { intros c. rewrite Hd1, Hb1, Ha1, Hcols. unfold DEFAULTED_COLUMNS.
    rewrite !elem_of_cons, elem_of_nil. tauto. }
  assert (Hno : ∀ (d : DataFrame) c, has_column d c = false ↔ c ∉ columns d).
  { intros d c. unfold has_column. apply bool_decide_eq_false. }
  split; [intros c; rewrite Hcs; apply Hmem |]. split; [| split].
  - intros Habs. apply Hkeep; [intros s [= <-]; reflexivity |].
    apply Hd3; [discriminate |]. apply Hb3; [discriminate |]. apply Ha2.
    by rewrite Hhas.
  - intros Habs. apply Hkeep; [intros s [= <-]; reflexivity |].
    apply Hd3; [discriminate |]. apply Hb2.
    apply Hno. rewrite Ha1, Hcols. apply Hno in Habs. intros [? | ?]; [done | discriminate].
  - intros Habs. apply Hkeep; [discriminate |]. apply Hd2.
    apply Hno. rewrite Hb1, Ha1, Hcols. apply Hno in Habs.
    intros [[? | ?] | ?]; [done | discriminate | discriminate].
Qed.

(** X18. Whenever clean_dataframe returns, its columns are those of the
    input plus booking_source, status and booking_date; a column among these
    three that the input lacked holds its default in every row ('direct',
    'confirmed', the clock reading), also after the whitespace stripping. *)
Theorem clean_fills_defaults (df dfc : DataFrame) (now : Z) :
  clean_dataframe parse_datetime df now = inr dfc →
  (∀ c, c ∈ columns dfc ↔ c ∈ columns df ∨ c ∈ DEFAULTED_COLUMNS)
  ∧ (has_column df "booking_source" = false →
     ∀ r, r ∈ rows dfc → cell_at "booking_source" r = CStr "direct")
  ∧ (has_column df "status" = false →
     ∀ r, r ∈ rows dfc → cell_at "status" r = CStr "confirmed")
  ∧ (has_column df "booking_date" = false →
     ∀ r, r ∈ rows dfc → cell_at "booking_date" r = CTime now).
Proof.
  unfold clean_dataframe. intros Hclean.
  destruct (standardize parse_datetime df now) as [e | dfs] eqn:Hstd; simpl in Hclean;
    [discriminate Hclean |].
  injection Hclean as <-. unfold drop_duplicates_keep_first. cbn [rows columns].
  destruct (standardize_spec _ _ _ Hstd) as (Hc & Hs & Ht & Hd).
  destruct (drop_later_spec KEY_COLUMNS (rows dfs) []) as (Hsub & _).
  assert (Hin : ∀ r, r ∈ drop_later KEY_COLUMNS [] (rows dfs) → r ∈ rows dfs)
    by (intros r Hr; exact (elem_of_sublist _ _ _ Hr Hsub)).
  split; [exact Hc |]. split; [| split]; intros Habs r Hr; auto.
Qed.

End CleanerFacts.

Lemma cleaned_rows_have_distinct_keys_witness :
  ∃ dfc dfs,
    clean_dataframe Samples.iso_parser Samples.batch_with_duplicate 1001 = inr dfc
    ∧ standardize Samples.iso_parser Samples.batch_with_duplicate 1001 = inr dfs
    ∧ length (rows dfs) = 3%nat
    ∧ length (rows dfc) = 2%nat
    ∧ sublist (rows dfc) (rows dfs).
Proof.
  destruct (clean_dataframe Samples.iso_parser Samples.batch_with_duplicate 1001)
    as [e | dfc] eqn:E.
  - vm_compute in E. discriminate E.
  - destruct (cleaned_rows_have_distinct_keys _ _ _ _ E) as (dfs & Hs & _ & Hsub & _).
    exists dfc, dfs. split; [reflexivity |]. split; [exact Hs |].
    split; [vm_compute in Hs; injection Hs as <-; reflexivity |].
    split; [vm_compute in E; injection E as <-; reflexivity | exact Hsub].
Defined.

Lemma clean_fills_defaults_witness :
  ∃ dfc,
    clean_dataframe Samples.iso_parser Samples.batch_with_duplicate 1001 = inr dfc
    ∧ has_column Samples.batch_with_duplicate "status" = false
    ∧ ∀ r, r ∈ rows dfc → cell_at "status" r = CStr "confirmed".
Proof.
  destruct (clean_dataframe Samples.iso_parser Samples.batch_with_duplicate 1001)
    as [e | dfc] eqn:E.
  - vm_compute in E. discriminate E.
  - destruct (clean_fills_defaults _ _ _ _ E) as (_ & _ & Hst & _).
    exists dfc. split; [reflexivity |]. split; [reflexivity |]. apply Hst. reflexivity.
Defined.

(** ** What the feature engineer guarantees *)

Section FeatureMoreFacts.
Import FeatureEngineer.

Lemma elem_of_set_column (df : DataFrame) (c : string) (vals : list cell)
    (r' : gmap string cell) :
  r' ∈ rows (set_column df c vals) →
  ∃ r v, r ∈ rows df ∧ v ∈ vals ∧ r' = <[c := v]> r.
Proof.
  simpl. generalize (rows df). intros l. revert vals.
  induction l as [| r l IH]; intros [| v vals] H; simpl in H;
    try (by apply elem_of_nil in H).
  apply elem_of_cons in H. destruct H as [-> | H].
  - exists r, v. split; [left |]. split; [left | reflexivity].
  - destruct (IH vals H) as (r0 & v0 & Hr0 & Hv0 & ->).
    exists r0, v0. split; [by right |]. split; [by right | reflexivity].
Qed.

Lemma set_column_same (P : cell → Prop) (df : DataFrame) (c : string)
    (vals : list cell) :
  (∀ v, v ∈ vals → P v) →
  ∀ r, r ∈ rows (set_column df c vals) → P (cell_at c r).
Proof.
  intros Hall r Hr. apply elem_of_set_column in Hr.
  destruct Hr as (r0 & v & _ & Hv & ->). rewrite cell_at_insert. auto.
Qed.

Lemma set_column_other (P : cell → Prop) (df : DataFrame) (c k : string)
    (vals : list cell) :
  c ≠ k →
  (∀ r, r ∈ rows df → P (cell_at k r)) →
  ∀ r, r ∈ rows (set_column df c vals) → P (cell_at k r).
Proof.
  intros Hck Hall r Hr. apply elem_of_set_column in Hr.
  destruct Hr as (r0 & v & Hr0 & _ & ->). rewrite cell_at_insert_ne by exact Hck. auto.
Qed.






Lemma clip_at_least_zero (x : fval) :
  missing_or_at_least_zero (of_float (clip_lower_0 x)).
Proof.
  unfold missing_or_at_least_zero, clip_lower_0.
  destruct x as [q | | |]; simpl.
  - unfold Qlt_bool. destruct (Qle_bool 0 q) eqn:E; simpl.
    + right. eexists. split; [reflexivity |]. exact E.
    + right. eexists. split; [reflexivity |]. reflexivity.
  - right. eexists. split; reflexivity.
  - right. eexists. split; reflexivity.
  - by left.
Qed.

(** X20. Whenever create_pricing_features returns, every row's discount_pct
    is missing or at least 0 (clip(lower=0)): a booking priced above its
    base price shows a discount of 0, never a negative one. *)
Theorem discount_is_never_negative (df df' : DataFrame) :
  create_pricing_features df = inr df' →
  ∀ r, r ∈ rows df' → missing_or_at_least_zero (cell_at "discount_pct" r).
Proof.
  unfold create_pricing_features, mbind, result_bind.
  destruct (column df "booking_price") as [e | ?]; [discriminate |].
  destruct (column df "length_of_stay") as [e | ?]; [discriminate |].
  destruct (traverse2 (arith f_div) _ _) as [e | ppn]; [discriminate |].
  cbv beta iota zeta.
  destruct (column _ "base_price") as [e | ?]; [discriminate |].
  destruct (column _ "booking_price") as [e | ?]; [discriminate |].
  destruct (traverse2 (arith f_sub) _ _) as [e | diff]; [discriminate |].
  destruct (traverse2 _ diff _) as [e | ratio]; [discriminate |].
  destruct (column _ "price_per_night") as [e | ?]; [discriminate |].
  destruct (cut _ _ _) as [e | cat]; [discriminate |].
  intros [= <-]. apply set_column_other; [discriminate |].
  apply set_column_same. intros v Hv.
  apply list_elem_of_fmap in Hv. destruct Hv as (x & -> & Hx).
  apply list_elem_of_fmap in Hx. destruct Hx as (y & -> & _).
  apply clip_at_least_zero.
Qed.

Lemma Qle_bool_inject (a b : Z) : Qle_bool (inject_Z a) (inject_Z b) = (a <=? b).
Proof. unfold Qle_bool, inject_Z. simpl. by rewrite !Z.mul_1_r. Qed.

Lemma cut_stay (n : Z) :
  cut_value [Fz 0; Fz 1; Fz 3; Fz 7; Fz 30] ["short"; "medium"; "long"; "extended"]
    (Fz n)
  = stay_bucket n.
Proof.
  unfold cut_value, stay_bucket, Fz, f_lt, f_le, Qlt_bool.
  rewrite !Qle_bool_inject.
  repeat match goal with
         | |- context [?a <=? ?b] => destruct (Z.leb_spec a b)
         end; simpl; try reflexivity; lia.
Qed.

Lemma set_column_keeps (df : DataFrame) (c : string) (vals : list cell) (i : nat)
    (r : gmap string cell) :
  length vals = length (rows df) → rows df !! i = Some r →
  ∃ r' v,
    vals !! i = Some v
    ∧ rows (set_column df c vals) !! i = Some r'
    ∧ cell_at c r' = v
    ∧ ∀ k, k ≠ c → cell_at k r' = cell_at k r.
Proof.
  intros Hlen Hr. destruct (set_column_lookup df c vals i r Hlen Hr) as (v & Hv & Hrow).
  exists (<[c := v]> r), v. split; [exact Hv |]. split; [exact Hrow |].
  split; [apply cell_at_insert |]. intros k Hk. apply cell_at_insert_ne. congruence.
Qed.

(** X21. Whenever create_stay_features returns, the frame keeps its number
    of rows; a row whose two dates are timestamps gets length_of_stay = the
    whole days between them (floor) and stay_category = 'short' for 1 night,
    'medium' for 2-3, 'long' for 4-7, 'extended' for 8-30 and missing for a
    stay of 0 or fewer, or more than 30, nights; a row with another kind of
    date gets both missing. *)
Theorem stay_category_follows_length (df df' : DataFrame) :
  create_stay_features df = inr df' →
  length (rows df') = length (rows df)
  ∧ ∀ i r, rows df !! i = Some r →
      ∃ r',
        rows df' !! i = Some r'
        ∧ match cell_at "check_out_date" r, cell_at "check_in_date" r with
          | CTime tout, CTime tin =>
              cell_at "length_of_stay" r' = CInt ((tout - tin) / ticks_per_day)
              ∧ cell_at "stay_category" r' = stay_bucket ((tout - tin) / ticks_per_day)
          | _, _ =>
              cell_at "length_of_stay" r' = CNull
              ∧ cell_at "stay_category" r' = CNull
          end.
Proof.
  unfold create_stay_features, mbind, result_bind.
  destruct (column df "check_out_date") as [e | co] eqn:Hco; [discriminate |].
  destruct (column df "check_in_date") as [e | ci] eqn:Hci; [discriminate |].
  destruct (traverse2 days_between co ci) as [e | los] eqn:Hlos; [discriminate |].
  cbv beta iota zeta.
  destruct (cut _ _ los) as [e | cat] eqn:Hcat; [discriminate |].
  apply column_inr in Hco, Hci.
  assert (Hlen : length co = length ci) by (subst; by rewrite !length_map).
  destruct (traverse2_inr _ _ _ _ Hlen Hlos) as [Hllos Hat].
  assert (Hl1 : length los = length (rows df))
    by (rewrite Hllos, Hco, length_map; reflexivity).
  pose proof (cut_length _ _ _ _ Hcat) as Hlcat.
  set (df1 := set_column df "length_of_stay" los) in *.
  assert (Hr1 : length (rows df1) = length (rows df)) by (by apply set_column_length).
  assert (Hl2 : length cat = length (rows df1)) by congruence.
  set (df2 := set_column df1 "stay_category" cat) in *.
  assert (Hr2 : length (rows df2) = length (rows df))
    by (unfold df2; rewrite set_column_length; congruence).
  assert (Hmain : ∀ i r, rows df !! i = Some r →
            ∃ r2, rows df2 !! i = Some r2
              ∧ match cell_at "check_out_date" r, cell_at "check_in_date" r with
                | CTime tout, CTime tin =>
                    cell_at "length_of_stay" r2 = CInt ((tout - tin) / ticks_per_day)
                    ∧ cell_at "stay_category" r2
                      = stay_bucket ((tout - tin) / ticks_per_day)
                | _, _ =>
                    cell_at "length_of_stay" r2 = CNull
                    ∧ cell_at "stay_category" r2 = CNull
                end).
  { intros i r Hr.
    destruct (set_column_keeps df "length_of_stay" los i r Hl1 Hr)
      as (r1 & l & Hl & Hrow1 & Hc1 & Hk1).
    fold df1 in Hrow1.
    destruct (set_column_keeps df1 "stay_category" cat i r1 Hl2 Hrow1)
      as (r2 & c & Hc & Hrow2 & Hc2 & Hk2).
    fold df2 in Hrow2.
    exists r2. split; [exact Hrow2 |].
    rewrite Hk2, Hc1, Hc2 by discriminate.
    destruct (Hat i (cell_at "check_out_date" r) (cell_at "check_in_date" r))
      as (l' & Hl' & Hdays).
    { subst co. by rewrite list_lookup_fmap, Hr. }
    { subst ci. by rewrite list_lookup_fmap, Hr. }
    assert (l' = l) by congruence. subst l'.
    unfold cut in Hcat.
    destruct (traverse_lookup _ _ _ i l Hcat Hl) as (c' & Hc' & Hcut).
    assert (c' = c) by congruence. subst c'.
    destruct (cell_at "check_out_date" r) as [| | | | | tout],
      (cell_at "check_in_date" r) as [| | | | | tin];
      simpl in Hdays; try discriminate; injection Hdays as <-;
      simpl in Hcut; injection Hcut as <-; split; try reflexivity.
    apply (cut_stay ((tout - tin) / ticks_per_day)). }
  destruct (has_column df2 "booking_date").
  - destruct (column df2 "check_in_date") as [e | ci2] eqn:Hci2; [discriminate |].
    destruct (column df2 "booking_date") as [e | bd] eqn:Hbd; [discriminate |].
    destruct (traverse2 days_between ci2 bd) as [e | lead] eqn:Hlead; [discriminate |].
    cbv beta iota zeta.
    destruct (traverse (le_flag 3) lead) as [e | flags] eqn:Hflags; [discriminate |].
    intros [= <-].
    apply column_inr in Hci2, Hbd.
    assert (Hlen2 : length ci2 = length bd) by (subst; by rewrite !length_map).
    destruct (traverse2_inr _ _ _ _ Hlen2 Hlead) as [Hllead _].
    assert (Hl3 : length lead = length (rows df2))
      by (rewrite Hllead, Hci2, length_map; reflexivity).
    pose proof (traverse_length _ _ _ Hflags) as Hlf.
    set (df3 := set_column df2 "lead_time_days" lead) in *.
    assert (Hr3 : length (rows df3) = length (rows df2)) by (by apply set_column_length).
    assert (Hl4 : length flags = length (rows df3)) by congruence.
    split; [rewrite set_column_length; congruence |].
    intros i r Hr. destruct (Hmain i r Hr) as (r2 & Hrow2 & Hcells).
    destruct (set_column_keeps df2 "lead_time_days" lead i r2 Hl3 Hrow2)
      as (r3 & ? & _ & Hrow3 & _ & Hk3).
    fold df3 in Hrow3.
    destruct (set_column_keeps df3 "is_last_minute" flags i r3 Hl4 Hrow3)
      as (r4 & ? & _ & Hrow4 & _ & Hk4).
    exists r4. split; [exact Hrow4 |].
    rewrite !Hk4, !Hk3 by discriminate. exact Hcells.
  - intros [= <-]. split; [exact Hr2 | exact Hmain].
Qed.

End FeatureMoreFacts.

Lemma discount_is_never_negative_witness :
  ∃ df',
    FeatureEngineer.create_pricing_features Samples.far_apart_batch = inr df'
    ∧ ∀ r, r ∈ rows df' → missing_or_at_least_zero (cell_at "discount_pct" r).
Proof.
  destruct (FeatureEngineer.create_pricing_features Samples.far_apart_batch)
    as [e | df'] eqn:E.
  - vm_compute in E. discriminate E.
  - exists df'. split; [reflexivity |]. intros r Hr.
    apply (discount_is_never_negative _ _ E r Hr).
Defined.

Lemma stay_category_follows_length_witness :
  ∃ df' r',
    FeatureEngineer.create_stay_features Samples.far_apart_batch = inr df'
    ∧ rows df' !! 0%nat = Some r'
    ∧ cell_at "stay_category" r' = CStr "medium".
Proof.
  destruct (FeatureEngineer.create_stay_features Samples.far_apart_batch)
    as [e | df'] eqn:E.
  - vm_compute in E. discriminate E.
  - destruct (stay_category_follows_length _ _ E) as [_ H].
    destruct (H 0%nat (Samples.stay_row 1 5 19732 2 100) eq_refl) as (r' & Hr' & Hc).
    exists df', r'. split; [reflexivity |]. split; [exact Hr' |].
    apply (proj2 Hc).
Defined.


(** ** The columns of the engineered frame *)

Section ColumnFacts.
Import FeatureEngineer.

Ltac run_binds :=
  repeat match goal with
         | |- context [match ?c with inl _ => _ | inr _ => _ end] =>
             destruct c; [discriminate |]; cbv beta iota zeta
         end.

Ltac same_columns :=
  unfold add_labels, TIME_FEATURES, STAY_FEATURES, PRICING_FEATURES,
    AGGREGATED_FEATURES, OCCUPANCY_FEATURES;
  cbn [fold_left columns set_column app]; reflexivity.

Lemma elem_of_add_labels (names : list string) :
  ∀ cols x, x ∈ add_labels cols names ↔ x ∈ cols ∨ x ∈ names.
Proof.
  unfold add_labels. induction names as [| n names IH]; intros cols x; simpl.
  - rewrite elem_of_nil. tauto.
  - rewrite IH, elem_of_add_label, elem_of_cons. tauto.
Qed.

Lemma add_labels_app (cols a b : list string) :
  add_labels (add_labels cols a) b = add_labels cols (a ++ b).
Proof. unfold add_labels. by rewrite fold_left_app. Qed.

Lemma time_columns (df df' : DataFrame) :
  create_time_features df = inr df' →
  columns df' = add_labels (columns df) TIME_FEATURES.
Proof.
  unfold create_time_features, mbind, result_bind. run_binds.
  intros [= <-]. same_columns.
Qed.

Lemma stay_columns (df df' : DataFrame) :
  create_stay_features df = inr df' →
  columns df' = add_labels (columns df) (STAY_FEATURES (has_column df "booking_date")).
Proof.
  unfold create_stay_features, mbind, result_bind.
  destruct (column df "check_out_date"); [discriminate |].
  destruct (column df "check_in_date"); [discriminate |].
  destruct (traverse2 days_between _ _) as [| los]; [discriminate |].
  cbv beta iota zeta.
  destruct (cut _ _ los) as [| cat]; [discriminate |].
  assert (Hsame : has_column (set_column (set_column df "length_of_stay" los)
                                "stay_category" cat) "booking_date"
                  = has_column df "booking_date").
  { unfold has_column. apply bool_decide_ext. cbn [columns set_column].
    rewrite !elem_of_add_label. split; [| tauto].
    intros [[? | ?] | ?]; [assumption | discriminate | discriminate]. }
  rewrite Hsame. destruct (has_column df "booking_date").
  - run_binds. intros [= <-]. same_columns.
  - intros [= <-]. same_columns.
Qed.

Lemma pricing_columns (df df' : DataFrame) :
  create_pricing_features df = inr df' →
  columns df' = add_labels (columns df) PRICING_FEATURES.
Proof.
  unfold create_pricing_features, mbind, result_bind. run_binds.
  intros [= <-]. same_columns.
Qed.

Lemma sort_values_columns (df df' : DataFrame) (c : string) :
  sort_values df c = inr df' → columns df' = columns df.
Proof.
  unfold sort_values, mbind, result_bind.
  destruct (column df c); [discriminate |].
  destruct (sortable _); [| discriminate]. by intros [= <-].
Qed.

Lemma aggregated_columns (df df' : DataFrame) :
  create_aggregated_features df = inr df' →
  columns df' = add_labels (columns df) AGGREGATED_FEATURES.
Proof.
  unfold create_aggregated_features, mbind, result_bind.
  destruct (sort_values df "check_in_date") as [| df0] eqn:Hsort; [discriminate |].
  apply sort_values_columns in Hsort. cbv beta iota zeta. run_binds.
  intros [= <-]. rewrite <- Hsort. same_columns.
Qed.

Lemma occupancy_columns (df df' : DataFrame) (db : Session) :
  create_occupancy_features df db = inr df' →
  columns df' = add_labels (columns df) OCCUPANCY_FEATURES.
Proof.
  unfold create_occupancy_features, mbind, result_bind. run_binds.
  intros [= <-]. same_columns.
Qed.

Lemma outcome_bind {A B} (c : IO A) (k : A → IO B) :
  outcome (c ≫= k) = match outcome c with inl e => inl e | inr a => outcome (k a) end.
Proof. unfold mbind, IO_bind. by destruct (outcome c). Qed.

Lemma has_column_add_labels (df df' : DataFrame) (names : list string) (x : string) :
  columns df' = add_labels (columns df) names → x ∉ names →
  has_column df' x = has_column df x.
Proof.
  intros Hc Hx. unfold has_column. apply bool_decide_ext.
  rewrite Hc, elem_of_add_labels. tauto.
Qed.

Lemma all_features_columns (df df' : DataFrame) (db : option Session) :
  outcome (create_all_features df db) = inr df' →
  columns df'
  = add_labels (columns df)
      (ENGINEERED_FEATURES (has_column df "booking_date")
         (match db with Some _ => true | None => false end)).
Proof.
  unfold create_all_features. rewrite !outcome_bind. cbn [outcome say lift].
  destruct (create_time_features df) as [| df1] eqn:H1; [discriminate |].
  rewrite !outcome_bind. cbn [outcome say lift].
  destruct (create_stay_features df1) as [| df2] eqn:H2; [discriminate |].
  rewrite !outcome_bind. cbn [outcome say lift].
  destruct (create_pricing_features df2) as [| df3] eqn:H3; [discriminate |].
  rewrite !outcome_bind. cbn [outcome say lift].
  destruct (create_aggregated_features df3) as [| df4] eqn:H4; [discriminate |].
  apply time_columns in H1. apply stay_columns in H2.
  apply pricing_columns in H3. apply aggregated_columns in H4.
  rewrite (has_column_add_labels df df1 TIME_FEATURES) in H2
    by (first [exact H1 | apply (bool_decide_unpack _); vm_compute; exact I]).
  unfold ENGINEERED_FEATURES.
  destruct db as [s |].
  - rewrite !outcome_bind. cbn [outcome say lift].
    destruct (create_occupancy_features df4 s) as [| df5] eqn:H5; [discriminate |].
    apply occupancy_columns in H5.
    rewrite !outcome_bind. cbn [outcome say lift mret IO_ret].
    intros [= <-]. rewrite H5, H4, H3, H2, H1, !add_labels_app. reflexivity.
  - rewrite !outcome_bind. cbn [outcome say lift mret IO_ret].
    intros [= <-]. rewrite H4, H3, H2, H1, !add_labels_app, app_nil_r. reflexivity.
Qed.


Lemma all_features_outcome (df : DataFrame) (db : option Session) :
  outcome (create_all_features df db)
  = (d ← create_time_features df ;
     d ← create_stay_features d ;
     d ← create_pricing_features d ;
     d ← create_aggregated_features d ;
     match db with Some s => create_occupancy_features d s | None => ret d end).
Proof.
  unfold create_all_features. rewrite !outcome_bind. cbn [outcome say lift].
  destruct (create_time_features df) as [| d1]; [reflexivity |].
  rewrite !outcome_bind. cbn [outcome say lift mbind result_bind].
  destruct (create_stay_features d1) as [| d2]; [reflexivity |].
  rewrite !outcome_bind. cbn [outcome say lift mbind result_bind].
  destruct (create_pricing_features d2) as [| d3]; [reflexivity |].
  rewrite !outcome_bind. cbn [outcome say lift mbind result_bind].
  destruct (create_aggregated_features d3) as [| d4]; [reflexivity |].
  rewrite !outcome_bind. cbn [outcome say lift mbind result_bind].
  destruct db as [s |].
  - rewrite ?outcome_bind. cbn [outcome say lift].
    destruct (create_occupancy_features d4 s); reflexivity.
  - reflexivity.
Qed.

End ColumnFacts.


(** ** A valid batch on its way to the load *)

Section PipelineMoreFacts.
Import FeatureEngineer ETLPipeline.

Variable parse_datetime : string → option Z.

Lemma transform_outcome (db : Session) (df : DataFrame) (now : Z) :
  outcome (transform parse_datetime db df now)
  = ('(df_v, report) ← validate_dataframe parse_datetime df ;
     if negb (is_valid report) then ret (df_v, report)
     else
       df_clean ← clean_dataframe parse_datetime df_v now ;
       df_t ← outcome (create_all_features df_clean (Some db)) ;
       ret (df_t, report)).
Proof.
  unfold transform. rewrite !outcome_bind. cbn [outcome say lift].
  destruct (validate_dataframe parse_datetime df) as [| [df_v report]]; [reflexivity |].
  cbn [mbind result_bind]. destruct (negb (is_valid report)).
  - rewrite !outcome_bind. reflexivity.
  - rewrite !outcome_bind. cbn [outcome say lift].
    destruct (clean_dataframe parse_datetime df_v now) as [| df_c]; [reflexivity |].
    rewrite !outcome_bind. cbn [outcome say lift mbind result_bind].
    destruct (outcome (create_all_features df_c (Some db))); [reflexivity |].
    rewrite !outcome_bind. reflexivity.
Qed.

Lemma validate_columns (df df' : DataFrame) (report : DataQualityReport) :
  validate_dataframe parse_datetime df = inr (df', report) →
  columns df' = columns df.
Proof.
  unfold validate_dataframe.
  destruct (0 <? length (missing_cols df))%nat; [by intros [= <- _] |].
  destruct (_ || _); [by intros [= <- _] |].
  destruct (check_dates _ _ _) as [df2 rep2] eqn:Hcd.
  apply check_dates_rows in Hcd. destruct Hcd as (Hc & _).
  unfold mbind, result_bind.
  repeat match goal with
         | |- context [match ?c with inl _ => _ | inr _ => _ end] =>
             destruct c; [discriminate |]; cbv beta iota zeta
         end.
  by intros [= <- _].
Qed.

Lemma valid_has_required (df df' : DataFrame) (report : DataQualityReport) :
  validate_dataframe parse_datetime df = inr (df', report) →
  is_valid report = true →
  ∀ c, c ∈ REQUIRED_COLUMNS → has_column df c = true.
Proof.
  unfold validate_dataframe.
  destruct (missing_cols df) as [| m ms] eqn:Hmiss; cbn [length Nat.ltb Nat.leb];
    [| intros [= _ <-]; discriminate].
  intros _ _ c Hc. destruct (has_column df c) eqn:Hhas; [reflexivity |].
  assert (Hin : c ∈ missing_cols df).
  { unfold missing_cols. apply list_elem_of_In, filter_In.
    split; [by apply list_elem_of_In | by rewrite Hhas]. }
  rewrite Hmiss in Hin. by apply elem_of_nil in Hin.
Qed.

(** The columns a valid batch has when it reaches the load. *)
Lemma transformed_columns (db : Session) (df df_t : DataFrame)
    (report : DataQualityReport) (now : Z) :
  outcome (transform parse_datetime db df now) = inr (df_t, report) →
  is_valid report = true →
  ∀ c, c ∈ columns df_t
       ↔ c ∈ columns df ∨ c ∈ DEFAULTED_COLUMNS ∨ c ∈ ENGINEERED_FEATURES true true.
Proof.
  rewrite transform_outcome.
  destruct (validate_dataframe parse_datetime df) as [| [df_v rep]] eqn:Hv;
    [discriminate |].
  cbn [mbind result_bind]. destruct (is_valid rep) eqn:Hrep; cbn [negb].
  2: { intros [= _ <-] H. congruence. }
  destruct (clean_dataframe parse_datetime df_v now) as [| df_c] eqn:Hc; [discriminate |].
  cbn [mbind result_bind].
  destruct (outcome (create_all_features df_c (Some db))) as [| df_f] eqn:Hf;
    [discriminate |].
  intros [= <- <-] _ c.
  apply validate_columns in Hv.
  unfold clean_dataframe in Hc.
  destruct (standardize parse_datetime df_v now) as [| df_s] eqn:Hs; [discriminate |].
  injection Hc as <-.
  destruct (standardize_spec parse_datetime _ _ _ Hs) as (Hcols & _).
  apply all_features_columns in Hf.
  assert (Hbd : has_column (drop_duplicates_keep_first KEY_COLUMNS df_s) "booking_date"
                = true).
  { apply has_column_elem. apply Hcols. right. apply (bool_decide_unpack _). exact I. }
  rewrite Hbd in Hf. rewrite Hf, elem_of_add_labels.
  change (columns (drop_duplicates_keep_first KEY_COLUMNS df_s)) with (columns df_s).
  rewrite Hcols, Hv. tauto.
Qed.

(** X23. When transform returns a report without error, run_full_pipeline
    goes on to the load, and what happens there depends on one column: if
    the extracted frame has no guest_email column (which validation does not
    require and cleaning does not add) the selection of the booking columns
    raises KeyError('guest_email') and the pipeline returns nothing; if it
    has one, the pipeline returns success = True with the report, the
    feature summary of the transformed frame and load counters whose total
    is the number of transformed rows. *)
Theorem valid_batch_loads_only_with_guest_email (db : Session) (src : source)
    (clk : clock) (df df_t : DataFrame) (report : DataQualityReport) :
  outcome (extract db src) = inr df →
  outcome (transform parse_datetime db df (clean_time clk)) = inr (df_t, report) →
  is_valid report = true →
  (has_column df "guest_email" = false →
   outcome (run_full_pipeline parse_datetime db src clk) = inl (KeyError "guest_email"))
  ∧ (has_column df "guest_email" = true →
     ∃ db' res counters,
       outcome (run_full_pipeline parse_datetime db src clk) = inr (db', res)
       ∧ success res = true
       ∧ validation_report res = report
       ∧ feature_summary res = Some (get_feature_summary df_t)
       ∧ load_result res = Some counters
       ∧ total counters = Z.of_nat (length (rows df_t))).
Proof.
  intros Hext Htr Hvalid.
  pose proof (transformed_columns _ _ _ _ _ Htr Hvalid) as Hcols.
  assert (Hhas : ∀ c, has_column df_t c
                      = bool_decide (c ∈ columns df ∨ c ∈ DEFAULTED_COLUMNS
                                     ∨ c ∈ ENGINEERED_FEATURES true true)).
  { intros c. unfold has_column. apply bool_decide_ext, Hcols. }
  assert (Hreq : ∀ c, c ∈ REQUIRED_COLUMNS → has_column df_t c = true).
  { intros c Hc. rewrite Hhas. apply bool_decide_eq_true_2. left.
    rewrite transform_outcome in Htr.
    destruct (validate_dataframe parse_datetime df) as [| [df_v rep]] eqn:Hv;
      [discriminate |].
    cbn [mbind result_bind] in Htr. destruct (is_valid rep) eqn:Hrep; cbn [negb] in Htr.
    - apply has_column_elem. exact (valid_has_required _ _ _ Hv Hrep c Hc).
    - injection Htr as _ <-. congruence. }
  assert (Hdef : ∀ c, c ∈ DEFAULTED_COLUMNS → has_column df_t c = true).
  { intros c Hc. rewrite Hhas. apply bool_decide_eq_true_2. right. by left. }
  assert (Hmail : has_column df_t "guest_email" = has_column df "guest_email").
  { rewrite Hhas. unfold has_column. apply bool_decide_ext.
    split; [| by left]. intros [H | [H | H]]; [exact H | |];
      apply (bool_decide_pack _) in H; vm_compute in H; destruct H. }
  assert (Hrun : outcome (run_full_pipeline parse_datetime db src clk)
                 = outcome ('(db', df_l, counters) ←
                              load_to_database db df_t 100 (load_time clk) ;
                            mret (db', mkResult true
                                         (Some (end_time clk - start_time clk)) report
                                         (Some counters) (Some (get_feature_summary df_l))
                                         "ETL pipeline completed successfully"))).
  { unfold run_full_pipeline. rewrite !outcome_bind. cbn [outcome say].
    rewrite Hext, !outcome_bind, Htr. cbv beta iota. rewrite Hvalid. cbn [negb].
    rewrite !outcome_bind.
    destruct (outcome (load_to_database db df_t 100 (load_time clk)))
      as [| [[db' df_l] counters]]; [reflexivity |].
    rewrite !outcome_bind. reflexivity. }
  rewrite Hrun, outcome_bind, load_to_database_unfold by lia.
  rewrite (Hdef "booking_date") by (apply (bool_decide_unpack _); exact I).
  cbv zeta. unfold project, BOOKING_COLS. cbn [List.find].
  rewrite (Hreq "hotel_id"), (Hreq "room_id"), (Hreq "check_in_date"),
    (Hreq "check_out_date"), (Hreq "guest_name"), (Hreq "num_guests"),
    (Hreq "booking_price"), (Hreq "base_price"), (Hdef "booking_source"),
    (Hdef "status"), (Hdef "booking_date")
    by (apply (bool_decide_unpack _); vm_compute; exact I).
  rewrite Hmail. cbn [negb].
  split; intros Hm; rewrite Hm; cbn [negb].
  - reflexivity.
  - cbn [ret outcome]. eexists _, _, _. split; [reflexivity |].
    cbn [success validation_report feature_summary load_result total].
    repeat split. cbn [rows]. by rewrite length_map.
Qed.

End PipelineMoreFacts.

Lemma valid_batch_loads_only_with_guest_email_witness :
  outcome (ETLPipeline.run_full_pipeline Samples.iso_parser Samples.empty_store
             (ETLPipeline.Csv (inr batch_of_required_columns)) Samples.readings)
  = inl (KeyError "guest_email").
Proof.
  assert (Hok : match outcome (ETLPipeline.transform Samples.iso_parser
                                 Samples.empty_store batch_of_required_columns 1001) with
                | inr (_, report) => is_valid report = true
                | inl _ => False
                end).
  { rewrite transform_outcome. vm_compute. reflexivity. }
  destruct (outcome (ETLPipeline.transform Samples.iso_parser Samples.empty_store
                       batch_of_required_columns 1001)) as [e | [df_t report]] eqn:E;
    [destruct Hok |].
  apply (valid_batch_loads_only_with_guest_email Samples.iso_parser Samples.empty_store
           (ETLPipeline.Csv (inr batch_of_required_columns)) Samples.readings
           batch_of_required_columns df_t report eq_refl E Hok).
  reflexivity.
Defined.

(** ** The feature summary endpoint *)

Section IngestionFacts.
Import FeatureEngineer ETLPipeline BookingsApi IngestionApi.

Lemma traverse_raises {A B} (f : A → result B) (x : A) (l : list A) (e : exn) :
  f x = inl e → traverse f (x :: l) = inl e.
Proof. intros H. simpl. by rewrite H. Qed.

(** A frame of stored bookings has no timestamp to take a field of. *)
Lemma time_features_of_dates (df : DataFrame) (r : gmap string cell)
    (rs : list (gmap string cell)) (d : Z) :
  rows df = r :: rs → cell_at "check_in_date" r = CDate d →
  has_column df "check_in_date" = true →
  create_time_features df = inl AttributeError.
Proof.
  intros Hrows Hcell Hcol. unfold create_time_features, column.
  rewrite Hcol, Hrows. cbn [mbind result_bind ret map].
  rewrite (traverse_raises (dt_field dt_dayofweek) _ _ AttributeError);
    [reflexivity |].
  by rewrite Hcell.
Qed.

(** X24. The feature-summary endpoint never returns a summary: with no
    stored booking it answers {'message': 'No bookings found'}; with at
    least one it answers HTTP 500 for every limit, because the frame
    extract_from_database builds holds datetime.date objects and
    create_time_features takes .dt of check_in_date (AttributeError) before
    any feature is made. *)
Theorem feature_summary_endpoint_never_summarises (db : Session) (limit : Z) :
  IngestionApi.get_feature_summary db limit
  = match bookings db with
    | [] => inr NoBookingsFound
    | _ => inl (mkHTTP 500 (ErrorGeneratingFeatureSummary AttributeError))
    end.
Proof.
  unfold IngestionApi.get_feature_summary, extract_from_database.
  rewrite !outcome_bind. cbn [outcome say mret IO_ret mbind result_bind].
  unfold extracted_bookings. destruct (bookings db) as [| b bs]; [reflexivity |].
  cbn [map frame_of_records empty rows columns length Nat.eqb orb EXTRACTED_COLUMNS].
  cbv zeta. unfold features_of_extracted.
  destruct (rows (head limit _)) as [| r rs] eqn:Hrows; [reflexivity |].
  assert (Hr : ∃ d, cell_at "check_in_date" r = CDate d).
  { assert (Hin : r ∈ map booking_record (b :: bs)).
    { match type of Hrows with
      | rows ?f = _ =>
          assert (H : r ∈ rows f) by (rewrite Hrows; apply elem_of_cons; by left)
      end.
      unfold head in H. cbn [rows] in H. by apply subseteq_take in H. }
    apply list_elem_of_fmap in Hin. destruct Hin as (b' & -> & _).
    exists (Booking.check_in_date b'). reflexivity. }
  destruct Hr as [d Hd].
  rewrite all_features_outcome.
  rewrite (time_features_of_dates _ r rs d Hrows Hd); reflexivity.
Qed.

End IngestionFacts.

(** ** The calendar fields of a row *)

Section TimeFacts.
Import FeatureEngineer.

Lemma month_range (t : Z) : 1 <= dt_month t /\ dt_month t <= 12.
Proof.
  unfold dt_month. generalize (day_number t). intros days.
  unfold civil_from_days. cbv zeta. cbn [fst snd].
  set (z := days + 719468). set (doe := z - z / 146097 * 146097).
  assert (Hdoe : 0 <= doe /\ doe < 146097).
  { unfold doe. pose proof (Z.mod_pos_bound z 146097 ltac:(lia)) as H.
    rewrite Z.mod_eq in H by lia. lia. }
  set (yoe := (doe - doe / 1460 + doe / 36524 - doe / 146096) / 365).
  set (doy := doe - (365 * yoe + yoe / 4 - yoe / 100)).
  assert (Hdoy : 0 <= doy /\ doy <= 365).
  { unfold doy, yoe. Z.to_euclidean_division_equations. lia. }
  set (mp := (5 * doy + 2) / 153).
  assert (Hmp : 0 <= mp /\ mp <= 11) by (unfold mp; Z.to_euclidean_division_equations; lia).
  destruct (mp <? 10) eqn:E; [apply Z.ltb_lt in E | apply Z.ltb_ge in E]; lia.
Qed.

Lemma day_range (t : Z) : 1 <= dt_day t /\ dt_day t <= 31.
Proof.
  unfold dt_day. generalize (day_number t). intros days.
  unfold civil_from_days. cbv zeta. cbn [fst snd].
  set (z := days + 719468). set (doe := z - z / 146097 * 146097).
  assert (Hdoe : 0 <= doe /\ doe < 146097).
  { unfold doe. pose proof (Z.mod_pos_bound z 146097 ltac:(lia)) as H.
    rewrite Z.mod_eq in H by lia. lia. }
  set (yoe := (doe - doe / 1460 + doe / 36524 - doe / 146096) / 365).
  set (doy := doe - (365 * yoe + yoe / 4 - yoe / 100)).
  assert (Hdoy : 0 <= doy /\ doy <= 365).
  { unfold doy, yoe. Z.to_euclidean_division_equations. lia. }
  clearbody doy. clear Hdoe. clearbody doe.
  Z.to_euclidean_division_equations. lia.
Qed.

Lemma week_range (t : Z) : 1 <= dt_isoweek t /\ dt_isoweek t <= 53.
Proof.
  unfold dt_isoweek. cbv zeta.
  assert (Hw : ∀ y, weeks_in_year y = 52 ∨ weeks_in_year y = 53).
  { intros y. unfold weeks_in_year. destruct (_ || _); auto. }
  destruct (_ <? 1) eqn:E1.
  - destruct (Hw (dt_year t - 1)); lia.
  - apply Z.ltb_ge in E1. destruct (weeks_in_year (dt_year t) <? _) eqn:E2; [lia |].
    apply Z.ltb_ge in E2. destruct (Hw (dt_year t)); lia.
Qed.

Lemma dt_field_value (f : Z → Z) (c y : cell) :
  dt_field f c = inr y →
  match c with CTime t => y = CInt (f t) | _ => is_null c = true ∧ y = CNull end.
Proof.
  destruct c as [| z | [q | | |] | s | d | t]; simpl; try discriminate;
    intros [= <-]; auto.
Qed.

Lemma set_column_row (df : DataFrame) (c : string) (vals : list cell) (i : nat)
    (r : gmap string cell) (v : cell) :
  rows df !! i = Some r → vals !! i = Some v →
  rows (set_column df c vals) !! i = Some (<[c := v]> r).
Proof.
  intros Hr Hv. cbn [rows set_column]. by rewrite lookup_zip_with, Hr, Hv.
Qed.

Lemma column_row (df : DataFrame) (c : string) (cs : list cell) (i : nat)
    (r : gmap string cell) :
  column df c = inr cs → rows df !! i = Some r → cs !! i = Some (cell_at c r).
Proof.
  intros Hc Hr. apply column_inr in Hc. subst cs. by rewrite list_lookup_fmap, Hr.
Qed.

Lemma isin_flag (values : list Z) (c : cell) : int_between 0 1 (isin values c).
Proof. unfold isin, int_between. destruct (existsb _ _); eexists; split; eauto; lia. Qed.

Ltac cell_simpl :=
  repeat first [rewrite cell_at_insert | rewrite cell_at_insert_ne by discriminate].

(** X25. Whenever create_time_features returns, the frame keeps its rows and
    every column outside the ten time columns. A row with a check-in
    timestamp gets day_of_week in 0..6, day_of_month in 1..31, month in
    1..12, quarter in 1..4, week_of_year in 1..53 and the year of the
    timestamp; is_weekend is 1 exactly for day_of_week 5 and 6; season is
    one of winter, spring, monsoon, autumn and never missing; is_peak_season
    and is_holiday_season are 0 or 1, every winter row is peak season and no
    monsoon row is peak or holiday season. A row without a check-in date
    gets the seven calendar fields missing and the three flags 0, not
    missing. *)
Theorem time_features_of_a_row (df df' : DataFrame) :
  create_time_features df = inr df' →
  length (rows df') = length (rows df)
  ∧ ∀ i r, rows df !! i = Some r →
      ∃ r', rows df' !! i = Some r'
            ∧ (∀ c, c ∉ TIME_FEATURES → cell_at c r' = cell_at c r)
            ∧ match cell_at "check_in_date" r with
              | CTime t => dated_row r' ∧ cell_at "year" r' = CInt (dt_year t)
              | _ => undated_row r'
              end.
Proof.
  unfold create_time_features, mbind, result_bind.
  destruct (column df "check_in_date") as [| ci] eqn:Hci; [discriminate |].
  destruct (traverse (dt_field dt_dayofweek) ci) as [| v1] eqn:H1; [discriminate |].
  destruct (traverse (dt_field dt_day) ci) as [| v2] eqn:H2; [discriminate |].
  destruct (traverse (dt_field dt_month) ci) as [| v3] eqn:H3; [discriminate |].
  destruct (traverse (dt_field dt_quarter) ci) as [| v4] eqn:H4; [discriminate |].
  destruct (traverse (dt_field dt_year) ci) as [| v5] eqn:H5; [discriminate |].
  destruct (traverse (dt_field dt_isoweek) ci) as [| v6] eqn:H6; [discriminate |].
  cbv beta iota zeta.
  destruct (column _ "day_of_week") as [| dow] eqn:Hdow; [discriminate |].
  destruct (column _ "month") as [| month] eqn:Hmonth; [discriminate |].
  intros [= <-].
  pose proof (column_inr _ _ _ Hci) as Hcil.
  assert (Hlen : ∀ (v : list cell) f, traverse f ci = inr v → length v = length (rows df)).
  { intros v f H. rewrite (traverse_length _ _ _ H), Hcil. apply length_map. }
  pose proof (Hlen _ _ H1) as L1. pose proof (Hlen _ _ H2) as L2.
  pose proof (Hlen _ _ H3) as L3. pose proof (Hlen _ _ H4) as L4.
  pose proof (Hlen _ _ H5) as L5. pose proof (Hlen _ _ H6) as L6.
  assert (Ldow : length dow = length (rows df)).
  { apply column_inr in Hdow. subst dow. rewrite length_map.
    cbn [rows set_column]. rewrite !length_zip_with. lia. }
  assert (Lmonth : length month = length (rows df)).
  { apply column_inr in Hmonth. subst month. rewrite length_map.
    cbn [rows set_column]. rewrite !length_zip_with, length_map. lia. }
  split.
  { cbn [rows set_column]. rewrite !length_zip_with, !length_map. lia. }
  intros i r Hr.
  pose proof (column_row _ _ _ _ _ Hci Hr) as Hc.
  destruct (traverse_lookup _ _ _ _ _ H1 Hc) as (y1 & Hy1 & F1).
  destruct (traverse_lookup _ _ _ _ _ H2 Hc) as (y2 & Hy2 & F2).
  destruct (traverse_lookup _ _ _ _ _ H3 Hc) as (y3 & Hy3 & F3).
  destruct (traverse_lookup _ _ _ _ _ H4 Hc) as (y4 & Hy4 & F4).
  destruct (traverse_lookup _ _ _ _ _ H5 Hc) as (y5 & Hy5 & F5).
  destruct (traverse_lookup _ _ _ _ _ H6 Hc) as (y6 & Hy6 & F6).
  pose proof (set_column_row _ "day_of_week" _ _ _ _ Hr Hy1) as R1.
  pose proof (set_column_row _ "day_of_month" _ _ _ _ R1 Hy2) as R2.
  pose proof (set_column_row _ "month" _ _ _ _ R2 Hy3) as R3.
  pose proof (set_column_row _ "quarter" _ _ _ _ R3 Hy4) as R4.
  pose proof (set_column_row _ "year" _ _ _ _ R4 Hy5) as R5.
  pose proof (set_column_row _ "week_of_year" _ _ _ _ R5 Hy6) as R6.
  pose proof (column_row _ _ _ _ _ Hdow R6) as Hd.
  rewrite !cell_at_insert_ne, cell_at_insert in Hd by discriminate.
  assert (Hwe : map (isin [5; 6]) dow !! i = Some (isin [5; 6] y1))
    by (by rewrite list_lookup_fmap, Hd).
  pose proof (set_column_row _ "is_weekend" _ _ _ _ R6 Hwe) as R7.
  pose proof (column_row _ _ _ _ _ Hmonth R7) as Hm.
  rewrite !cell_at_insert_ne, cell_at_insert in Hm by discriminate.
  assert (Hse : map (map_dict SEASONS) month !! i = Some (map_dict SEASONS y3))
    by (by rewrite list_lookup_fmap, Hm).
  assert (Hpk : map (isin [10; 11; 12; 1; 2]) month !! i
                = Some (isin [10; 11; 12; 1; 2] y3))
    by (by rewrite list_lookup_fmap, Hm).
  assert (Hho : map (isin [12; 1; 4; 10]) month !! i = Some (isin [12; 1; 4; 10] y3))
    by (by rewrite list_lookup_fmap, Hm).
  pose proof (set_column_row _ "season" _ _ _ _ R7 Hse) as R8.
  pose proof (set_column_row _ "is_peak_season" _ _ _ _ R8 Hpk) as R9.
  pose proof (set_column_row _ "is_holiday_season" _ _ _ _ R9 Hho) as R10.
  eexists. split; [exact R10 |].
  clear R1 R2 R3 R4 R5 R6 R7 R8 R9 R10 Hwe Hse Hpk Hho Hd Hm.
  split.
  { intros c Hnot. rewrite !cell_at_insert_ne; [reflexivity | ..];
      intros <-; apply Hnot; apply (bool_decide_unpack _); vm_compute; exact I. }
  apply dt_field_value in F1, F2, F3, F4, F5, F6.
  destruct (cell_at "check_in_date" r) as [| z | x | s | d | t] eqn:Hcell.
  1-5: destruct F1 as [_ ->], F2 as [_ ->], F3 as [_ ->], F4 as [_ ->],
         F5 as [_ ->], F6 as [_ ->];
       split; intros c Hin;
       repeat (apply elem_of_cons in Hin; destruct Hin as [-> | Hin];
               [cell_simpl; reflexivity |]);
       by apply elem_of_nil in Hin.
  subst y1 y2 y3 y4 y5 y6. split; [| cell_simpl; reflexivity].
  unfold dated_row. cell_simpl.
  pose proof (month_range t) as Hmr. pose proof (day_range t) as Hdr.
  pose proof (week_range t) as Hwr.
  assert (Hdw : 0 <= dt_dayofweek t ∧ dt_dayofweek t <= 6).
  { unfold dt_dayofweek. pose proof (Z.mod_pos_bound (day_number t + 3) 7). lia. }
  assert (Hq : 1 <= dt_quarter t ∧ dt_quarter t <= 4).
  { unfold dt_quarter. Z.to_euclidean_division_equations. lia. }
  split; [eexists; split; [reflexivity | lia] |].
  split; [eexists; split; [reflexivity | lia] |].
  split; [eexists; split; [reflexivity | lia] |].
  split; [eexists; split; [reflexivity | lia] |].
  split; [eexists; split; [reflexivity | lia] |].
  split.
  { assert (Hcase : dt_dayofweek t = 5 ∨ dt_dayofweek t = 6
                    ∨ (0 <= dt_dayofweek t ∧ dt_dayofweek t <= 4)) by lia.
    destruct Hcase as [-> | [-> | Hlow]]; [left; split; [reflexivity | auto] ..|].
    right. split; [| eexists; split; [reflexivity | lia]].
    unfold isin. cbn [existsb cell_eqb].
    destruct (dt_dayofweek t =? 5) eqn:E5; [apply Z.eqb_eq in E5; lia |].
    destruct (dt_dayofweek t =? 6) eqn:E6; [apply Z.eqb_eq in E6; lia |].
    reflexivity. }
  assert (Hmonths : dt_month t ∈ [1; 2; 3; 4; 5; 6; 7; 8; 9; 10; 11; 12]).
  { assert (H : dt_month t = 1 ∨ dt_month t = 2 ∨ dt_month t = 3 ∨ dt_month t = 4
                ∨ dt_month t = 5 ∨ dt_month t = 6 ∨ dt_month t = 7 ∨ dt_month t = 8
                ∨ dt_month t = 9 ∨ dt_month t = 10 ∨ dt_month t = 11
                ∨ dt_month t = 12) by lia.
    repeat (destruct H as [-> | H]; [apply (bool_decide_unpack _); vm_compute; exact I |]).
    rewrite H. apply (bool_decide_unpack _). vm_compute. exact I. }
  generalize (dt_month t) Hmonths. clear. intros m Hm.
  split; [| split; [apply isin_flag | split; [apply isin_flag |]]].
  - repeat (apply elem_of_cons in Hm; destruct Hm as [-> | Hm];
            [eexists; split; [reflexivity |];
             apply (bool_decide_unpack _); vm_compute; exact I |]).
    by apply elem_of_nil in Hm.
  - repeat (apply elem_of_cons in Hm; destruct Hm as [-> | Hm];
            [split; [intros H | intros H; split]; first [reflexivity | discriminate H] |]).
    by apply elem_of_nil in Hm.
Qed.

End TimeFacts.

Lemma time_features_of_a_row_witness :
  ∃ df' r',
    FeatureEngineer.create_time_features Samples.far_apart_batch = inr df'
    ∧ rows df' !! 0%nat = Some r'
    ∧ dated_row r'.
Proof.
  destruct (FeatureEngineer.create_time_features Samples.far_apart_batch)
    as [e | df'] eqn:E.
  - vm_compute in E. discriminate E.
  - destruct (time_features_of_a_row _ _ E) as [_ H].
    destruct (H 0%nat (Samples.stay_row 1 5 19732 2 100) eq_refl)
      as (r' & Hr' & _ & Hd).
    exists df', r'. split; [reflexivity |]. split; [exact Hr' |].
    exact (proj1 Hd).
Defined.

(** ** The occupancy of a row *)

Section OccupancyFacts.
Import FeatureEngineer.

Ltac cell_simpl :=
  repeat first [rewrite cell_at_insert | rewrite cell_at_insert_ne by discriminate].





End OccupancyFacts.


(** ** The data quality endpoint *)

Section DataQualityFacts.
Import ETLPipeline BookingsApi IngestionApi DataQualityApi.

Variable parse_datetime : string → option Z.






Ltac cell_simpl :=
  repeat first [rewrite cell_at_insert | rewrite cell_at_insert_ne by discriminate].






End DataQualityFacts.
